(** * Git City: request handlers, schema constraints and batch scripts

    A shallow embedding of the parts of the Git City code base that carry
    its business rules:
    - the sky-ad selection ([src/lib/skyAds.ts]);
    - the activity-feed endpoint ([src/app/api/feed/route.ts]);
    - the checkout endpoint ([unnamed/part_007]);
    - the two loadout endpoints ([src/app/api/loadout/route.ts],
      [src/app/api/raid/loadout/route.ts]) and the zone table they import
      ([unnamed/part_002]);
    - the kudos endpoint (the POST handler stored in
      [src/app/api/items/route.ts]);
    - the achievement back-fill script ([unnamed/part_015]);
    - the readers of what these write: the [GET] handlers of the two
      loadout routes, the owned-items helpers ([src/lib/items.ts]), the
      purchase-status endpoint ([unnamed/part_006]) and the queries of the
      raid history ([src/app/api/raid/history/route.ts]) that do not depend
      on paging;
    - the sky-ad tracking endpoint ([src/app/api/sky-ads/track/route.ts]);
    - the constraints of [supabase/migrations/003_monetization.sql] they
      lean on: the partial unique indexes on [purchases] and on
      [raid_tags] and the [raids_no_self] check.

    Conventions.
    - A table with a primary key that the handlers only address by key is
      a [gmap] from the key to the remaining columns; a table whose rows
      are filtered, counted or appended is a [list] of row records.
    - A handler is a function from its inputs (session user, parsed body,
      clock, answers of external providers) and the database to a
      response and the next database.
    - JavaScript strings are [string]s, integral numbers are [Z], the
      floating-point arithmetic of the billboard slot formula is binary64
      ([PrimFloat]), [null]/[undefined] are [None]. *)

From Stdlib Require Import ZArith List Bool Ascii String Lia.
From Stdlib Require Import Sorting.Sorted.
From Stdlib Require Import Floats.PrimFloat Floats.FloatOps Floats.SpecFloat.
From Stdlib Require Import Numbers.DecimalString Numbers.DecimalZ.
From stdpp Require Import base option list gmap strings.

Import ListNotations.
Local Open Scope string_scope.
Local Open Scope Z_scope.

(** ** JavaScript and query-builder helpers *)

Module JS.

(** [x ?? d] *)
Definition nullish {A} (x : option A) (d : A) : A :=
  match x with Some v => v | None => d end.

(** Truthiness of a string-valued expression that may be undefined. *)
Definition truthy_str (x : option string) : bool :=
  match x with
  | Some s => negb (String.eqb s "")
  | None => false
  end.

Definition lower_ascii (c : ascii) : ascii :=
  let n := nat_of_ascii c in
  if ((65 <=? n) && (n <=? 90))%nat then ascii_of_nat (n + 32) else c.

(** [s.toLowerCase()] on the ASCII range. *)
Fixpoint toLowerCase (s : string) : string :=
  match s with
  | EmptyString => EmptyString
  | String c r => String (lower_ascii c) (toLowerCase r)
  end.

(** [arr.includes(x)] on an array of strings. *)
Definition includes (arr : list string) (x : string) : bool :=
  existsb (String.eqb x) arr.

(** [String(n)] for an integral number. *)
Definition num_to_string (n : Z) : string :=
  NilZero.string_of_int (Z.to_int n).

(** [arr.slice(0, n)] *)
Definition slice0 {A} (n : nat) (arr : list A) : list A := firstn n arr.

(** [arr.sort(cmp)]: the sort is stable, so an element moves in front of
    the first later element that the comparator does not put strictly
    before it ([cmp y x < 0] reads: y goes before x). *)
Fixpoint sort_insert {A} (cmp : A -> A -> Z) (x : A) (l : list A) : list A :=
  match l with
  | [] => [x]
  | y :: r => if cmp y x <? 0 then y :: sort_insert cmp x r else x :: y :: r
  end.

Definition sort {A} (cmp : A -> A -> Z) (l : list A) : list A :=
  foldr (sort_insert cmp) [] l.

(** The comparator [(a, b) => key(b) - key(a)]. *)
Definition by_desc {A} (key : A -> Z) (a b : A) : Z := key b - key a.

(** Non-increasing order of the keys. *)
Definition sorted_desc {A} (key : A -> Z) (l : list A) : Prop :=
  StronglySorted (fun a b => key b <= key a) l.

End JS.

(** [.single()] and [.maybeSingle()] of the query builder: the data is the
    row when the result has exactly one row; with no row, or with more than
    one, the data is null (for [.single()] both are errors, for
    [.maybeSingle()] only the second is). The handlers below read only the
    data, so one function serves both. *)
Definition single {A} (rows : list A) : option A :=
  match rows with
  | [r] => Some r
  | _ => None
  end.

(** ** Sky ads ([src/lib/skyAds.ts]) *)

Module SkyAds.

Inductive vehicle_t := plane | blimp.

Definition vehicle_eqb (a b : vehicle_t) : bool :=
  match a, b with
  | plane, plane | blimp, blimp => true
  | _, _ => false
  end.

Record SkyAd := {
  id : string;
  text : string;
  brand : option string;
  description : option string;
  color : string;
  bgColor : string;
  link : option string;
  vehicle : vehicle_t;
  priority : Z
}.

Definition MAX_PLANES : nat := 3.
Definition MAX_BLIMPS : nat := 2.
Definition MAX_TEXT_LENGTH : nat := 80.

(** [/^(https:\/\/|mailto:)/.test(s)] *)
Definition ALLOWED_LINK_PATTERN (s : string) : bool :=
  String.prefix "https://" s || String.prefix "mailto:" s.

Definition is_hex_digit (c : ascii) : bool :=
  let n := nat_of_ascii c in
  (((48 <=? n) && (n <=? 57)) || ((97 <=? n) && (n <=? 102))
   || ((65 <=? n) && (n <=? 70)))%nat.

Definition all_hex (s : string) : bool :=
  forallb is_hex_digit (list_ascii_of_string s).

(** [/^#[0-9a-fA-F]{6}$/.test(s)] *)
Definition HEX_COLOR_PATTERN (s : string) : bool :=
  match s with
  | String "#" r => (String.length r =? 6)%nat && all_hex r
  | _ => false
  end.

Definition ad_passes (ad : SkyAd) : bool :=
  if (MAX_TEXT_LENGTH <? String.length (text ad))%nat then false
  else if JS.truthy_str (link ad)
          && negb (ALLOWED_LINK_PATTERN (JS.nullish (link ad) "")) then false
  else if negb (HEX_COLOR_PATTERN (color ad)) then false
  else if negb (HEX_COLOR_PATTERN (bgColor ad)) then false
  else true.

Definition validateAds (ads : list SkyAd) : list SkyAd :=
  JS.sort (JS.by_desc priority) (List.filter ad_passes ads).

Record ActiveAds := { planeAds : list SkyAd; blimpAds : list SkyAd }.

Definition getActiveAds (ads : list SkyAd) : ActiveAds :=
  let valid := validateAds ads in
  {| planeAds :=
       JS.slice0 MAX_PLANES
         (List.filter (fun a => vehicle_eqb (vehicle a) plane) valid);
     blimpAds :=
       JS.slice0 MAX_BLIMPS
         (List.filter (fun a => vehicle_eqb (vehicle a) blimp) valid) |}.

(** The built-in ads; the star and the arrow of the two first texts are
    written in ASCII. *)
Definition DEFAULT_SKY_ADS : list SkyAd :=
  [ {| id := "gitcity";
       text := "THEGITCITY.COM * YOUR CODE, YOUR CITY * THEGITCITY.COM";
       brand := Some "Git City";
       description := Some "A city built from GitHub contributions. Search your username and find your building among thousands of developers.";
       color := "#f8d880"; bgColor := "#1a1018";
       link := Some "https://thegitcity.com";
       vehicle := plane; priority := 100 |};
    {| id := "samuel";
       text := "HEY, I BUILD THIS! > SAMUELRIZZON.DEV";
       brand := Some "Samuel Rizzon";
       description := Some "Full-stack dev who builds weird and cool stuff. This city is one of them.";
       color := "#c8e64a"; bgColor := "#1a1018";
       link := Some "https://www.samuelrizzon.dev/en.html";
       vehicle := plane; priority := 90 |};
    {| id := "build";
       text := "YOUR AI COPILOT TO GROW ON X";
       brand := Some "ReplyOS";
       description := Some "I grew +1.2k followers and 1M views in 3 weeks using ReplyOS. Viral library, lead radar, post writer, auto-replies. Your AI copilot to grow on X.";
       color := "#ffffff"; bgColor := "#2a1838";
       link := Some "https://reply-os.com";
       vehicle := blimp; priority := 80 |};
    {| id := "advertise";
       text := "ADD YOUR AD HERE";
       brand := Some "Sky Ads";
       description := Some "Want your brand flying over Git City? Planes, blimps, your colors. Get in touch!";
       color := "#f8d880"; bgColor := "#1a1018";
       link := Some "mailto:samuelrizzondev@gmail.com?subject=Git%20City%20Sky%20Ad";
       vehicle := plane; priority := 10 |} ].

(** What the selection promises about one returned ad; the link clause
    is parameterised by when a link counts as given. *)
Definition well_formed_ad (link_given : option string -> bool) (ad : SkyAd) : Prop :=
  (String.length (text ad) <= MAX_TEXT_LENGTH)%nat
  /\ HEX_COLOR_PATTERN (color ad) = true
  /\ HEX_COLOR_PATTERN (bgColor ad) = true
  /\ (forall l, link ad = Some l -> link_given (link ad) = true ->
        ALLOWED_LINK_PATTERN l = true).

(** The guarantee for a whole result. *)
Definition active_ads_ok (link_given : option string -> bool) (r : ActiveAds) : Prop :=
  (length (planeAds r) <= 3)%nat
  /\ (length (blimpAds r) <= 2)%nat
  /\ Forall (well_formed_ad link_given) (planeAds r)
  /\ Forall (well_formed_ad link_given) (blimpAds r)
  /\ JS.sorted_desc priority (planeAds r)
  /\ JS.sorted_desc priority (blimpAds r).

End SkyAds.

(** ** JSON values ([jsonb] columns, response bodies) *)

#[local] Set Warnings "-register-all".

Inductive json :=
| JNull
| JBool (b : bool)
| JNum (n : Z)
| JStr (s : string)
| JArr (items : list json)
| JObj (fields : list (string * json)).

Module Json.

(** [o.k] on a value that may not be an object or may lack the field. *)
Definition field (k : string) (o : json) : option json :=
  match o with
  | JObj fields =>
      match List.find (fun kv => String.eqb (fst kv) k) fields with
      | Some kv => Some (snd kv)
      | None => None
      end
  | _ => None
  end.

(** A field read as [string | undefined]; null counts as absent, as under
    the [??] the handlers apply to it. *)
Definition str_field (k : string) (o : json) : option string :=
  match field k o with
  | Some (JStr s) => Some s
  | _ => None
  end.

Definition of_opt_str (x : option string) : json :=
  match x with Some s => JStr s | None => JNull end.

End Json.

(** ** Tables under constraints

    A statement that would leave a table in a state that violates one of
    its constraints is rejected as a whole and changes nothing. *)

Section ConstrainedTable.
Context {row : Type} (admissible : list row -> bool).

Inductive stmt :=
| Insert (r : row)
| Update (where_ : row -> bool) (set : row -> row)
| Delete (where_ : row -> bool).

Definition stmt_result (s : stmt) (t : list row) : list row :=
  match s with
  | Insert r => t ++ [r]
  | Update w f => map (fun r => if w r then f r else r) t
  | Delete w => List.filter (fun r => negb (w r)) t
  end.

(** [None]: the statement raised a constraint violation. *)
Definition exec (s : stmt) (t : list row) : option (list row) :=
  let t' := stmt_result s t in
  if admissible t' then Some t' else None.

(** A client that goes on after an error. *)
Definition exec_or_keep (s : stmt) (t : list row) : list row :=
  match exec s t with Some t' => t' | None => t end.

(** The table after a sequence of statements; the tables reachable from
    the empty one are the [run ss []]. *)
Definition run (ss : list stmt) (t : list row) : list row :=
  fold_left (fun t s => exec_or_keep s t) ss t.

End ConstrainedTable.

Arguments stmt : clear implicits.
Arguments Insert {row} r.
Arguments Update {row} where_ set.
Arguments Delete {row} where_.

(** ** Schema ([supabase/migrations/003_monetization.sql]) *)

Module Developers.

(** The columns of [developers] that the code under study reads or writes;
    the key of the table is [id]. *)
Record row := {
  github_login : string;
  claimed : bool;
  claimed_by : option string;
  contributions : option Z;
  public_repos : option Z;
  total_stars : option Z;
  kudos_count : option Z;
  referral_count : option Z;
  rank : option Z;
  avatar_url : option string
}.

Definition with_kudos_count (k : option Z) (r : row) : row :=
  {| github_login := github_login r; claimed := claimed r;
     claimed_by := claimed_by r; contributions := contributions r;
     public_repos := public_repos r; total_stars := total_stars r;
     kudos_count := k; referral_count := referral_count r;
     rank := rank r; avatar_url := avatar_url r |}.

End Developers.

Module Items.

Record row := {
  category : string;
  name : string;
  price_usd_cents : Z;
  price_brl_cents : Z;
  is_active : bool
}.

End Items.

Module Purchases.

Record row := {
  id : positive;
  developer_id : Z;
  item_id : string;
  provider : string;
  provider_tx_id : option string;
  amount_cents : Z;
  currency : string;
  status : string;
  gifted_to : option Z
}.

Definition with_status (s : string) (r : row) : row :=
  {| id := id r; developer_id := developer_id r; item_id := item_id r;
     provider := provider r; provider_tx_id := provider_tx_id r;
     amount_cents := amount_cents r; currency := currency r;
     status := s; gifted_to := gifted_to r |}.

Definition with_provider_tx_id (tx : option string) (r : row) : row :=
  {| id := id r; developer_id := developer_id r; item_id := item_id r;
     provider := provider r; provider_tx_id := tx;
     amount_cents := amount_cents r; currency := currency r;
     status := status r; gifted_to := gifted_to r |}.

Definition has_status (s : string) (r : row) : bool := String.eqb (status r) s.

(** [.eq("developer_id", d).eq("item_id", i).eq("status", s)] *)
Definition matches (d : Z) (i : string) (s : string) (r : row) : bool :=
  (developer_id r =? d) && String.eqb (item_id r) i && has_status s r.

(** The rows a developer holds of one item in one status. *)
Definition held (d : Z) (i : string) (s : string) (t : list row) : list row :=
  List.filter (matches d i s) t.

(** [id uuid primary key] *)
Definition purchases_pkey (t : list row) : bool :=
  bool_decide (NoDup (map id t)).

(** [provider_tx_id text unique]: nulls never collide. *)
Definition purchases_provider_tx_id_key (t : list row) : bool :=
  bool_decide (NoDup (omap provider_tx_id t)).

(** [create unique index idx_purchases_unique_completed
     on purchases(developer_id, item_id) where status = 'completed'] *)
Definition idx_purchases_unique_completed (t : list row) : bool :=
  bool_decide
    (NoDup (map (fun r => (developer_id r, item_id r))
              (List.filter (has_status "completed") t))).

Definition admissible (t : list row) : bool :=
  purchases_pkey t && purchases_provider_tx_id_key t
  && idx_purchases_unique_completed t.

(** Every id in use is below [next]: the uuids handed out so far. *)
Definition ids_below (next : positive) (t : list row) : Prop :=
  Forall (fun r => (id r < next)%positive) t.

End Purchases.

Module Raids.

Record row := {
  id : positive;
  attacker_id : Z;
  defender_id : Z;
  attack_score : Z;
  defense_score : Z;
  success : bool;
  attacker_vehicle : string;
  attacker_tag_style : string;
  created_at : Z
}.

(** [CONSTRAINT raids_no_self CHECK (attacker_id != defender_id)] *)
Definition raids_no_self (r : row) : bool :=
  negb (attacker_id r =? defender_id r).

Definition raids_pkey (t : list row) : bool :=
  bool_decide (NoDup (map id t)).

Definition admissible (t : list row) : bool :=
  raids_pkey t && forallb raids_no_self t.

End Raids.

Module Customizations.

(** [developer_customizations], keyed by its
    [unique (developer_id, item_id)]. *)
Record row := {
  config : json;
  updated_at : Z
}.

End Customizations.

Module Achievements.

Record row := {
  id : string;
  category : string;
  name : string;
  threshold : Z;
  tier : string;
  reward_type : string;
  reward_item_id : option string;
  sort_order : Z
}.

End Achievements.

Module ActivityFeed.

Record row := {
  id : positive;
  event_type : string;
  actor_id : option Z;
  target_id : option Z;
  metadata : json;
  created_at : Z
}.

End ActivityFeed.

(** The database. [uuid_seq] stands for [gen_random_uuid()]: it yields a
    value that was never handed out before. *)
Record db := {
  developers : gmap Z Developers.row;
  items : gmap string Items.row;
  purchases : list Purchases.row;
  developer_customizations : gmap (Z * string) Customizations.row;
  achievements : list Achievements.row;
  developer_achievements : gset (Z * string);
  developer_kudos : gset (Z * Z * string);
  activity_feed : list ActivityFeed.row;
  raids : list Raids.row;
  uuid_seq : positive
}.

Module Db.

Definition with_developers (x : gmap Z Developers.row) (d : db) : db :=
  {| developers := x; items := items d; purchases := purchases d;
     developer_customizations := developer_customizations d;
     achievements := achievements d;
     developer_achievements := developer_achievements d;
     developer_kudos := developer_kudos d;
     activity_feed := activity_feed d; raids := raids d;
     uuid_seq := uuid_seq d |}.

Definition with_purchases (x : list Purchases.row) (d : db) : db :=
  {| developers := developers d; items := items d; purchases := x;
     developer_customizations := developer_customizations d;
     achievements := achievements d;
     developer_achievements := developer_achievements d;
     developer_kudos := developer_kudos d;
     activity_feed := activity_feed d; raids := raids d;
     uuid_seq := uuid_seq d |}.

Definition with_developer_customizations
    (x : gmap (Z * string) Customizations.row) (d : db) : db :=
  {| developers := developers d; items := items d; purchases := purchases d;
     developer_customizations := x;
     achievements := achievements d;
     developer_achievements := developer_achievements d;
     developer_kudos := developer_kudos d;
     activity_feed := activity_feed d; raids := raids d;
     uuid_seq := uuid_seq d |}.

Definition with_developer_achievements (x : gset (Z * string)) (d : db) : db :=
  {| developers := developers d; items := items d; purchases := purchases d;
     developer_customizations := developer_customizations d;
     achievements := achievements d;
     developer_achievements := x;
     developer_kudos := developer_kudos d;
     activity_feed := activity_feed d; raids := raids d;
     uuid_seq := uuid_seq d |}.

Definition with_developer_kudos (x : gset (Z * Z * string)) (d : db) : db :=
  {| developers := developers d; items := items d; purchases := purchases d;
     developer_customizations := developer_customizations d;
     achievements := achievements d;
     developer_achievements := developer_achievements d;
     developer_kudos := x;
     activity_feed := activity_feed d; raids := raids d;
     uuid_seq := uuid_seq d |}.

Definition with_activity_feed (x : list ActivityFeed.row) (d : db) : db :=
  {| developers := developers d; items := items d; purchases := purchases d;
     developer_customizations := developer_customizations d;
     achievements := achievements d;
     developer_achievements := developer_achievements d;
     developer_kudos := developer_kudos d;
     activity_feed := x; raids := raids d;
     uuid_seq := uuid_seq d |}.

Definition with_uuid_seq (x : positive) (d : db) : db :=
  {| developers := developers d; items := items d; purchases := purchases d;
     developer_customizations := developer_customizations d;
     achievements := achievements d;
     developer_achievements := developer_achievements d;
     developer_kudos := developer_kudos d;
     activity_feed := activity_feed d; raids := raids d;
     uuid_seq := x |}.

(** The database before the first statement. *)
Definition empty : db :=
  {| developers := ∅; items := ∅; purchases := [];
     developer_customizations := ∅; achievements := [];
     developer_achievements := ∅; developer_kudos := ∅;
     activity_feed := []; raids := []; uuid_seq := 1%positive |}.

(** [.from("developers").select(..).eq("github_login", login).single()] *)
Definition developer_by_login (login : string) (d : db)
    : option (Z * Developers.row) :=
  single (List.filter
            (fun kv => String.eqb (Developers.github_login (snd kv)) login)
            (map_to_list (developers d))).

(** [.from("purchases").insert(row)] with the columns the caller gives and
    the defaults of the table; the foreign keys to [developers] and [items]
    and the constraints of [purchases] are checked. The result is the
    stored row, or [None] for the error. *)
Definition insert_purchase (mk : positive -> Purchases.row) (d : db)
    : option Purchases.row * db :=
  let r := mk (uuid_seq d) in
  if bool_decide (is_Some (developers d !! Purchases.developer_id r))
     && bool_decide (is_Some (items d !! Purchases.item_id r))
  then
    match exec Purchases.admissible (Insert r) (purchases d) with
    | Some t => (Some r, with_uuid_seq (Pos.succ (uuid_seq d)) (with_purchases t d))
    | None => (None, d)
    end
  else (None, d).

(** [.from("purchases").delete().eq("id", id)] *)
Definition delete_purchase (id : positive) (d : db) : db :=
  with_purchases
    (exec_or_keep Purchases.admissible
       (Delete (fun r => Pos.eqb (Purchases.id r) id)) (purchases d)) d.

(** [.from("purchases").update({ provider_tx_id }).eq("id", id)], the
    result of which the caller does not look at. *)
Definition set_purchase_tx (id : positive) (tx : string) (d : db) : db :=
  with_purchases
    (exec_or_keep Purchases.admissible
       (Update (fun r => Pos.eqb (Purchases.id r) id)
               (Purchases.with_provider_tx_id (Some tx))) (purchases d)) d.

(** [.from("activity_feed").insert(event)]: [id] and [created_at] are the
    defaults of the table, a fresh uuid and the time of the statement. *)
Definition insert_feed_event (now : Z) (event_type : string)
    (actor target : option Z) (metadata : json) (d : db) : db :=
  let e := {| ActivityFeed.id := uuid_seq d;
              ActivityFeed.event_type := event_type;
              ActivityFeed.actor_id := actor;
              ActivityFeed.target_id := target;
              ActivityFeed.metadata := metadata;
              ActivityFeed.created_at := now |} in
  with_uuid_seq (Pos.succ (uuid_seq d))
    (with_activity_feed (activity_feed d ++ [e]) d).

End Db.

(** ** Requests and responses *)

(** The session user as the handlers read it: [user.id], [user.email] and
    the two GitHub names of [user.user_metadata]. *)
Record User := {
  user_id : string;
  email : option string;
  user_name : option string;
  preferred_username : option string
}.

(** [(user.user_metadata.user_name ?? user.user_metadata.preferred_username
      ?? "").toLowerCase()] *)
Definition github_login_of (u : User) : string :=
  JS.toLowerCase
    (JS.nullish (user_name u) (JS.nullish (preferred_username u) "")).

(** [NextResponse.json(body, { status })] *)
Record response := {
  status : Z;
  body : json
}.

Definition respond (status : Z) (body : json) : response :=
  {| status := status; body := body |}.

Definition error_response (status : Z) (msg : string) : response :=
  respond status (JObj [("error", JStr msg)]).

(** ** Numbers read from the query string *)

Module Num.

Definition is_digit (c : ascii) : bool :=
  let n := nat_of_ascii c in ((48 <=? n) && (n <=? 57))%nat.

Definition is_space (c : ascii) : bool :=
  let n := nat_of_ascii c in
  ((n =? 32) || ((9 <=? n) && (n <=? 13)))%nat.

Fixpoint skip_spaces (s : string) : string :=
  match s with
  | String c r => if is_space c then skip_spaces r else s
  | EmptyString => s
  end.

(** The value of the longest prefix of decimal digits, after [acc]. *)
Fixpoint digits (acc : Z) (s : string) : Z :=
  match s with
  | String c r =>
      if is_digit c
      then digits (10 * acc + (Z.of_nat (nat_of_ascii c) - 48)) r
      else acc
  | EmptyString => acc
  end.

Definition starts_with_digit (s : string) : bool :=
  match s with
  | String c _ => is_digit c
  | EmptyString => false
  end.

(** [parseInt(s, 10)]; [None] is NaN. *)
Definition parseInt (s : string) : option Z :=
  let s := skip_spaces s in
  let '(neg, s) :=
    match s with
    | String "-" r => (true, r)
    | String "+" r => (false, r)
    | _ => (false, s)
    end in
  if starts_with_digit s
  then Some (if neg then - digits 0 s else digits 0 s)
  else None.

(** [Math.max(a, x)] and [Math.min(a, x)] for a number [a] and a value
    [x] that may be NaN. *)
Definition max_with (a : Z) (x : option Z) : option Z := Z.max a <$> x.
Definition min_with (a : Z) (x : option Z) : option Z := Z.min a <$> x.

End Num.

(** ** Activity feed ([src/app/api/feed/route.ts]) *)

Module Feed.

(** The query parameters. [before] is the uuid the cursor denotes; a
    parameter that is missing, empty or not a uuid selects no cursor row
    and is [None]. *)
Record request := {
  limit : option string;
  before : option positive
}.

Record dev_info := {
  login : string;
  avatar : option string
}.

Record enriched := {
  event : ActivityFeed.row;
  actor : option dev_info;
  target : option dev_info
}.

Record feed_response := {
  events : list enriched;
  has_more : bool
}.

(** [Math.min(50, Math.max(1, parseInt(searchParams.get("limit") ?? "20", 10)))] *)
Definition limit_of (req : request) : option Z :=
  Num.min_with 50 (Num.max_with 1 (Num.parseInt (JS.nullish (limit req) "20"))).

(** The [created_at] of the cursor event, when the cursor finds one. *)
Definition cursor_of (req : request) (d : db) : option Z :=
  match before req with
  | Some id =>
      ActivityFeed.created_at <$>
        single (List.filter (fun e => Pos.eqb (ActivityFeed.id e) id)
                  (activity_feed d))
  | None => None
  end.

(** The rows the query selects, newest first, before the limit applies. *)
Definition selected (req : request) (d : db) : list ActivityFeed.row :=
  JS.sort (JS.by_desc ActivityFeed.created_at)
    (match cursor_of req d with
     | Some c =>
         List.filter (fun e => ActivityFeed.created_at e <? c) (activity_feed d)
     | None => activity_feed d
     end).

(** Truthiness of an id column. *)
Definition truthy_id (x : option Z) : bool :=
  match x with Some n => negb (n =? 0) | None => false end.

Definition dev_ids (evs : list ActivityFeed.row) : gset Z :=
  foldl (fun s e =>
           let s := if truthy_id (ActivityFeed.actor_id e)
                    then s ∪ {[ JS.nullish (ActivityFeed.actor_id e) 0 ]} else s in
           if truthy_id (ActivityFeed.target_id e)
           then s ∪ {[ JS.nullish (ActivityFeed.target_id e) 0 ]} else s)
        ∅ evs.

(** [devMap]: the developers whose id is in [devIds]. *)
Definition dev_map (ids : gset Z) (d : db) : gmap Z dev_info :=
  if bool_decide (ids = ∅) then ∅
  else
    (fun r => {| login := Developers.github_login r;
                 avatar := Developers.avatar_url r |})
      <$> filter (fun kv => fst kv ∈ ids) (developers d).

Definition enrich (m : gmap Z dev_info) (e : ActivityFeed.row) : enriched :=
  {| event := e;
     actor := if truthy_id (ActivityFeed.actor_id e)
              then m !! JS.nullish (ActivityFeed.actor_id e) 0 else None;
     target := if truthy_id (ActivityFeed.target_id e)
               then m !! JS.nullish (ActivityFeed.target_id e) 0 else None |}.

Section Handler.

(** What the query yields when the handler passes NaN as its limit: the
    data, or [None] for an error. The request then carries [limit=NaN],
    and what the REST layer makes of it is not decided by this code. *)
Variable on_nan_limit : list ActivityFeed.row -> option (list ActivityFeed.row).

(** [const { data: events } = await query] *)
Definition query (req : request) (d : db) : option (list ActivityFeed.row) :=
  match limit_of req with
  | Some n => Some (firstn (Z.to_nat n) (selected req d))
  | None => on_nan_limit (selected req d)
  end.

Definition GET (req : request) (d : db) : feed_response :=
  match query req d with
  | None | Some [] => {| events := []; has_more := false |}
  | Some evs =>
      let m := dev_map (dev_ids evs) d in
      {| events := map (enrich m) evs;
         has_more :=
           match limit_of req with
           | Some n => Z.of_nat (length evs) =? n
           | None => false
           end |}
  end.

End Handler.

End Feed.

(** ** JavaScript numbers (binary64) *)

Module Number.

(** The number that holds an integer (exact below 2^53, rounded above). *)
Definition of_Z (z : Z) : float := SF2Prim (binary_normalize prec emax z 0 false).

(** A numeric column in arithmetic position: null counts as 0. *)
Definition of_column (x : option Z) : float := of_Z (JS.nullish x 0).

(** The signed mantissa of a finite number. *)
Definition signed (s : bool) (m : positive) : Z := if s then Z.neg m else Z.pos m.

(** [Math.floor] *)
Definition floor (x : float) : float :=
  match Prim2SF x with
  | S754_finite s m e =>
      if 0 <=? e then x else of_Z (Z.shiftr (signed s m) (- e))
  | _ => x
  end.

(** [Math.round]: the nearest integer, halves going up. *)
Definition round (x : float) : float :=
  match Prim2SF x with
  | S754_finite s m e =>
      if 0 <=? e then x
      else of_Z (Z.shiftr (2 * signed s m + Z.shiftl 1 (- e)) (- e + 1))
  | _ => x
  end.

(** [Math.max] and [Math.min] of two numbers: NaN when either is NaN. *)
Definition max (a b : float) : float :=
  if PrimFloat.is_nan a || PrimFloat.is_nan b then nan
  else if PrimFloat.ltb a b then b else a.

Definition min (a b : float) : float :=
  if PrimFloat.is_nan a || PrimFloat.is_nan b then nan
  else if PrimFloat.ltb b a then b else a.

(** [a >= b] *)
Definition geb (a b : float) : bool := PrimFloat.leb b a.

(** The integer an integral number holds; 0 for what holds none. *)
Definition to_Z (x : float) : Z :=
  match Prim2SF x with
  | S754_finite s m e =>
      if 0 <=? e then Z.shiftl (signed s m) e else Z.shiftr (signed s m) (- e)
  | _ => 0
  end.

End Number.

(** ** Checkout ([unnamed/part_007]) *)

Module Checkout.

(** The request body once parsed; a field that is missing is [None]. *)
Record checkout_body := {
  item_id : option string;
  provider : option string;
  currency : option string
}.

(** What [createPixQrCode] returns. *)
Record pix_code := {
  brCode : string;
  brCodeBase64 : string;
  pixId : string
}.

(** Everything the handler reads from outside the database: the session,
    the clock, the body ([None]: it does not parse) and the answers of the
    two payment providers ([None]: the call throws). *)
Record request := {
  user : option User;
  now : Z;
  body : option checkout_body;
  stripe_session : option string;
  pix : option pix_code
}.

(** The module-level [lastCheckout] map and the database. *)
Record server := {
  lastCheckout : gmap string Z;
  database : db
}.

Definition with_database (d : db) (s : server) : server :=
  {| lastCheckout := lastCheckout s; database := d |}.

Definition with_lastCheckout (m : gmap string Z) (s : server) : server :=
  {| lastCheckout := m; database := database s |}.

(** [last && now - last < 10_000] *)
Definition too_fast (last : option Z) (now : Z) : bool :=
  match last with
  | Some l => negb (l =? 0) && (now - l <? 10000)
  | None => false
  end.

(** [.from("items").select("*").eq("id", id).eq("is_active", true).single()] *)
Definition active_item (id : string) (d : db) : option Items.row :=
  match items d !! id with
  | Some it => if Items.is_active it then Some it else None
  | None => None
  end.

(** The billboard slots of a building, from the row [devFull]. *)
Definition maxSlots (devFull : Developers.row) : float :=
  (let repoFactor :=
     Number.min 1 (Number.of_column (Developers.public_repos devFull) / 100) in
   let baseW := 14 + repoFactor * 16 in
   let w := Number.round (baseW + 5) in
   let d := Number.round (12 + 10) in
   let h :=
     Number.max 30
       (12 + PrimFloat.sqrt (Number.of_column (Developers.contributions devFull)) * 3) in
   let minBillArea := 10 * 8 in
   let totalFaceArea := 2 * (w + d) * h in
   Number.max 1 (Number.floor (totalFaceArea / (minBillArea * 6))))%float.

(** [billboardCount]: the completed billboard purchases of a developer. *)
Definition billboardCount (dev_id : Z) (d : db) : Z :=
  Z.of_nat (length (Purchases.held dev_id "billboard" "completed" (purchases d))).

(** The ownership checks: the response when one of them rejects. *)
Definition ownership_guard (dev_id : Z) (item : string) (d : db) : option response :=
  if String.eqb item "billboard" then
    match developers d !! dev_id with
    | Some devFull =>
        if Number.geb (Number.of_Z (billboardCount dev_id d)) (maxSlots devFull)
        then Some (error_response 409
                     ("Max billboard slots reached ("
                      ++ JS.num_to_string (Number.to_Z (maxSlots devFull)) ++ ")"))
        else None
    | None => None
    end
  else
    match single (Purchases.held dev_id item "completed" (purchases d)) with
    | Some _ => Some (error_response 409 "Already owned")
    | None => None
    end.

(** The pending purchase of the pair is deleted when the lookup finds it. *)
Definition clear_pending (dev_id : Z) (item : string) (d : db) : db :=
  match single (Purchases.held dev_id item "pending" (purchases d)) with
  | Some pendingPurchase => Db.delete_purchase (Purchases.id pendingPurchase) d
  | None => d
  end.

Definition pending_row (dev_id : Z) (item provider : string) (amount : Z)
    (cur : string) (id : positive) : Purchases.row :=
  {| Purchases.id := id; Purchases.developer_id := dev_id;
     Purchases.item_id := item; Purchases.provider := provider;
     Purchases.provider_tx_id := None; Purchases.amount_cents := amount;
     Purchases.currency := cur; Purchases.status := "pending";
     Purchases.gifted_to := None |}.

Definition uuid_json (id : positive) : json := JNum (Z.pos id).

(** The [try] block: the pending purchase is written, then the provider
    is called. *)
Definition pay (req : request) (dev_id : Z) (item : string) (it : Items.row)
    (provider : string) (cur : option string) (d : db) : response * db :=
  if String.eqb provider "stripe" then
    let useBrl := bool_decide (cur = Some "brl") in
    let amountCents :=
      if useBrl then Items.price_brl_cents it else Items.price_usd_cents it in
    let cur := if useBrl then "brl" else "usd" in
    match Db.insert_purchase (pending_row dev_id item "stripe" amountCents cur) d with
    | (None, d) => (error_response 500 "Failed to create purchase", d)
    | (Some purchase, d) =>
        match stripe_session req with
        | Some url =>
            (respond 200 (JObj [("url", JStr url);
                                ("purchase_id", uuid_json (Purchases.id purchase))]), d)
        | None => (error_response 500 "Failed to create checkout session", d)
        end
    end
  else
    match Db.insert_purchase
            (pending_row dev_id item "abacatepay" (Items.price_brl_cents it) "brl") d with
    | (None, d) => (error_response 500 "Failed to create purchase", d)
    | (Some purchase, d) =>
        match pix req with
        | Some code =>
            let d := Db.set_purchase_tx (Purchases.id purchase) (pixId code) d in
            (respond 200 (JObj [("brCode", JStr (brCode code));
                                ("brCodeBase64", JStr (brCodeBase64 code));
                                ("purchase_id", uuid_json (Purchases.id purchase))]), d)
        | None => (error_response 500 "Failed to create checkout session", d)
        end
    end.

Definition valid_provider (p : option string) : bool :=
  JS.truthy_str p && JS.includes ["stripe"; "abacatepay"] (JS.nullish p "").

Definition POST (req : request) (s : server) : response * server :=
  match user req with
  | None => (error_response 401 "Not authenticated", s)
  | Some u =>
      if too_fast (lastCheckout s !! user_id u) (now req)
      then (error_response 429 "Too fast. Wait a few seconds.", s)
      else
        let s := with_lastCheckout (<[user_id u := now req]> (lastCheckout s)) s in
        let githubLogin := github_login_of u in
        if String.eqb githubLogin ""
        then (error_response 400 "No GitHub login found", s)
        else
          match Db.developer_by_login githubLogin (database s) with
          | None => (error_response 403 "You must claim your building first", s)
          | Some (dev_id, dev) =>
              if negb (Developers.claimed dev)
              then (error_response 403 "You must claim your building first", s)
              else if negb (bool_decide (Developers.claimed_by dev = Some (user_id u)))
              then (error_response 403 "This building is not yours", s)
              else
                match body req with
                | None => (error_response 400 "Invalid body", s)
                | Some b =>
                    if negb (JS.truthy_str (item_id b)) || negb (valid_provider (provider b))
                    then (error_response 400 "Invalid item_id or provider", s)
                    else
                      let item := JS.nullish (item_id b) "" in
                      match active_item item (database s) with
                      | None => (error_response 404 "Item not found or inactive", s)
                      | Some it =>
                          match ownership_guard dev_id item (database s) with
                          | Some rejected => (rejected, s)
                          | None =>
                              let d := clear_pending dev_id item (database s) in
                              let '(r, d) :=
                                pay req dev_id item it (JS.nullish (provider b) "")
                                    (currency b) d in
                              (r, with_database d s)
                          end
                      end
                end
          end
  end.

End Checkout.

(** ** Customizations: upsert *)

Module DbCustom.

(** [.from("developer_customizations").upsert(row, { onConflict:
    "developer_id,item_id" })], the result of which the callers do not look
    at: the row of the pair is written or replaced, unless a foreign key
    ([developer_id] to [developers], [item_id] to [items]) has no target. *)
Definition upsert_customization (dev_id : Z) (item : string)
    (row : Customizations.row) (d : db) : db :=
  if bool_decide (is_Some (developers d !! dev_id))
     && bool_decide (is_Some (items d !! item))
  then Db.with_developer_customizations
         (<[(dev_id, item) := row]> (developer_customizations d)) d
  else d.

(** The item ids of the completed purchases of a developer ([ownedSet]). *)
Definition owned (dev_id : Z) (d : db) : list string :=
  map Purchases.item_id
    (List.filter
       (fun r => (Purchases.developer_id r =? dev_id)
                 && Purchases.has_status "completed" r)
       (purchases d)).

(** The building the session user owns: [!dev || !dev.claimed ||
    dev.claimed_by !== user.id] is false. *)
Definition owned_building (u : User) (d : db) : option Z :=
  match Db.developer_by_login (github_login_of u) d with
  | Some (dev_id, dev) =>
      if Developers.claimed dev
         && bool_decide (Developers.claimed_by dev = Some (user_id u))
      then Some dev_id else None
  | None => None
  end.

End DbCustom.

(** ** Zones ([unnamed/part_002]) *)

Module Zones.

Definition ZONE_ITEMS (zone : string) : option (list string) :=
  if String.eqb zone "crown"
  then Some ["flag"; "helipad"; "spire"; "satellite_dish"; "crown_item"]
  else if String.eqb zone "roof"
  then Some ["antenna_array"; "rooftop_garden"; "rooftop_fire"; "pool_party"]
  else if String.eqb zone "aura"
  then Some ["neon_trim"; "spotlight"; "hologram_ring"; "lightning_aura"]
  else None.

End Zones.

(** ** Building loadout ([src/app/api/loadout/route.ts]) *)

Module Loadout.

Record loadout_body := {
  crown : option string;
  roof : option string;
  aura : option string
}.

(** [body]: [None] when [request.json()] throws. *)
Record request := {
  user : option User;
  body : option loadout_body;
  now : Z
}.

(** One turn of the loop over the zones: the value to store, or the
    response that ends the request. *)
Definition check_zone (zone : string) (itemId : option string)
    (ownedSet : list string) : response + option string :=
  match itemId with
  | None => inr None
  | Some itemId =>
      if negb (match Zones.ZONE_ITEMS zone with
               | Some allowed => JS.includes allowed itemId
               | None => false
               end)
      then inl (error_response 400 (itemId ++ " is not valid for zone " ++ zone))
      else if negb (JS.includes ownedSet itemId)
      then inl (error_response 403 ("You don't own " ++ itemId))
      else inr (Some itemId)
  end.

Definition config_json (crown roof aura : option string) : json :=
  JObj [("crown", Json.of_opt_str crown); ("roof", Json.of_opt_str roof);
        ("aura", Json.of_opt_str aura)].

Definition POST (req : request) (d : db) : response * db :=
  match user req with
  | None => (error_response 401 "Not authenticated", d)
  | Some u =>
      match DbCustom.owned_building u d with
      | None => (error_response 403 "Must own a claimed building", d)
      | Some dev_id =>
          match body req with
          | None => (error_response 500 "Internal Server Error", d)
          | Some b =>
              let ownedSet := DbCustom.owned dev_id d in
              match check_zone "crown" (crown b) ownedSet with
              | inl r => (r, d)
              | inr c =>
                  match check_zone "roof" (roof b) ownedSet with
                  | inl r => (r, d)
                  | inr ro =>
                      match check_zone "aura" (aura b) ownedSet with
                      | inl r => (r, d)
                      | inr a =>
                          let config := config_json c ro a in
                          (respond 200 (JObj [("ok", JBool true); ("loadout", config)]),
                           DbCustom.upsert_customization dev_id "loadout"
                             {| Customizations.config := config;
                                Customizations.updated_at := now req |} d)
                      end
                  end
              end
          end
      end
  end.

(** The [loadout] that [GET] answers for a developer id. *)
Definition stored_loadout (developer_id : Z) (d : db) : json :=
  match developer_customizations d !! (developer_id, "loadout") with
  | Some row => Customizations.config row
  | None => JNull
  end.

End Loadout.

(** ** Raid loadout ([src/app/api/raid/loadout/route.ts]) *)

Module RaidLoadout.

Record raid_body := {
  vehicle : option string;
  tag : option string
}.

Record request := {
  user : option User;
  body : option raid_body;
  now : Z
}.

Section Handler.

(** The two lists of [lib/zones.ts] that the handler imports. *)
Variables RAID_VEHICLE_ITEMS RAID_TAG_ITEMS : list string.

(** The stored vehicle and tag, with their defaults. *)
Definition current (dev_id : Z) (d : db) : string * string :=
  let config :=
    match developer_customizations d !! (dev_id, "raid_loadout") with
    | Some row => Customizations.config row
    | None => JObj []
    end in
  (JS.nullish (Json.str_field "vehicle" config) "airplane",
   JS.nullish (Json.str_field "tag" config) "default").

(** The validation of one field: the value that goes into the
    configuration, or [None] when the request is to be refused. *)
Definition choose (given : option string) (free : string) (catalogue : list string)
    (ownedSet : list string) (stored : string) : option string :=
  match given with
  | None => Some stored
  | Some x =>
      if String.eqb x free then Some free
      else if JS.includes catalogue x && JS.includes ownedSet x then Some x
      else None
  end.

Definition POST (req : request) (d : db) : response * db :=
  match user req with
  | None => (error_response 401 "Not authenticated", d)
  | Some u =>
      match DbCustom.owned_building u d with
      | None => (error_response 403 "Must own a claimed building", d)
      | Some dev_id =>
          match body req with
          | None => (error_response 500 "Internal Server Error", d)
          | Some b =>
              let ownedSet := DbCustom.owned dev_id d in
              let '(cur_vehicle, cur_tag) := current dev_id d in
              match choose (vehicle b) "airplane" RAID_VEHICLE_ITEMS ownedSet cur_vehicle with
              | None => (error_response 403 "Vehicle not owned or invalid", d)
              | Some v =>
                  match choose (tag b) "default" RAID_TAG_ITEMS ownedSet cur_tag with
                  | None => (error_response 403 "Tag not owned or invalid", d)
                  | Some t =>
                      (respond 200 (JObj [("ok", JBool true); ("vehicle", JStr v);
                                          ("tag", JStr t)]),
                       DbCustom.upsert_customization dev_id "raid_loadout"
                         {| Customizations.config :=
                              JObj [("vehicle", JStr v); ("tag", JStr t)];
                            Customizations.updated_at := now req |} d)
                  end
              end
          end
      end
  end.

End Handler.

End RaidLoadout.

(** ** Kudos (the POST handler in [src/app/api/items/route.ts]) *)

Module Kudos.

(** [body]: [None] when [request.json()] throws; [receiver_login] is
    [None] when the field is missing or is not a string. [rate_ok] is the
    answer of [rateLimit("kudos:" + user.id, 1, 1000)], [today] the date part
    of the clock, [now] the time the feed row gets. *)
Record request := {
  user : option User;
  body : option (option string);
  rate_ok : bool;
  today : string;
  now : Z
}.

(** The kudos a developer has given on a day
    ([.eq("giver_id", g).eq("given_date", day)], counted). *)
Definition given_on (g : Z) (day : string) (d : db) : Z :=
  Z.of_nat (size (filter (fun k => k.1.1 = g /\ k.2 = day) (developer_kudos d))).

(** Modelled from the spec: the table [developer_kudos] is not declared in
    the migrations at hand; the handler and the claim give it the primary
    key (giver_id, receiver_id, given_date), so the table is the set of
    these triples and an insert of a triple that is present fails with
    the duplicate-key code 23505. The result is the error code, if any. *)
Definition insert_kudos (g r : Z) (day : string) (d : db) : option string * db :=
  if bool_decide ((g, r, day) ∈ developer_kudos d)
  then (Some "23505", d)
  else (None, Db.with_developer_kudos ({[ (g, r, day) ]} ∪ developer_kudos d) d).

(** Modelled from the spec: the stored procedure [increment_kudos_count]
    is not in the migrations at hand; by its name and the claim it adds one
    to [kudos_count] of the target developer. *)
Definition increment_kudos_count (target_dev_id : Z) (d : db) : db :=
  Db.with_developers
    (alter (fun r => Developers.with_kudos_count
                       (Z.succ <$> Developers.kudos_count r) r)
           target_dev_id (developers d)) d.

Definition ok_response : response := respond 200 (JObj [("ok", JBool true)]).

(** From the insert on. *)
Definition give (req : request) (githubLogin : string) (giver_id receiver_id : Z)
    (receiver : Developers.row) (d : db) : response * db :=
  match insert_kudos giver_id receiver_id (today req) d with
  | (Some code, d) =>
      if negb (String.eqb code "23505")
      then (error_response 500 "Failed to give kudos", d)
      else (ok_response, d)
  | (None, d) =>
      let d := increment_kudos_count receiver_id d in
      let d :=
        Db.insert_feed_event (now req) "kudos_given" (Some giver_id) (Some receiver_id)
          (JObj [("giver_login", JStr githubLogin);
                 ("receiver_login", JStr (Developers.github_login receiver))]) d in
      (ok_response, d)
  end.

Definition POST (req : request) (d : db) : response * db :=
  match user req with
  | None => (error_response 401 "Not authenticated", d)
  | Some u =>
      match body req with
      | None => (error_response 500 "Internal Server Error", d)
      | Some receiver_login =>
          if negb (JS.truthy_str receiver_login)
          then (error_response 400 "Missing receiver_login", d)
          else if negb (rate_ok req)
          then (error_response 429 "Too fast", d)
          else
            let githubLogin := github_login_of u in
            match Db.developer_by_login githubLogin d with
            | None => (error_response 403 "Must claim building first", d)
            | Some (giver_id, giver) =>
                if negb (Developers.claimed giver)
                then (error_response 403 "Must claim building first", d)
                else
                  match Db.developer_by_login
                          (JS.toLowerCase (JS.nullish receiver_login "")) d with
                  | None => (error_response 404 "Receiver not found", d)
                  | Some (receiver_id, receiver) =>
                      if giver_id =? receiver_id
                      then (error_response 400 "Cannot give kudos to yourself", d)
                      else if 20 <=? given_on giver_id (today req) d
                      then (error_response 429 "Daily kudos limit reached (20/day)", d)
                      else give req githubLogin giver_id receiver_id receiver d
                  end
            end
      end
  end.

End Kudos.

(** ** Achievement back-fill script ([unnamed/part_015]) *)

Module Backfill.

Record Stats := {
  contributions : Z;
  public_repos : Z;
  total_stars : Z;
  referral_count : Z;
  kudos_count : Z;
  gifts_sent : Z;
  gifts_received : Z
}.

(** The columns of a purchase the script inserts; the id is the table's
    default. *)
Record purchase_draft := {
  developer_id : Z;
  item_id : string;
  provider_tx_id : string
}.

Definition reward_row (p : purchase_draft) (id : positive) : Purchases.row :=
  {| Purchases.id := id; Purchases.developer_id := developer_id p;
     Purchases.item_id := item_id p; Purchases.provider := "achievement";
     Purchases.provider_tx_id := Some (provider_tx_id p);
     Purchases.amount_cents := 0; Purchases.currency := "usd";
     Purchases.status := "completed"; Purchases.gifted_to := None |}.

Record feed_draft := {
  event_type : string;
  actor_id : Z;
  metadata : json
}.

(** The three batches and the counter the loop fills. *)
Record batches := {
  totalUnlocks : Z;
  unlockRows : list (Z * string);
  purchaseRows : list purchase_draft;
  feedEvents : list feed_draft
}.

Definition no_batches : batches :=
  {| totalUnlocks := 0; unlockRows := []; purchaseRows := []; feedEvents := [] |}.

(** [.from("achievements").select("*").order("sort_order")] *)
Definition load_achievements (d : db) : list Achievements.row :=
  JS.sort (fun a b => Achievements.sort_order a - Achievements.sort_order b)
    (achievements d).

(** Ascending, nulls last. *)
Definition by_rank (a b : Z * Developers.row) : Z :=
  match Developers.rank (snd a), Developers.rank (snd b) with
  | Some x, Some y => x - y
  | Some _, None => -1
  | None, Some _ => 1
  | None, None => 0
  end.

(** [.from("developers").select(...).order("rank")] *)
Definition load_developers (d : db) : list (Z * Developers.row) :=
  JS.sort by_rank (map_to_list (developers d)).

(** The key [`${developer_id}_${achievement_id}`]. *)
Definition unlock_key (dev_id : Z) (achievement_id : string) : string :=
  JS.num_to_string dev_id ++ "_" ++ achievement_id.

Definition load_existing (d : db) : gset string :=
  list_to_set (map (fun r => unlock_key (fst r) (snd r))
                 (elements (developer_achievements d))).

(** The completed purchases that are gifts. *)
Definition gifts (d : db) : list Purchases.row :=
  List.filter
    (fun r => Purchases.has_status "completed" r
              && bool_decide (is_Some (Purchases.gifted_to r)))
    (purchases d).

(** [m[k] = (m[k] ?? 0) + 1] over the rows. *)
Definition count_by (keys : list Z) : gmap Z Z :=
  foldl (fun m k => <[k := JS.nullish (m !! k) 0 + 1]> m) ∅ keys.

Definition giftsSentMap (d : db) : gmap Z Z :=
  count_by (map Purchases.developer_id (gifts d)).

Definition giftsReceivedMap (d : db) : gmap Z Z :=
  count_by (omap Purchases.gifted_to (gifts d)).

Definition stats_of (dev_id : Z) (dev : Developers.row) (d : db) : Stats :=
  {| contributions := JS.nullish (Developers.contributions dev) 0;
     public_repos := JS.nullish (Developers.public_repos dev) 0;
     total_stars := JS.nullish (Developers.total_stars dev) 0;
     referral_count := JS.nullish (Developers.referral_count dev) 0;
     kudos_count := JS.nullish (Developers.kudos_count dev) 0;
     gifts_sent := JS.nullish (giftsSentMap d !! dev_id) 0;
     gifts_received := JS.nullish (giftsReceivedMap d !! dev_id) 0 |}.

(** The [switch] on the category. *)
Definition qualifies (stats : Stats) (a : Achievements.row) : bool :=
  let c := Achievements.category a in
  let t := Achievements.threshold a in
  if String.eqb c "commits" then t <=? contributions stats
  else if String.eqb c "repos" then t <=? public_repos stats
  else if String.eqb c "stars" then t <=? total_stars stats
  else if String.eqb c "social" then t <=? referral_count stats
  else if String.eqb c "kudos" then t <=? kudos_count stats
  else if String.eqb c "gifts_sent" then t <=? gifts_sent stats
  else if String.eqb c "gifts_received" then t <=? gifts_received stats
  else false.

(** [newUnlocks]: the achievements that are not in [existingSet] and that
    the developer qualifies for. *)
Definition newUnlocks (existingSet : gset string) (achs : list Achievements.row)
    (dev_id : Z) (stats : Stats) : list Achievements.row :=
  List.filter
    (fun a => negb (bool_decide (unlock_key dev_id (Achievements.id a) ∈ existingSet))
              && qualifies stats a)
    achs.

(** The reward purchase of an unlock, when it has one. *)
Definition reward_of (dev_id : Z) (a : Achievements.row) : option purchase_draft :=
  if String.eqb (Achievements.reward_type a) "unlock_item"
     && JS.truthy_str (Achievements.reward_item_id a)
  then Some {| developer_id := dev_id;
               item_id := JS.nullish (Achievements.reward_item_id a) "";
               provider_tx_id :=
                 "achievement_" ++ unlock_key dev_id (Achievements.id a) |}
  else None.

Definition unlock_metadata (login : string) (unlocks : list Achievements.row) : json :=
  match unlocks with
  | [a] =>
      JObj [("login", JStr login); ("achievement_id", JStr (Achievements.id a));
            ("achievement_name", JStr (Achievements.name a));
            ("tier", JStr (Achievements.tier a))]
  | _ =>
      JObj [("login", JStr login); ("count", JNum (Z.of_nat (length unlocks)));
            ("achievements",
             JArr (map (fun a => JObj [("id", JStr (Achievements.id a));
                                       ("name", JStr (Achievements.name a));
                                       ("tier", JStr (Achievements.tier a))])
                       unlocks))]
  end.

(** One turn of the loop over the developers. *)
Definition process (existingSet : gset string) (achs : list Achievements.row)
    (d : db) (acc : batches) (dev : Z * Developers.row) : batches :=
  let '(dev_id, row) := dev in
  let unlocks := newUnlocks existingSet achs dev_id (stats_of dev_id row d) in
  match unlocks with
  | [] => acc
  | _ =>
      {| totalUnlocks := totalUnlocks acc + Z.of_nat (length unlocks);
         unlockRows :=
           unlockRows acc ++ map (fun a => (dev_id, Achievements.id a)) unlocks;
         purchaseRows := purchaseRows acc ++ omap (reward_of dev_id) unlocks;
         feedEvents :=
           feedEvents acc ++
             [{| event_type := "achievement_unlocked"; actor_id := dev_id;
                 metadata := unlock_metadata (Developers.github_login row) unlocks |}] |}
  end.

(** Steps 1 to 5: what the script decides to write. *)
Definition collect (d : db) : batches :=
  foldl (process (load_existing d) (load_achievements d) d) no_batches
    (load_developers d).

(** [.from("developer_achievements").upsert(unlockRows, { onConflict:
    "developer_id,achievement_id" })] *)
Definition upsert_unlocks (rows : list (Z * string)) (d : db) : db :=
  Db.with_developer_achievements (list_to_set rows ∪ developer_achievements d) d.

(** The rewards are inserted one by one; a row the table refuses is
    skipped. *)
Definition grant_rewards (rows : list purchase_draft) (d : db) : db :=
  foldl (fun d p => snd (Db.insert_purchase (reward_row p) d)) d rows.

(** [.from("activity_feed").insert(feedEvents)] *)
Definition insert_feed (now : Z) (events : list feed_draft) (d : db) : db :=
  foldl (fun d e =>
           Db.insert_feed_event now (event_type e) (Some (actor_id e)) None
             (metadata e) d)
        d events.

(** Step 6: the writes. *)
Definition write (now : Z) (b : batches) (d : db) : db :=
  if totalUnlocks b =? 0 then d
  else insert_feed now (feedEvents b)
         (grant_rewards (purchaseRows b) (upsert_unlocks (unlockRows b) d)).

(** [main], run at time [now] against the database. *)
Definition main (now : Z) (d : db) : db := write now (collect d) d.

End Backfill.

(** ** Reading the loadouts (the [GET] handlers of the two loadout routes) *)

Module LoadoutGet.

(** [GET] of [src/app/api/loadout/route.ts]. [developer_id] is the query
    parameter, [None] when it is missing. A parameter that does not read as
    a number selects no row. *)
Definition GET (developer_id : option string) (d : db) : response :=
  if negb (JS.truthy_str developer_id)
  then error_response 400 "Missing developer_id"
  else
    respond 200
      (JObj [("loadout",
              match Num.parseInt (JS.nullish developer_id "") with
              | Some k => Loadout.stored_loadout k d
              | None => JNull
              end)]).

End LoadoutGet.

Module RaidLoadoutGet.

Definition answer (vehicle tag : string) : response :=
  respond 200 (JObj [("vehicle", JStr vehicle); ("tag", JStr tag)]).

(** The developer the request is about: the [developer_id] parameter when
    it is given, the building of the session otherwise; [inl] is the
    response that ends the request, [None] stands for null and NaN. *)
Definition resolve (developer_id : option string) (user : option User) (d : db)
    : response + option Z :=
  if JS.truthy_str developer_id
  then inr (Num.parseInt (JS.nullish developer_id ""))
  else
    match user with
    | None => inl (error_response 401 "Not authenticated")
    | Some u => inr (fst <$> Db.developer_by_login (github_login_of u) d)
    end.

(** [!developerId] *)
Definition falsy_id (x : option Z) : bool :=
  match x with Some k => k =? 0 | None => true end.

(** [GET] of [src/app/api/raid/loadout/route.ts]. *)
Definition GET (developer_id : option string) (user : option User) (d : db)
    : response :=
  match resolve developer_id user d with
  | inl r => r
  | inr developerId =>
      if falsy_id developerId then answer "airplane" "default"
      else
        let '(vehicle, tag) := RaidLoadout.current (JS.nullish developerId 0) d in
        answer vehicle tag
  end.

End RaidLoadoutGet.


(** ** Owned items ([src/lib/items.ts]) *)

Module ItemsLib.

(** One turn of the loop of [getOwnedItemsForDevelopers]:
    [if (!result[k]) result[k] = []; result[k].push(item_id)]. *)
Definition push_item (result : gmap Z (list string)) (row : Purchases.row)
    : gmap Z (list string) :=
  let k := Purchases.developer_id row in
  let result :=
    match result !! k with
    | Some _ => result
    | None => <[k := []]> result
    end in
  alter (fun items => (items ++ [Purchases.item_id row])%list) k result.

Section Select.

(** Neither select has an ORDER BY: the database answers with the rows
    that match in an order of its choosing, and each statement gets an
    order of its own. [answer] is that order for the statement at hand: it
    arranges the matching rows, which the model keeps as a list. *)
Variable answer : list Purchases.row -> list Purchases.row.

(** [getOwnedItems] *)
Definition getOwnedItems (developerId : Z) (d : db) : list string :=
  map Purchases.item_id
    (answer
       (List.filter
          (fun r => (Purchases.developer_id r =? developerId)
                    && Purchases.has_status "completed" r)
          (purchases d))).

(** [getOwnedItemsForDevelopers] *)
Definition getOwnedItemsForDevelopers (developerIds : list Z) (d : db)
    : gmap Z (list string) :=
  match developerIds with
  | [] => ∅
  | _ =>
      foldl push_item ∅
        (answer
           (List.filter
              (fun r => existsb (Z.eqb (Purchases.developer_id r)) developerIds
                        && Purchases.has_status "completed" r)
              (purchases d)))
  end.

End Select.

End ItemsLib.

(** ** Purchase status ([unnamed/part_006]) *)

Module PurchaseStatus.

Section Handler.

(** The uuid a text denotes; [None] for a text that is not the text of a
    uuid, with which the query fails and yields no data. *)
Variable uuid_of_text : string -> option positive.

(** [.from("purchases").select("status").eq("id", purchaseId)
     .eq("developer_id", dev.id).single()] *)
Definition purchase_of (purchaseId : string) (dev_id : Z) (d : db)
    : option Purchases.row :=
  match uuid_of_text purchaseId with
  | None => None
  | Some id =>
      single (List.filter
                (fun r => Pos.eqb (Purchases.id r) id
                          && (Purchases.developer_id r =? dev_id))
                (purchases d))
  end.

Definition GET (purchase_id : option string) (user : option User) (d : db)
    : response :=
  if negb (JS.truthy_str purchase_id)
  then error_response 400 "Missing purchase_id"
  else
    match user with
    | None => error_response 401 "Not authenticated"
    | Some u =>
        match Db.developer_by_login (github_login_of u) d with
        | None => error_response 404 "Developer not found"
        | Some (dev_id, _) =>
            match purchase_of (JS.nullish purchase_id "") dev_id d with
            | None => error_response 404 "Purchase not found"
            | Some purchase =>
                respond 200 (JObj [("status", JStr (Purchases.status purchase))])
            end
        end
    end.

End Handler.

End PurchaseStatus.

(** ** Sky-ad event tracking ([src/app/api/sky-ads/track/route.ts]) *)

Module SkyAdTrack.

Definition VALID_EVENTS : list string := ["impression"; "click"; "cta_click"].

(** The columns the handler gives to a row of [sky_ad_events]. *)
Record event_row := {
  ad_id : string;
  event_type : string;
  ip_hash : string;
  user_agent : option string;
  github_login : option string
}.

(** [ip] is the value of the header expression at the head of the handler,
    [rate_ok] the answer of [rateLimit("ad:" + ip, 120, 60000)],
    [user_agent] the header of that name, [body] the parsed JSON, [None]
    when [request.json()] throws. *)
Record request := {
  ip : string;
  rate_ok : bool;
  user_agent_header : option string;
  body : option json
}.

(** The single [event_type], when it is a valid one. *)
Definition single_type (b : json) : list string :=
  match Json.field "event_type" b with
  | Some (JStr t) => if JS.includes VALID_EVENTS t then [t] else []
  | _ => []
  end.

(** One turn of the loop over [event_types]. *)
Definition add_type (types : list string) (t : json) : list string :=
  match t with
  | JStr s =>
      if JS.includes VALID_EVENTS s && negb (JS.includes types s)
      then (types ++ [s])%list else types
  | _ => types
  end.

(** [types]: the single type, then the members of the batch. *)
Definition types_of (b : json) : list string :=
  match Json.field "event_types" b with
  | Some (JArr ts) => foldl add_type (single_type b) ts
  | _ => single_type b
  end.

Section Handler.

(** [hashIP]: the SHA-256 of the address and the service key, in hex. *)
Variable hashIP : string -> string.

(** The response and the rows the handler hands to
    [.from("sky_ad_events").insert(rows)], the result of which it does not
    look at. *)
Definition POST (req : request) : response * list event_row :=
  if negb (rate_ok req) then (error_response 429 "Too many requests", [])
  else
    match body req with
    | None => (error_response 400 "Invalid JSON", [])
    | Some JNull => (error_response 500 "Internal Server Error", [])
    | Some b =>
        match Json.field "ad_id" b with
        | Some (JStr ad) =>
            if String.eqb ad "" then (error_response 400 "Invalid payload", [])
            else
              let types := types_of b in
              match types with
              | [] => (error_response 400 "Invalid event type", [])
              | _ =>
                  let ipHash := hashIP (ip req) in
                  let userAgent := String.substring 0 256 <$> user_agent_header req in
                  let login :=
                    match Json.field "github_login" b with
                    | Some (JStr l) => Some (JS.toLowerCase (String.substring 0 39 l))
                    | _ => None
                    end in
                  (respond 201 (JObj [("ok", JBool true)]),
                   map (fun t => {| ad_id := ad; event_type := t; ip_hash := ipHash;
                                    user_agent := userAgent; github_login := login |})
                       types)
              end
        | _ => (error_response 400 "Invalid payload", [])
        end
    end.

End Handler.

End SkyAdTrack.

(** ** Raid tags and the raid history

    The table [raid_tags] of [supabase/migrations/003_monetization.sql] and
    the queries of [src/app/api/raid/history/route.ts] that do not depend on
    the paging parameters. *)

Module RaidTags.

Record row := {
  id : positive;
  raid_id : positive;
  building_id : Z;
  attacker_id : Z;
  attacker_login : string;
  tag_style : string;
  active : bool;
  expires_at : Z;
  created_at : Z
}.

Definition raid_tags_pkey (t : list row) : bool :=
  bool_decide (NoDup (map id t)).

(** [CREATE UNIQUE INDEX idx_raid_tags_building_active
     ON raid_tags (building_id) WHERE active = true] *)
Definition idx_raid_tags_building_active (t : list row) : bool :=
  bool_decide (NoDup (map building_id (List.filter active t))).

Definition admissible (t : list row) : bool :=
  raid_tags_pkey t && idx_raid_tags_building_active t.

End RaidTags.

Module RaidHistory.

(** [activeTagRes.data]:
    [.from("raid_tags").select(..).eq("building_id", devId).eq("active", true)
     .order("created_at", { ascending: false }).limit(1).maybeSingle()] *)
Definition active_tag (devId : Z) (tags : list RaidTags.row) : option RaidTags.row :=
  single
    (firstn 1
       (JS.sort (JS.by_desc RaidTags.created_at)
          (List.filter
             (fun r => (RaidTags.building_id r =? devId) && RaidTags.active r)
             tags))).

(** [(totalAttacker.count ?? 0) + (totalDefender.count ?? 0)], the counts
    being those of [.eq("attacker_id", devId)] and
    [.eq("defender_id", devId)] on [raids]. *)
Definition total (devId : Z) (raids : list Raids.row) : Z :=
  Z.of_nat (length (List.filter (fun r => Raids.attacker_id r =? devId) raids))
  + Z.of_nat (length (List.filter (fun r => Raids.defender_id r =? devId) raids)).

End RaidHistory.
(** * Properties *)

(** ** Lists: stable descending sort, filters and prefixes *)

Section SortFacts.
Context {A : Type}.

Lemma sort_insert_Forall (cmp : A -> A -> Z) (P : A -> Prop) x l :
  P x -> Forall P l -> Forall P (JS.sort_insert cmp x l).
Proof.
  intros Hx Hl. induction Hl as [|y r Hy Hr IH]; simpl.
  - constructor; [assumption | constructor].
  - destruct (cmp y x <? 0); repeat constructor; assumption.
Qed.

Lemma sort_Forall (cmp : A -> A -> Z) (P : A -> Prop) l :
  Forall P l -> Forall P (JS.sort cmp l).
Proof.
  induction 1 as [|x l Hx Hl IH]; simpl; [constructor|].
  now apply sort_insert_Forall.
Qed.

Lemma sort_insert_length (cmp : A -> A -> Z) x l :
  length (JS.sort_insert cmp x l) = S (length l).
Proof.
  induction l as [|y r IH]; simpl; [reflexivity|].
  destruct (cmp y x <? 0); simpl; congruence.
Qed.

Lemma sort_length (cmp : A -> A -> Z) l : length (JS.sort cmp l) = length l.
Proof.
  induction l as [|x l IH]; simpl; [reflexivity|].
  rewrite sort_insert_length. congruence.
Qed.

Variable key : A -> Z.

Lemma sort_insert_sorted x l :
  JS.sorted_desc key l ->
  JS.sorted_desc key (JS.sort_insert (JS.by_desc key) x l).
Proof.
  unfold JS.sorted_desc. induction 1 as [|y r Hr IH Hy]; simpl.
  - repeat constructor.
  - unfold JS.by_desc at 1. destruct (key x - key y <? 0) eqn:E.
    + apply Z.ltb_lt in E. constructor; [exact IH|].
      apply sort_insert_Forall; [lia | exact Hy].
    + apply Z.ltb_ge in E. constructor.
      * constructor; assumption.
      * constructor; [lia|].
        eapply Forall_impl; [exact Hy|]. simpl. intros; lia.
Qed.

Lemma sort_sorted l : JS.sorted_desc key (JS.sort (JS.by_desc key) l).
Proof.
  induction l as [|x l IH]; simpl; [constructor|].
  now apply sort_insert_sorted.
Qed.

Lemma filter_sorted (f : A -> bool) l :
  JS.sorted_desc key l -> JS.sorted_desc key (List.filter f l).
Proof.
  unfold JS.sorted_desc. induction 1 as [|y r Hr IH Hy]; simpl; [constructor|].
  destruct (f y); [|exact IH].
  constructor; [exact IH|].
  apply List.Forall_forall. intros z Hz. apply filter_In in Hz as [Hz _].
  rewrite List.Forall_forall in Hy. now apply Hy.
Qed.

Lemma firstn_sorted n l :
  JS.sorted_desc key l -> JS.sorted_desc key (firstn n l).
Proof.
  unfold JS.sorted_desc. intros H. revert n.
  induction H as [|y r Hr IH Hy]; intros [|n]; simpl; try constructor.
  - apply IH.
  - apply List.Forall_forall. intros z Hz.
    rewrite List.Forall_forall in Hy. apply Hy.
    rewrite <- (firstn_skipn n r). apply in_or_app. now left.
Qed.

End SortFacts.

Lemma Forall_filter_bool {A} (f : A -> bool) (P : A -> Prop) l :
  Forall P l -> Forall P (List.filter f l).
Proof.
  rewrite !List.Forall_forall. intros H x Hx.
  apply filter_In in Hx as [Hx _]. now apply H.
Qed.

Lemma Forall_firstn_keep {A} (P : A -> Prop) n l :
  Forall P l -> Forall P (firstn n l).
Proof.
  rewrite !List.Forall_forall. intros H x Hx. apply H.
  rewrite <- (firstn_skipn n l). apply in_or_app. now left.
Qed.

Lemma Forall_filter_holds {A} (f : A -> bool) l :
  Forall (fun x => f x = true) (List.filter f l).
Proof.
  apply List.Forall_forall. intros x Hx. now apply filter_In in Hx as [_ Hx].
Qed.

(** ** Sky ads *)

Module SkyAdsFacts.
Import SkyAds.

(** A link counts as given as soon as the property is set. *)
Definition present (l : option string) : bool :=
  match l with Some _ => true | None => false end.

Example default_ads_selection :
  map id (planeAds (getActiveAds DEFAULT_SKY_ADS)) = ["gitcity"; "samuel"; "advertise"]
  /\ map id (blimpAds (getActiveAds DEFAULT_SKY_ADS)) = ["build"].
Proof. split; reflexivity. Qed.

Lemma ad_passes_well_formed ad :
  ad_passes ad = true -> well_formed_ad JS.truthy_str ad.
Proof.
  unfold ad_passes, well_formed_ad.
  destruct (MAX_TEXT_LENGTH <? String.length (text ad))%nat eqn:Et; [discriminate|].
  destruct (JS.truthy_str (link ad)
            && negb (ALLOWED_LINK_PATTERN (JS.nullish (link ad) ""))) eqn:El;
    [discriminate|].
  destruct (HEX_COLOR_PATTERN (color ad)); [|discriminate].
  destruct (HEX_COLOR_PATTERN (bgColor ad)); [|discriminate].
  intros _. apply Nat.ltb_ge in Et.
  repeat split; try assumption.
  intros l Hl Ht. rewrite Ht, Hl in El.
  simpl in El. now apply negb_false_iff in El.
Qed.

Lemma validateAds_well_formed ads :
  Forall (well_formed_ad JS.truthy_str) (validateAds ads).
Proof.
  unfold validateAds. apply sort_Forall.
  eapply Forall_impl; [apply Forall_filter_holds|].
  apply ad_passes_well_formed.
Qed.

(** An ad whose link is the empty string goes through [validateAds]. *)
Definition empty_link_ad : SkyAd :=
  {| id := "x"; text := "HELLO"; brand := None; description := None;
     color := "#ffffff"; bgColor := "#000000"; link := Some "";
     vehicle := plane; priority := 1 |}.

(** C8, as amended: for every input list, [getActiveAds] returns at most
    3 plane ads and at most 2 blimp ads; every returned ad has a text of
    at most 80 characters, [color] and [bgColor] of the form #RRGGBB and,
    when its link is set and not the empty string, a link that starts
    with https:// or mailto:; each returned list is in non-increasing
    priority order. *)
Theorem getActiveAds_ok (ads : list SkyAd) :
  active_ads_ok JS.truthy_str (getActiveAds ads).
Proof.
  unfold active_ads_ok, getActiveAds, JS.slice0; simpl.
  pose proof (validateAds_well_formed ads) as Hwf.
  assert (Hs : JS.sorted_desc priority (validateAds ads))
    by apply sort_sorted.
  repeat split.
  - apply firstn_le_length.
  - apply firstn_le_length.
  - now apply Forall_firstn_keep, Forall_filter_bool.
  - now apply Forall_firstn_keep, Forall_filter_bool.
  - now apply firstn_sorted, filter_sorted.
  - now apply firstn_sorted, filter_sorted.
Qed.

(** C8 as stated fails: with "a link, when present" read as "whenever the
    link property is set", the ad with the empty link is returned although
    its link starts with neither prefix. *)
Lemma getActiveAds_empty_link_returned :
  ~ active_ads_ok present (getActiveAds [empty_link_ad]).
Proof.
  unfold active_ads_ok. intros (_ & _ & Hp & _).
  change (planeAds (getActiveAds [empty_link_ad])) with [empty_link_ad] in Hp.
  apply Forall_inv in Hp. destruct Hp as (_ & _ & _ & Hl).
  specialize (Hl "" eq_refl eq_refl). discriminate Hl.
Qed.

End SkyAdsFacts.

(** ** Tables under constraints *)

Section ConstrainedTableFacts.
Context {row : Type} (admissible : list row -> bool).

Lemma exec_admissible s t t' :
  exec admissible s t = Some t' -> admissible t' = true.
Proof.
  unfold exec. destruct (admissible (stmt_result s t)) eqn:E; [|discriminate].
  now intros [= <-].
Qed.

Lemma exec_or_keep_admissible s t :
  admissible t = true -> admissible (exec_or_keep admissible s t) = true.
Proof.
  intros Ht. unfold exec_or_keep.
  destruct (exec admissible s t) as [t'|] eqn:E; [|exact Ht].
  now apply exec_admissible in E.
Qed.

Lemma run_admissible ss t :
  admissible t = true -> admissible (run admissible ss t) = true.
Proof.
  revert t. induction ss as [|s ss IH]; intros t Ht; simpl; [exact Ht|].
  apply IH. now apply exec_or_keep_admissible.
Qed.

End ConstrainedTableFacts.

(** ** The [raids_no_self] check *)

Module RaidsFacts.
Import Raids.

Definition raid (i : positive) (a b : Z) : row :=
  {| id := i; attacker_id := a; defender_id := b; attack_score := 10;
     defense_score := 5; success := true; attacker_vehicle := "airplane";
     attacker_tag_style := "default"; created_at := 0 |}.

Example self_raid_insert_rejected :
  exec admissible (Insert (raid 2 7 7)) [raid 1 7 8] = None.
Proof. reflexivity. Qed.

Example self_raid_update_rejected :
  exec admissible
    (Update (fun r => Pos.eqb (id r) 1) (fun r => raid (id r) 8 8))
    [raid 1 7 8] = None.
Proof. reflexivity. Qed.

Example other_raid_insert_accepted :
  exec admissible (Insert (raid 2 8 7)) [raid 1 7 8] = Some [raid 1 7 8; raid 2 8 7].
Proof. reflexivity. Qed.

Lemma admissible_no_self t :
  admissible t = true ->
  Forall (fun r => attacker_id r <> defender_id r) t.
Proof.
  unfold admissible. intros H. apply andb_prop in H as [_ H].
  rewrite forallb_forall in H. apply List.Forall_forall. intros r Hr.
  specialize (H r Hr). unfold raids_no_self in H.
  apply negb_true_iff, Z.eqb_neq in H. exact H.
Qed.

(** C5: whatever statements have run against the [raids] table, every one
    of its rows has an attacker different from its defender. *)
Theorem raids_never_self (ss : list (stmt row)) :
  Forall (fun r => attacker_id r <> defender_id r) (run admissible ss []).
Proof.
  apply admissible_no_self, run_admissible. reflexivity.
Qed.

(** A statement that would store a raid of a developer on their own
    building is rejected, whatever the table holds. *)
Lemma self_raid_never_inserted t r :
  attacker_id r = defender_id r -> exec admissible (Insert r) t = None.
Proof.
  intros Heq. unfold exec, admissible. simpl.
  rewrite forallb_app. simpl. unfold raids_no_self at 2.
  rewrite Heq, Z.eqb_refl. simpl.
  now rewrite !andb_false_r.
Qed.

End RaidsFacts.

(** ** The unique index on completed purchases *)

Module PurchasesFacts.
Import Purchases.

Definition pair_of (r : row) : Z * string := (developer_id r, item_id r).

Lemma matches_completed d i r :
  matches d i "completed" r = true ->
  has_status "completed" r = true /\ pair_of r = (d, i).
Proof.
  unfold matches, pair_of. intros H.
  apply andb_prop in H as [H Hs]. apply andb_prop in H as [Hd Hi].
  apply Z.eqb_eq in Hd. apply String.eqb_eq in Hi. now subst.
Qed.

Lemma held_nil_of_absent d i t :
  ~ In (d, i) (map pair_of (List.filter (has_status "completed") t)) ->
  held d i "completed" t = [].
Proof.
  unfold held. induction t as [|r t IH]; simpl; [reflexivity|].
  intros Hn. destruct (matches d i "completed" r) eqn:Em.
  - apply matches_completed in Em as [Hs Hp]. rewrite Hs in Hn.
    exfalso. apply Hn. simpl. now left.
  - apply IH. intros Hin. apply Hn.
    destruct (has_status "completed" r); simpl; auto.
Qed.

Lemma index_at_most_one d i t :
  idx_purchases_unique_completed t = true ->
  (length (held d i "completed" t) <= 1)%nat.
Proof.
  unfold idx_purchases_unique_completed. intros H.
  apply bool_decide_eq_true in H. apply NoDup_ListNoDup in H.
  fold pair_of in H. unfold held.
  induction t as [|r t IH]; simpl; [lia|].
  simpl in H.
  destruct (matches d i "completed" r) eqn:Em.
  - apply matches_completed in Em as [Hs Hp]. rewrite Hs in H. simpl in H.
    apply List.NoDup_cons_iff in H as [Hn _]. rewrite Hp in Hn.
    pose proof (held_nil_of_absent d i t Hn) as Hnil.
    unfold held in Hnil. rewrite Hnil. simpl. lia.
  - apply IH. destruct (has_status "completed" r); [|exact H].
    simpl in H. now apply List.NoDup_cons_iff in H as [_ H].
Qed.

Lemma admissible_at_most_one d i t :
  admissible t = true -> (length (held d i "completed" t) <= 1)%nat.
Proof.
  unfold admissible. intros H. apply andb_prop in H as [_ H].
  now apply index_at_most_one.
Qed.

Lemma filter_bool_sublist {A} (f : A -> bool) (l : list A) :
  List.filter f l `sublist_of` l.
Proof.
  induction l as [|x l IH]; simpl; [constructor|].
  destruct (f x); [now apply sublist_skip | now apply sublist_cons].
Qed.

Lemma omap_sublist {A B} (g : A -> option B) (l k : list A) :
  l `sublist_of` k -> omap g l `sublist_of` omap g k.
Proof.
  induction 1 as [|x l k _ IH|x l k _ IH]; simpl.
  - constructor.
  - destruct (g x); [now apply sublist_skip | exact IH].
  - destruct (g x); [now apply sublist_cons | exact IH].
Qed.

Lemma filter_bool_comm {A} (f g : A -> bool) (l : list A) :
  List.filter f (List.filter g l) = List.filter g (List.filter f l).
Proof.
  induction l as [|x l IH]; simpl; [reflexivity|].
  destruct (g x) eqn:Eg, (f x) eqn:Ef; simpl; rewrite ?Eg, ?Ef, IH; reflexivity.
Qed.

(** A [DELETE] always goes through. *)
Lemma admissible_filter f t :
  admissible t = true -> admissible (List.filter f t) = true.
Proof.
  unfold admissible, purchases_pkey, purchases_provider_tx_id_key,
    idx_purchases_unique_completed.
  intros H. apply andb_prop in H as [H H3]. apply andb_prop in H as [H1 H2].
  apply bool_decide_eq_true in H1, H2, H3.
  rewrite !andb_true_iff, !bool_decide_eq_true. repeat split.
  - eapply sublist_NoDup; [exact H1|].
    apply (fmap_sublist id), filter_bool_sublist.
  - eapply sublist_NoDup; [exact H2|]. apply omap_sublist, filter_bool_sublist.
  - rewrite filter_bool_comm. eapply sublist_NoDup; [exact H3|].
    apply (fmap_sublist (fun r => (developer_id r, item_id r))), filter_bool_sublist.
Qed.

(** The [INSERT] of a row that is not completed, has no transaction id and
    carries a fresh id always goes through. *)
Lemma admissible_snoc t r :
  admissible t = true ->
  ids_below (id r) t ->
  provider_tx_id r = None ->
  has_status "completed" r = false ->
  admissible (t ++ [r]) = true.
Proof.
  unfold admissible, purchases_pkey, purchases_provider_tx_id_key,
    idx_purchases_unique_completed.
  intros H Hfresh Htx Hst.
  apply andb_prop in H as [H H3]. apply andb_prop in H as [H1 H2].
  apply bool_decide_eq_true in H1, H2, H3.
  rewrite !andb_true_iff, !bool_decide_eq_true. repeat split.
  - rewrite map_app. apply NoDup_app. split; [exact H1|]. split.
    + intros x Hx Hx'. apply list_elem_of_singleton in Hx'. subst x.
      apply list_elem_of_In, in_map_iff in Hx as (q & Hq & Hin).
      unfold ids_below in Hfresh. rewrite List.Forall_forall in Hfresh.
      specialize (Hfresh q Hin). lia.
    + apply NoDup_singleton.
  - rewrite omap_app. simpl. rewrite Htx. simpl. now rewrite app_nil_r.
  - rewrite List.filter_app. simpl. rewrite Hst. now rewrite app_nil_r.
Qed.

Definition billboard_row (i : positive) (d : Z) (s : string) : row :=
  {| id := i; developer_id := d; item_id := "billboard"; provider := "stripe";
     provider_tx_id := None; amount_cents := 200; currency := "usd";
     status := s; gifted_to := None |}.

(** Whatever statements have run against [purchases], a developer holds
    at most one completed purchase of any item. *)
Lemma completed_unique_for_every_item (ss : list (stmt row)) (d : Z) (i : string) :
  (length (held d i "completed" (run admissible ss [])) <= 1)%nat.
Proof. apply admissible_at_most_one, run_admissible. reflexivity. Qed.

(** One completed and one pending billboard purchase of developer 1. *)
Definition one_billboard_paid : list row :=
  [billboard_row 1 1 "completed"; billboard_row 2 1 "pending"].

(** C1, where the code departs from it: the index makes no exception for
    the billboard. The statement that marks a second billboard purchase of
    a developer completed violates it and is rejected, and so is the insert
    of a second completed row; whatever statements have run, no developer
    holds more than one completed billboard purchase. *)
Theorem second_completed_billboard_rejected :
  exec admissible
    (Update (fun r => Pos.eqb (id r) 2) (with_status "completed"))
    one_billboard_paid = None
  /\ exec admissible (Insert (billboard_row 3 1 "completed")) one_billboard_paid
     = None
  /\ (forall (ss : list (stmt row)) (d : Z),
        (length (held d "billboard" "completed" (run admissible ss [])) <= 1)%nat).
Proof.
  split; [vm_compute; reflexivity|]. split; [vm_compute; reflexivity|].
  intros ss d. apply admissible_at_most_one, run_admissible. reflexivity.
Qed.

(** A second completed purchase of another item is rejected in the same
    way, and a second pending billboard purchase is not. *)
Example index_on_other_rows :
  exec admissible
    (Insert (with_status "completed"
               {| id := 3; developer_id := 1; item_id := "flag"; provider := "stripe";
                  provider_tx_id := None; amount_cents := 75; currency := "usd";
                  status := "pending"; gifted_to := None |}))
    [{| id := 1; developer_id := 1; item_id := "flag"; provider := "stripe";
        provider_tx_id := None; amount_cents := 75; currency := "usd";
        status := "completed"; gifted_to := None |}] = None
  /\ is_Some (exec admissible (Insert (billboard_row 3 1 "pending")) one_billboard_paid).
Proof. split; [vm_compute; reflexivity | vm_compute; eauto]. Qed.

End PurchasesFacts.

(** ** Activity feed *)

Module FeedFacts.
Import Feed.

Example parseInt_samples :
  Num.parseInt "20" = Some 20 /\ Num.parseInt "  -7px" = Some (-7)
  /\ Num.parseInt "abc" = None /\ Num.parseInt "" = None
  /\ Num.parseInt "+12.9" = Some 12.
Proof. repeat split; reflexivity. Qed.

Lemma limit_of_numeric req n :
  Num.parseInt (JS.nullish (limit req) "20") = Some n ->
  limit_of req = Some (Z.min 50 (Z.max 1 n)).
Proof. unfold limit_of. intros ->. reflexivity. Qed.

Lemma selected_sorted req d :
  JS.sorted_desc ActivityFeed.created_at (selected req d).
Proof. unfold selected. apply sort_sorted. Qed.

Lemma map_enrich_sorted m evs :
  JS.sorted_desc ActivityFeed.created_at evs ->
  JS.sorted_desc (fun e => ActivityFeed.created_at (event e)) (map (enrich m) evs).
Proof.
  unfold JS.sorted_desc. induction 1 as [|e r Hr IH He]; simpl; constructor.
  - exact IH.
  - apply List.Forall_forall. intros x Hx. apply in_map_iff in Hx as (y & <- & Hy).
    simpl. rewrite List.Forall_forall in He. now apply He.
Qed.

Definition ev (i : positive) (t : Z) : ActivityFeed.row :=
  {| ActivityFeed.id := i; ActivityFeed.event_type := "kudos_given";
     ActivityFeed.actor_id := Some 1; ActivityFeed.target_id := Some 2;
     ActivityFeed.metadata := JObj []; ActivityFeed.created_at := t |}.

Definition three_events : db :=
  Db.with_activity_feed [ev 1 100; ev 2 300; ev 3 200] Db.empty.

Example feed_page_of_two :
  let r := GET (fun _ => None) {| limit := Some "2"; before := None |} three_events in
  map (fun e => ActivityFeed.id (event e)) (events r) = [2; 3]%positive
  /\ has_more r = true.
Proof. split; reflexivity. Qed.

Example feed_page_after_cursor :
  let r := GET (fun _ => None) {| limit := None; before := Some 3%positive |} three_events in
  map (fun e => ActivityFeed.id (event e)) (events r) = [1]%positive
  /\ has_more r = false.
Proof. split; reflexivity. Qed.

(** With a limit that does not read as a number the clamp is NaN: the
    handler passes on whatever the query yields and reports no further
    page. *)
Lemma feed_GET_unreadable_limit on_nan_limit (req : request) (d : db) :
  Num.parseInt (JS.nullish (limit req) "20") = None ->
  GET on_nan_limit req d
  = match on_nan_limit (selected req d) with
    | None | Some [] => {| events := []; has_more := false |}
    | Some evs =>
        {| events := map (enrich (dev_map (dev_ids evs) d)) evs;
           has_more := false |}
    end.
Proof.
  intros Hn. unfold GET, query, limit_of. rewrite Hn. simpl.
  destruct (on_nan_limit (selected req d)) as [[|e evs]|]; reflexivity.
Qed.

(** The page for a limit that is absent or reads as a number [n]: the
    number of returned events is at most min(50, max(1, n)), the events are
    in descending [created_at] order, and [has_more] is true exactly when
    the number of returned events equals that effective limit. *)
Theorem feed_GET_page on_nan_limit (req : request) (d : db) (n : Z) :
  Num.parseInt (JS.nullish (limit req) "20") = Some n ->
  let r := GET on_nan_limit req d in
  let effective := Z.min 50 (Z.max 1 n) in
  Z.of_nat (length (events r)) <= effective
  /\ JS.sorted_desc (fun e => ActivityFeed.created_at (event e)) (events r)
  /\ (has_more r = true <-> Z.of_nat (length (events r)) = effective).
Proof.
  intros Hn. apply limit_of_numeric in Hn.
  cbv zeta. set (L := Z.min 50 (Z.max 1 n)) in *.
  assert (HL : 1 <= L) by (unfold L; lia).
  unfold GET, query. rewrite Hn.
  assert (Hlen : (length (firstn (Z.to_nat L) (selected req d)) <= Z.to_nat L)%nat)
    by apply firstn_le_length.
  assert (Hs : JS.sorted_desc ActivityFeed.created_at
                 (firstn (Z.to_nat L) (selected req d)))
    by apply firstn_sorted, selected_sorted.
  destruct (firstn (Z.to_nat L) (selected req d)) as [|e evs] eqn:E.
  - simpl. repeat split; try lia; try constructor; discriminate.
  - cbn [events has_more]. rewrite length_map. repeat split.
    + lia.
    + now apply map_enrich_sorted.
    + apply Z.eqb_eq.
    + apply Z.eqb_eq.
Qed.

Lemma feed_GET_page_witness :
  let r := GET (fun _ => None) {| limit := Some "2"; before := None |} three_events in
  Z.of_nat (length (events r)) <= 2
  /\ JS.sorted_desc (fun e => ActivityFeed.created_at (event e)) (events r)
  /\ (has_more r = true <-> Z.of_nat (length (events r)) = 2).
Proof.
  exact (feed_GET_page (fun _ => None) {| limit := Some "2"; before := None |}
           three_events 2 eq_refl).
Defined.

(** A feed of 51 events, one per millisecond. *)
Definition long_feed : db :=
  Db.with_activity_feed
    (map (fun i => ev (Pos.of_nat i) (Z.of_nat i)) (seq 1 51)) Db.empty.

(** C10: the request [?limit=abc]. The clamp of the handler is NaN, so the
    handler bounds nothing: the response holds every row the query yields
    for the limit NaN, whatever their number, and [has_more] is false. On a
    feed of 51 events, a REST layer that leaves out a limit it cannot read
    makes the response hold all 51, one more than the largest page. *)
Theorem feed_GET_limit_not_a_number
    (on_nan_limit : list ActivityFeed.row -> option (list ActivityFeed.row))
    (d : db) :
  let req := {| limit := Some "abc"; before := None |} in
  let yielded := JS.nullish (on_nan_limit (selected req d)) [] in
  limit_of req = None
  /\ events (GET on_nan_limit req d)
     = map (enrich (dev_map (dev_ids yielded) d)) yielded
  /\ has_more (GET on_nan_limit req d) = false
  /\ length (events (GET Some req long_feed)) = 51%nat.
Proof.
  cbv zeta. split; [reflexivity|].
  rewrite (feed_GET_unreadable_limit on_nan_limit
             {| limit := Some "abc"; before := None |} d eq_refl).
  split; [|split].
  - destruct (on_nan_limit _) as [[|e evs]|]; reflexivity.
  - destruct (on_nan_limit _) as [[|e evs]|]; reflexivity.
  - vm_compute. reflexivity.
Qed.

End FeedFacts.

(** ** Checkout *)

Lemma single_Some {A} (l : list A) x : single l = Some x -> l = [x].
Proof. destruct l as [|y [|z l]]; simpl; congruence. Qed.

Lemma developer_by_login_lookup login d k r :
  Db.developer_by_login login d = Some (k, r) -> developers d !! k = Some r.
Proof.
  unfold Db.developer_by_login. intros H. apply single_Some in H.
  assert (Hin : In (k, r)
                  (List.filter
                     (fun kv => String.eqb (Developers.github_login (snd kv)) login)
                     (map_to_list (developers d))))
    by (rewrite H; now left).
  apply filter_In in Hin as [Hin _].
  apply list_elem_of_In in Hin. now apply elem_of_map_to_list in Hin.
Qed.

Module CheckoutFacts.
Import Checkout.

(** *** A small shop *)

Definition octo : Developers.row :=
  {| Developers.github_login := "octo"; Developers.claimed := true;
     Developers.claimed_by := Some "u1"; Developers.contributions := Some 0;
     Developers.public_repos := Some 0; Developers.total_stars := None;
     Developers.kudos_count := None; Developers.referral_count := None;
     Developers.rank := Some 1; Developers.avatar_url := None |}.

Definition octo_user : User :=
  {| user_id := "u1"; email := None; user_name := Some "Octo";
     preferred_username := None |}.

Definition shop_item (active : bool) : Items.row :=
  {| Items.category := "identity"; Items.name := "Item";
     Items.price_usd_cents := 200; Items.price_brl_cents := 990;
     Items.is_active := active |}.

Definition bought (i : positive) (item status : string) : Purchases.row :=
  {| Purchases.id := i; Purchases.developer_id := 1; Purchases.item_id := item;
     Purchases.provider := "stripe"; Purchases.provider_tx_id := None;
     Purchases.amount_cents := 200; Purchases.currency := "usd";
     Purchases.status := status; Purchases.gifted_to := None |}.

Definition shop (rows : list Purchases.row) (next : positive) : server :=
  {| lastCheckout := ∅;
     database :=
       Db.with_uuid_seq next
         (Db.with_purchases rows
            (Db.with_developers {[ 1 := octo ]}
               {| developers := ∅;
                  items := {[ "billboard" := shop_item true;
                              "flag" := shop_item true;
                              "spire" := shop_item false ]};
                  purchases := []; developer_customizations := ∅;
                  achievements := []; developer_achievements := ∅;
                  developer_kudos := ∅; activity_feed := []; raids := [];
                  uuid_seq := 1%positive |})) |}.

Definition order (item : string) (provider : option string) : request :=
  {| user := Some octo_user; now := 1700000000000;
     body := Some {| item_id := Some item; provider := provider; currency := None |};
     stripe_session := Some "https://checkout.example/session";
     pix := None |}.

(** Five billboards is what the smallest building carries. *)
Example smallest_building_slots : maxSlots octo = 5%float.
Proof. vm_compute. reflexivity. Qed.

Definition five_billboards : list Purchases.row :=
  [bought 1 "billboard" "completed"; bought 2 "billboard" "completed";
   bought 3 "billboard" "completed"; bought 4 "billboard" "completed";
   bought 5 "billboard" "completed"].

Example sixth_billboard_rejected :
  status (fst (POST (order "billboard" (Some "stripe")) (shop five_billboards 6))) = 409.
Proof. vm_compute. reflexivity. Qed.

Example first_flag_accepted :
  let '(r, s) := POST (order "flag" (Some "stripe")) (shop [] 1) in
  status r = 200
  /\ purchases (database s) = [pending_row 1 "flag" "stripe" 200 "usd" 1].
Proof. vm_compute. split; reflexivity. Qed.

(** *** The path to the ownership checks *)

(** The checks that precede the ownership checks, for a session user [u]
    and a parsed body [b]: the rate limit, the login, the body fields and
    the catalogue. *)
Definition passes_validation (req : request) (s : server) (u : User)
    (b : checkout_body) : Prop :=
  too_fast (lastCheckout s !! user_id u) (now req) = false
  /\ github_login_of u <> ""
  /\ JS.truthy_str (item_id b) = true
  /\ valid_provider (provider b) = true
  /\ is_Some (active_item (JS.nullish (item_id b) "") (database s)).

(** The server once the rate limiter has recorded the request. *)
Definition noted (req : request) (u : User) (s : server) : server :=
  with_lastCheckout (<[user_id u := now req]> (lastCheckout s)) s.

Lemma POST_at_ownership_checks req s u dev_id dev b it :
  user req = Some u ->
  Db.developer_by_login (github_login_of u) (database s) = Some (dev_id, dev) ->
  Developers.claimed dev = true ->
  Developers.claimed_by dev = Some (user_id u) ->
  body req = Some b ->
  passes_validation req s u b ->
  active_item (JS.nullish (item_id b) "") (database s) = Some it ->
  POST req s =
    match ownership_guard dev_id (JS.nullish (item_id b) "") (database s) with
    | Some rejected => (rejected, noted req u s)
    | None =>
        let '(r, d) :=
          pay req dev_id (JS.nullish (item_id b) "") it
              (JS.nullish (provider b) "") (currency b)
              (clear_pending dev_id (JS.nullish (item_id b) "") (database s)) in
        (r, with_database d (noted req u s))
    end.
Proof.
  intros Hu Hdev Hcl Hby Hb (Hfast & Hlogin & Hitem & Hprov & _) Hit.
  unfold POST. rewrite Hu, Hfast.
  apply String.eqb_neq in Hlogin. rewrite Hlogin.
  cbn [database with_lastCheckout]. rewrite Hdev, Hcl, Hby, Hb.
  rewrite bool_decide_eq_true_2 by reflexivity.
  rewrite Hitem, Hprov. cbn [negb orb]. rewrite Hit.
  unfold noted. reflexivity.
Qed.

(** When an ownership check rejects the request of an owner, or an
    earlier check does, the table of purchases is as it was. *)
Lemma POST_guarded req s u dev_id dev b rejected :
  user req = Some u ->
  Db.developer_by_login (github_login_of u) (database s) = Some (dev_id, dev) ->
  Developers.claimed dev = true ->
  Developers.claimed_by dev = Some (user_id u) ->
  body req = Some b ->
  ownership_guard dev_id (JS.nullish (item_id b) "") (database s) = Some rejected ->
  purchases (database (snd (POST req s))) = purchases (database s)
  /\ (status (fst (POST req s)) = 429 \/ status (fst (POST req s)) = 400
      \/ status (fst (POST req s)) = 404 \/ fst (POST req s) = rejected).
Proof.
  intros Hu Hdev Hcl Hby Hb Hg. unfold POST. rewrite Hu.
  destruct (too_fast _ _); [simpl; auto|].
  destruct (String.eqb _ _); [simpl; auto|].
  cbn [database with_lastCheckout]. rewrite Hdev, Hcl, Hby, Hb.
  rewrite bool_decide_eq_true_2 by reflexivity. cbn [negb].
  destruct (negb (JS.truthy_str (item_id b)) || negb (valid_provider (provider b)));
    [simpl; auto|].
  destruct (active_item _ _); [|simpl; auto].
  rewrite Hg. simpl. auto.
Qed.

(** *** Billboard slots *)



(** A building to which the formula gives one slot: with [public_repos]
    at -200 the width is -13, the two faces measure 2 * 9 * 30 = 540 and
    540 / 480 leaves one billboard. One completed billboard is what
    [idx_purchases_unique_completed] lets a developer hold, so this is the
    table on which the count can reach [maxSlots]. *)
Definition narrow : Developers.row :=
  {| Developers.github_login := "octo"; Developers.claimed := true;
     Developers.claimed_by := Some "u1"; Developers.contributions := Some 0;
     Developers.public_repos := Some (-200); Developers.total_stars := None;
     Developers.kudos_count := None; Developers.referral_count := None;
     Developers.rank := Some 1; Developers.avatar_url := None |}.

Definition one_billboard : list Purchases.row := [bought 1 "billboard" "completed"].

Definition narrow_shop : server :=
  with_database
    (Db.with_developers {[ 1 := narrow ]} (database (shop one_billboard 2)))
    (shop one_billboard 2).

Example narrow_building_slots :
  maxSlots narrow = 1%float
  /\ Purchases.admissible (purchases (database narrow_shop)) = true.
Proof. vm_compute. split; reflexivity. Qed.



(** The same order three seconds after a first one. *)
Definition second_click (item : string) : request :=
  {| user := Some octo_user; now := 1700000003000;
     body := Some {| item_id := Some item; provider := Some "stripe";
                     currency := None |};
     stripe_session := Some "https://checkout.example/session";
     pix := None |}.

Definition after_first_click (item : string) (rows : list Purchases.row)
    (next : positive) : server :=
  snd (POST (order item (Some "stripe")) (shop rows next)).

Example second_click_too_fast :
  status (fst (POST (second_click "billboard")
                    (after_first_click "billboard" five_billboards 6))) = 429.
Proof. vm_compute. reflexivity. Qed.




(** *** Items already owned *)

Lemma owned_guard dev_id i d :
  i <> "billboard" ->
  Purchases.admissible (purchases d) = true ->
  Purchases.held dev_id i "completed" (purchases d) <> [] ->
  ownership_guard dev_id i d = Some (error_response 409 "Already owned").
Proof.
  intros Hi Hadm Hheld. unfold ownership_guard.
  apply String.eqb_neq in Hi. rewrite Hi.
  pose proof (PurchasesFacts.admissible_at_most_one dev_id i _ Hadm) as Hlen.
  destruct (Purchases.held dev_id i "completed" (purchases d)) as [|p [|q l]];
    [congruence | reflexivity | simpl in Hlen; lia].
Qed.

(** C3, as amended: for every authenticated checkout request for an item
    other than the billboard by a developer who has claimed their own
    building and already holds a completed purchase of that item, no
    purchase row is created and the request is rejected: with status 409
    and the message "Already owned" when it passes the checks that come
    first (rate limit, login, body fields, active item), and with 429, 400
    or 404 when one of those rejects it. *)
Theorem owned_item_rejected
    (req : request) (s : server) (u : User) (dev_id : Z)
    (dev : Developers.row) (b : checkout_body) (i : string) :
  user req = Some u ->
  Db.developer_by_login (github_login_of u) (database s) = Some (dev_id, dev) ->
  Developers.claimed dev = true ->
  Developers.claimed_by dev = Some (user_id u) ->
  body req = Some b ->
  item_id b = Some i ->
  i <> "billboard" ->
  Purchases.admissible (purchases (database s)) = true ->
  Purchases.held dev_id i "completed" (purchases (database s)) <> [] ->
  purchases (database (snd (POST req s))) = purchases (database s)
  /\ (status (fst (POST req s)) = 409 \/ status (fst (POST req s)) = 429
      \/ status (fst (POST req s)) = 400 \/ status (fst (POST req s)) = 404)
  /\ (passes_validation req s u b ->
      fst (POST req s) = error_response 409 "Already owned").
Proof.
  intros Hu Hdev Hcl Hby Hb Hitem Hi Hadm Hheld.
  pose proof (owned_guard dev_id i _ Hi Hadm Hheld) as Hg.
  assert (Hg' : ownership_guard dev_id (JS.nullish (item_id b) "") (database s)
                = Some (error_response 409 "Already owned"))
    by (rewrite Hitem; exact Hg).
  destruct (POST_guarded _ _ _ _ _ _ _ Hu Hdev Hcl Hby Hb Hg') as [Hkeep Hst].
  split; [exact Hkeep|]. split.
  - destruct Hst as [H|[H|[H|H]]]; auto. rewrite H. auto.
  - intros Hv. destruct (proj2 (proj2 (proj2 (proj2 Hv)))) as [it Hit].
    rewrite (POST_at_ownership_checks _ _ _ _ _ _ _ Hu Hdev Hcl Hby Hb Hv Hit).
    rewrite Hg'. reflexivity.
Qed.

Definition flag_owned : list Purchases.row :=
  [bought 1 "flag" "completed"; bought 2 "spire" "completed"].

Lemma owned_item_rejected_witness :
  purchases (database (snd (POST (order "flag" (Some "stripe"))
                                 (shop flag_owned 3)))) = flag_owned
  /\ fst (POST (order "flag" (Some "stripe")) (shop flag_owned 3))
     = error_response 409 "Already owned".
Proof.
  assert (Hv : passes_validation (order "flag" (Some "stripe"))
                 (shop flag_owned 3) octo_user
                 {| item_id := Some "flag"; provider := Some "stripe";
                    currency := None |}).
  { repeat split; try reflexivity; try discriminate. vm_compute. eauto. }
  destruct (owned_item_rejected
              (order "flag" (Some "stripe")) (shop flag_owned 3)
              octo_user 1 octo
              {| item_id := Some "flag"; provider := Some "stripe";
                 currency := None |} "flag"
              eq_refl eq_refl eq_refl eq_refl eq_refl eq_refl
              ltac:(discriminate) eq_refl ltac:(discriminate))
    as (Hkeep & _ & H409).
  split; [exact Hkeep | exact (H409 Hv)].
Defined.

(** C3 as stated: every such request is answered 409 (and creates no
    row). *)
Definition always_409_when_owned : Prop :=
  forall req s u dev_id dev b i,
    user req = Some u ->
    Db.developer_by_login (github_login_of u) (database s) = Some (dev_id, dev) ->
    Developers.claimed dev = true ->
    Developers.claimed_by dev = Some (user_id u) ->
    body req = Some b ->
    item_id b = Some i ->
    i <> "billboard" ->
    Purchases.admissible (purchases (database s)) = true ->
    Purchases.held dev_id i "completed" (purchases (database s)) <> [] ->
    status (fst (POST req s)) = 409
    /\ purchases (database (snd (POST req s))) = purchases (database s).

Example withdrawn_item_not_found :
  fst (POST (order "spire" (Some "stripe")) (shop flag_owned 3))
  = error_response 404 "Item not found or inactive".
Proof. vm_compute. reflexivity. Qed.

(** C3 as stated fails: the spire was bought and has since been taken out
    of the catalogue ([is_active] is false); a new order for it is
    answered 404. *)
Lemma always_409_when_owned_fails : ~ always_409_when_owned.
Proof.
  intros H.
  destruct (H (order "spire" (Some "stripe")) (shop flag_owned 3)
              octo_user 1 octo
              {| item_id := Some "spire"; provider := Some "stripe";
                 currency := None |} "spire"
              eq_refl eq_refl eq_refl eq_refl eq_refl eq_refl
              ltac:(discriminate) eq_refl ltac:(discriminate))
    as [H409 _].
  rewrite withdrawn_item_not_found in H409. discriminate H409.
Qed.

(** *** Stale pending purchases *)

Definition without (id : positive) (t : list Purchases.row) : list Purchases.row :=
  List.filter (fun r => negb (Pos.eqb (Purchases.id r) id)) t.

Lemma clear_pending_one dev_id item d p :
  Purchases.admissible (purchases d) = true ->
  Purchases.held dev_id item "pending" (purchases d) = [p] ->
  clear_pending dev_id item d
  = Db.with_purchases (without (Purchases.id p) (purchases d)) d.
Proof.
  intros Hadm Hp. unfold clear_pending, Db.delete_purchase. rewrite Hp. simpl.
  unfold exec_or_keep, exec. simpl. fold (without (Purchases.id p) (purchases d)).
  unfold without. now rewrite PurchasesFacts.admissible_filter.
Qed.

Lemma insert_pending_fresh dev_id item provider amount cur d devrow itrow :
  developers d !! dev_id = Some devrow ->
  items d !! item = Some itrow ->
  Purchases.admissible (purchases d) = true ->
  Purchases.ids_below (uuid_seq d) (purchases d) ->
  Db.insert_purchase (pending_row dev_id item provider amount cur) d
  = (Some (pending_row dev_id item provider amount cur (uuid_seq d)),
     Db.with_uuid_seq (Pos.succ (uuid_seq d))
       (Db.with_purchases
          (purchases d ++ [pending_row dev_id item provider amount cur (uuid_seq d)])
          d)).
Proof.
  intros Hdev Hit Hadm Hfresh. unfold Db.insert_purchase. simpl.
  rewrite Hdev, Hit.
  rewrite !bool_decide_eq_true_2 by eauto. simpl.
  unfold exec. simpl.
  now rewrite PurchasesFacts.admissible_snoc.
Qed.

Lemma update_last_only (t : list Purchases.row) r f :
  Purchases.ids_below (Purchases.id r) t ->
  map (fun q => if Pos.eqb (Purchases.id q) (Purchases.id r) then f q else q)
      (t ++ [r])
  = (t ++ [f r])%list.
Proof.
  intros Hb. rewrite map_app. simpl. rewrite Pos.eqb_refl. f_equal.
  induction Hb as [|q t Hq _ IH]; simpl; [reflexivity|].
  rewrite IH. destruct (Pos.eqb_spec (Purchases.id q) (Purchases.id r)) as [E|_];
    [lia | reflexivity].
Qed.

(** After the provider id has been written, the last row is the new
    purchase, with or without that id. *)
Lemma set_purchase_tx_last t r tx d :
  Purchases.ids_below (Purchases.id r) t ->
  purchases d = (t ++ [r])%list ->
  purchases (Db.set_purchase_tx (Purchases.id r) tx d) = (t ++ [r])%list
  \/ purchases (Db.set_purchase_tx (Purchases.id r) tx d)
     = (t ++ [Purchases.with_provider_tx_id (Some tx) r])%list.
Proof.
  intros Hb Hd. unfold Db.set_purchase_tx. simpl.
  unfold exec_or_keep, exec. simpl. rewrite Hd, update_last_only by exact Hb.
  destruct (Purchases.admissible _); auto.
Qed.

(** Whether the payment provider of the request gave an answer. *)
Definition answered (req : request) (provider : string) : bool :=
  if String.eqb provider "stripe"
  then bool_decide (is_Some (stripe_session req))
  else bool_decide (is_Some (pix req)).

Lemma pay_fresh req dev_id item it provider cur d devrow itrow :
  developers d !! dev_id = Some devrow ->
  items d !! item = Some itrow ->
  Purchases.admissible (purchases d) = true ->
  Purchases.ids_below (uuid_seq d) (purchases d) ->
  exists fresh,
    purchases (snd (pay req dev_id item it provider cur d))
    = (purchases d ++ [fresh])%list
    /\ Purchases.id fresh = uuid_seq d
    /\ Purchases.developer_id fresh = dev_id
    /\ Purchases.item_id fresh = item
    /\ Purchases.status fresh = "pending"
    /\ status (fst (pay req dev_id item it provider cur d))
       = if answered req provider then 200 else 500.
Proof.
  intros Hdev Hit Hadm Hfresh. unfold pay, answered.
  destruct (String.eqb provider "stripe").
  - rewrite (insert_pending_fresh _ _ _ _ _ _ _ _ Hdev Hit Hadm Hfresh).
    eexists. destruct (stripe_session req) as [url|]; simpl;
      (split; [reflexivity|]); repeat split; try reflexivity.
  - rewrite (insert_pending_fresh _ _ _ _ _ _ _ _ Hdev Hit Hadm Hfresh).
    destruct (pix req) as [code|].
    + cbn [fst snd].
      match goal with
      | |- context [Db.set_purchase_tx ?i ?tx ?d0] =>
          destruct (set_purchase_tx_last (purchases d)
                      (pending_row dev_id item "abacatepay"
                         (Items.price_brl_cents it) "brl" (uuid_seq d))
                      tx d0 Hfresh eq_refl) as [E|E]
      end; rewrite E; eexists; (split; [reflexivity|]);
        repeat split; reflexivity.
    + eexists. simpl. (split; [reflexivity|]); repeat split; reflexivity.
Qed.

(** C6, as amended: for every checkout request that passes validation, if
    exactly one purchase row with status pending exists for the same
    (developer, item) pair, the handler deletes that row and then creates a
    fresh pending purchase for the pair, and this is all it does: when the
    payment provider then fails, the request is answered 500 and the fresh
    pending row stays where it is, for the next request to delete. *)
Theorem stale_pending_replaced
    (req : request) (s : server) (u : User) (dev_id : Z)
    (dev : Developers.row) (b : checkout_body) (it : Items.row)
    (p : Purchases.row) :
  user req = Some u ->
  Db.developer_by_login (github_login_of u) (database s) = Some (dev_id, dev) ->
  Developers.claimed dev = true ->
  Developers.claimed_by dev = Some (user_id u) ->
  body req = Some b ->
  passes_validation req s u b ->
  active_item (JS.nullish (item_id b) "") (database s) = Some it ->
  ownership_guard dev_id (JS.nullish (item_id b) "") (database s) = None ->
  Purchases.admissible (purchases (database s)) = true ->
  Purchases.ids_below (uuid_seq (database s)) (purchases (database s)) ->
  Purchases.held dev_id (JS.nullish (item_id b) "") "pending"
    (purchases (database s)) = [p] ->
  exists fresh,
    purchases (database (snd (POST req s)))
    = (without (Purchases.id p) (purchases (database s)) ++ [fresh])%list
    /\ Purchases.id fresh = uuid_seq (database s)
    /\ Purchases.developer_id fresh = dev_id
    /\ Purchases.item_id fresh = JS.nullish (item_id b) ""
    /\ Purchases.status fresh = "pending"
    /\ ~ In (Purchases.id p) (map Purchases.id (purchases (database (snd (POST req s)))))
    /\ status (fst (POST req s))
       = if answered req (JS.nullish (provider b) "") then 200 else 500.
Proof.
  intros Hu Hdev Hcl Hby Hb Hv Hit Hg Hadm Hfresh Hp.
  rewrite (POST_at_ownership_checks _ _ _ _ _ _ _ Hu Hdev Hcl Hby Hb Hv Hit), Hg.
  rewrite (clear_pending_one _ _ _ _ Hadm Hp).
  set (item := JS.nullish (item_id b) "") in *.
  set (d1 := Db.with_purchases (without (Purchases.id p) (purchases (database s)))
               (database s)).
  assert (Hrow : developers d1 !! dev_id = Some dev)
    by (apply developer_by_login_lookup in Hdev; exact Hdev).
  assert (Hitem : exists itrow, items d1 !! item = Some itrow).
  { unfold active_item in Hit. simpl.
    destruct (items (database s) !! item); try discriminate; eauto. }
  destruct Hitem as [itrow Hitem].
  assert (Hadm1 : Purchases.admissible (purchases d1) = true)
    by (apply PurchasesFacts.admissible_filter; exact Hadm).
  assert (Hfresh1 : Purchases.ids_below (uuid_seq d1) (purchases d1))
    by (apply Forall_filter_bool; exact Hfresh).
  destruct (pay_fresh req dev_id item it (JS.nullish (provider b) "") (currency b)
              d1 dev itrow Hrow Hitem Hadm1 Hfresh1)
    as (fresh & Hrows & Hid & Hd & Hi & Hs & Hst).
  destruct (pay req dev_id item it (JS.nullish (provider b) "") (currency b) d1)
    as [r d2] eqn:Epay.
  cbn [fst snd] in *. cbn [database with_database].
  exists fresh. repeat split; try assumption.
  intros Hin. rewrite Hrows, map_app in Hin. apply in_app_or in Hin as [Hin|Hin].
  - apply in_map_iff in Hin as (q & Hq & Hin). simpl in Hin.
    apply filter_In in Hin as [_ Hne]. rewrite Hq, Pos.eqb_refl in Hne.
    discriminate Hne.
  - simpl in Hin. destruct Hin as [Hin|[]]. rewrite Hid in Hin. simpl in Hin.
    assert (Hpin : In p (purchases (database s))).
    { assert (Hh : In p (Purchases.held dev_id item "pending" (purchases (database s))))
        by (rewrite Hp; now left).
      now apply filter_In in Hh as [Hh _]. }
    unfold Purchases.ids_below in Hfresh. rewrite List.Forall_forall in Hfresh.
    specialize (Hfresh p Hpin). lia.
Qed.

Definition flag_order_body : checkout_body :=
  {| item_id := Some "flag"; provider := Some "stripe"; currency := None |}.

Lemma flag_order_passes rows next :
  passes_validation (order "flag" (Some "stripe")) (shop rows next)
    octo_user flag_order_body.
Proof.
  repeat split; try reflexivity; try discriminate. vm_compute. eauto.
Qed.

Lemma stale_pending_replaced_witness :
  exists fresh,
    purchases (database (snd (POST (order "flag" (Some "stripe"))
                                   (shop [bought 1 "flag" "pending"] 2))))
    = (without 1 [bought 1 "flag" "pending"] ++ [fresh])%list
    /\ Purchases.id fresh = 2%positive
    /\ Purchases.developer_id fresh = 1
    /\ Purchases.item_id fresh = "flag"
    /\ Purchases.status fresh = "pending"
    /\ ~ In 1%positive
           (map Purchases.id
              (purchases (database (snd (POST (order "flag" (Some "stripe"))
                                              (shop [bought 1 "flag" "pending"] 2))))))
    /\ status (fst (POST (order "flag" (Some "stripe"))
                         (shop [bought 1 "flag" "pending"] 2))) = 200.
Proof.
  apply (stale_pending_replaced
           (order "flag" (Some "stripe")) (shop [bought 1 "flag" "pending"] 2)
           octo_user 1 octo flag_order_body (shop_item true)
           (bought 1 "flag" "pending")
           eq_refl eq_refl eq_refl eq_refl eq_refl
           (flag_order_passes _ _) eq_refl eq_refl eq_refl).
  - repeat constructor.
  - reflexivity.
Defined.

(** The provider fails: the answer is 500 and the pending row of the
    attempt stays; the next attempt deletes it and writes its own. *)
Example failed_payment_then_retry :
  let failing :=
    {| user := Some octo_user; now := 1700000000000;
       body := Some flag_order_body; stripe_session := None; pix := None |} in
  let retry :=
    {| user := Some octo_user; now := 1700000060000;
       body := Some flag_order_body;
       stripe_session := Some "https://checkout.example/session"; pix := None |} in
  let '(r1, s1) := POST failing (shop [] 1) in
  let '(r2, s2) := POST retry s1 in
  status r1 = 500
  /\ purchases (database s1) = [pending_row 1 "flag" "stripe" 200 "usd" 1]
  /\ status r2 = 200
  /\ purchases (database s2) = [pending_row 1 "flag" "stripe" 200 "usd" 2].
Proof. vm_compute. repeat split; reflexivity. Qed.

(** C6 as stated: whenever a pending row exists for the pair, the handler
    deletes it. *)
Definition every_pending_row_deleted : Prop :=
  forall req s u dev_id dev b it p,
    user req = Some u ->
    Db.developer_by_login (github_login_of u) (database s) = Some (dev_id, dev) ->
    Developers.claimed dev = true ->
    Developers.claimed_by dev = Some (user_id u) ->
    body req = Some b ->
    passes_validation req s u b ->
    active_item (JS.nullish (item_id b) "") (database s) = Some it ->
    ownership_guard dev_id (JS.nullish (item_id b) "") (database s) = None ->
    Purchases.admissible (purchases (database s)) = true ->
    Purchases.ids_below (uuid_seq (database s)) (purchases (database s)) ->
    In p (Purchases.held dev_id (JS.nullish (item_id b) "") "pending"
            (purchases (database s))) ->
    ~ In (Purchases.id p)
        (map Purchases.id (purchases (database (snd (POST req s))))).

Definition two_pending : list Purchases.row :=
  [bought 1 "flag" "pending"; bought 2 "flag" "pending"].

Example two_pending_both_kept :
  purchases (database (snd (POST (order "flag" (Some "stripe")) (shop two_pending 3))))
  = [bought 1 "flag" "pending"; bought 2 "flag" "pending";
     pending_row 1 "flag" "stripe" 200 "usd" 3].
Proof. vm_compute. reflexivity. Qed.

(** C6 as stated fails: with two pending rows for the pair (two requests
    that raced), the lookup of the pending purchase yields no single row,
    nothing is deleted and a third pending row is written. *)
Lemma every_pending_row_deleted_fails : ~ every_pending_row_deleted.
Proof.
  intros H.
  apply (H (order "flag" (Some "stripe")) (shop two_pending 3)
           octo_user 1 octo flag_order_body (shop_item true)
           (bought 1 "flag" "pending")
           eq_refl eq_refl eq_refl eq_refl eq_refl
           (flag_order_passes _ _) eq_refl eq_refl eq_refl).
  - repeat constructor.
  - simpl. now left.
  - rewrite two_pending_both_kept. simpl. now left.
Qed.

End CheckoutFacts.

(** ** Loadouts *)

Module LoadoutFacts.

Definition octo : Developers.row :=
  {| Developers.github_login := "octo"; Developers.claimed := true;
     Developers.claimed_by := Some "u1"; Developers.contributions := Some 10;
     Developers.public_repos := Some 3; Developers.total_stars := None;
     Developers.kudos_count := None; Developers.referral_count := None;
     Developers.rank := Some 1; Developers.avatar_url := None |}.

Definition octo_user : User :=
  {| user_id := "u1"; email := None; user_name := Some "octo";
     preferred_username := None |}.

Definition entry (active : bool) : Items.row :=
  {| Items.category := "structure"; Items.name := "Item";
     Items.price_usd_cents := 75; Items.price_brl_cents := 390;
     Items.is_active := active |}.

Definition owns (i : positive) (item : string) : Purchases.row :=
  {| Purchases.id := i; Purchases.developer_id := 1; Purchases.item_id := item;
     Purchases.provider := "stripe"; Purchases.provider_tx_id := None;
     Purchases.amount_cents := 75; Purchases.currency := "usd";
     Purchases.status := "completed"; Purchases.gifted_to := None |}.

Definition city : db :=
  {| developers := {[ 1 := octo ]};
     items := {[ "flag" := entry true; "loadout" := entry false;
                 "raid_loadout" := entry false; "raid_drone" := entry true ]};
     purchases := [owns 1 "flag"; owns 2 "raid_drone"];
     developer_customizations := ∅; achievements := [];
     developer_achievements := ∅; developer_kudos := ∅;
     activity_feed := []; raids := []; uuid_seq := 3%positive |}.

Example owner_equips_flag :
  let req := {| Loadout.user := Some octo_user;
                Loadout.body := Some {| Loadout.crown := Some "flag";
                                        Loadout.roof := None; Loadout.aura := None |};
                Loadout.now := 5 |} in
  status (fst (Loadout.POST req city)) = 200
  /\ Loadout.stored_loadout 1 (snd (Loadout.POST req city))
     = Loadout.config_json (Some "flag") None None.
Proof. vm_compute. split; reflexivity. Qed.

Example owner_cannot_equip_unowned :
  let req := {| Loadout.user := Some octo_user;
                Loadout.body := Some {| Loadout.crown := Some "spire";
                                        Loadout.roof := None; Loadout.aura := None |};
                Loadout.now := 5 |} in
  Loadout.POST req city = (error_response 403 "You don't own spire", city).
Proof. vm_compute. reflexivity. Qed.

Example owner_picks_drone :
  let req := {| RaidLoadout.user := Some octo_user;
                RaidLoadout.body := Some {| RaidLoadout.vehicle := Some "raid_drone";
                                            RaidLoadout.tag := None |};
                RaidLoadout.now := 5 |} in
  let d := snd (RaidLoadout.POST ["raid_helicopter"; "raid_drone"] ["tag_neon"] req city) in
  RaidLoadout.current 1 d = ("raid_drone", "default").
Proof. vm_compute. reflexivity. Qed.

(** C7: a POST to the building-loadout endpoint or to the raid-loadout
    endpoint that carries no authenticated user is answered with status
    401, and the database, the stored loadouts included, is as it was. *)
Theorem loadout_POST_unauthenticated
    (vehicles tags : list string)
    (b : option Loadout.loadout_body) (rb : option RaidLoadout.raid_body)
    (now : Z) (d : db) :
  let r := Loadout.POST {| Loadout.user := None; Loadout.body := b;
                           Loadout.now := now |} d in
  let rr := RaidLoadout.POST vehicles tags
              {| RaidLoadout.user := None; RaidLoadout.body := rb;
                 RaidLoadout.now := now |} d in
  (status (fst r) = 401 /\ snd r = d
   /\ developer_customizations (snd r) = developer_customizations d)
  /\ (status (fst rr) = 401 /\ snd rr = d
      /\ developer_customizations (snd rr) = developer_customizations d).
Proof.
  cbv zeta. unfold Loadout.POST, RaidLoadout.POST. cbn [Loadout.user RaidLoadout.user].
  split; repeat split; reflexivity.
Qed.

End LoadoutFacts.

(** ** Looking a developer up by login *)

Lemma only_member {A} (l : list A) (a : A) :
  NoDup l -> a ∈ l -> (forall x, x ∈ l -> x = a) -> l = [a].
Proof.
  intros Hnd Hin Hall. destruct l as [|x l]; [now apply elem_of_nil in Hin|].
  assert (x = a) by (apply Hall; left). subst x. f_equal.
  destruct l as [|y l]; [reflexivity|].
  assert (y = a) by (apply Hall; right; left). subst y.
  apply NoDup_cons in Hnd as [Hnot _]. exfalso. apply Hnot. left.
Qed.

Lemma NoDup_filter_bool {A} (f : A -> bool) (l : list A) :
  NoDup l -> NoDup (List.filter f l).
Proof.
  intros H. eapply sublist_NoDup; [exact H|].
  apply PurchasesFacts.filter_bool_sublist.
Qed.

(** The lookup yields a developer exactly when that developer is the only
    one with the login. *)
Lemma developer_by_login_iff login d k r :
  Db.developer_by_login login d = Some (k, r)
  <-> developers d !! k = Some r
      /\ Developers.github_login r = login
      /\ (forall k' r', developers d !! k' = Some r' ->
            Developers.github_login r' = login -> k' = k).
Proof.
  unfold Db.developer_by_login.
  set (P := fun kv : Z * Developers.row =>
              String.eqb (Developers.github_login (snd kv)) login).
  assert (Hmem : forall k' r', (k', r') ∈ List.filter P (map_to_list (developers d))
                 <-> developers d !! k' = Some r' /\ Developers.github_login r' = login).
  { intros k' r'. rewrite list_elem_of_In, filter_In, <- list_elem_of_In.
    rewrite elem_of_map_to_list. unfold P. simpl. now rewrite String.eqb_eq. }
  split.
  - intros H. apply single_Some in H.
    assert (Hin : (k, r) ∈ List.filter P (map_to_list (developers d)))
      by (rewrite H; left).
    apply Hmem in Hin as [Hk Hl]. repeat split; try assumption.
    intros k' r' Hk' Hl'.
    assert (Hin' : (k', r') ∈ List.filter P (map_to_list (developers d)))
      by (apply Hmem; auto).
    rewrite H in Hin'. apply list_elem_of_singleton in Hin'. congruence.
  - intros (Hk & Hl & Huniq).
    rewrite (only_member (List.filter P (map_to_list (developers d))) (k, r)).
    + reflexivity.
    + apply NoDup_filter_bool, NoDup_map_to_list.
    + apply Hmem. auto.
    + intros [k' r'] Hin. apply Hmem in Hin as [Hk' Hl'].
      assert (k' = k) by eauto. subst k'. congruence.
Qed.

(** A change of other columns of one row does not disturb the lookup. *)
Lemma developer_by_login_alter login d k r f i :
  (forall x, Developers.github_login (f x) = Developers.github_login x) ->
  Db.developer_by_login login d = Some (k, r) ->
  Db.developer_by_login login (Db.with_developers (alter f i (developers d)) d)
  = Some (k, if decide (i = k) then f r else r).
Proof.
  intros Hf H. apply developer_by_login_iff in H as (Hk & Hl & Huniq).
  apply developer_by_login_iff. simpl. repeat split.
  - rewrite lookup_alter. destruct (decide (i = k)) as [->|Hne].
    + now rewrite Hk.
    + reflexivity || (rewrite Hk; reflexivity).
  - destruct (decide (i = k)); [now rewrite Hf | assumption].
  - intros k' r' Hk' Hl'. rewrite lookup_alter in Hk'.
    destruct (decide (i = k')) as [->|Hne].
    + destruct (developers d !! k') as [x|] eqn:E; [|discriminate].
      simpl in Hk'. injection Hk' as <-. rewrite Hf in Hl'. eauto.
    + eauto.
Qed.

Lemma developer_by_login_ext login d d' :
  developers d' = developers d ->
  Db.developer_by_login login d' = Db.developer_by_login login d.
Proof. unfold Db.developer_by_login. now intros ->. Qed.

(** ** Kudos *)

Module KudosFacts.
Import Kudos.

(** The giver and the receiver of a request are both found, the giver has
    claimed a building and they are two developers. *)
Definition parties (u : User) (rl : string) (g r : Z) (d : db) : Prop :=
  (exists grow, Db.developer_by_login (github_login_of u) d = Some (g, grow)
                /\ Developers.claimed grow = true)
  /\ (exists rrow, Db.developer_by_login (JS.toLowerCase rl) d = Some (r, rrow))
  /\ g <> r.

Lemma POST_ok_inv req d :
  status (fst (POST req d)) = 200 ->
  exists u rl g r rrow,
    user req = Some u /\ body req = Some (Some rl) /\ rl <> ""
    /\ rate_ok req = true /\ parties u rl g r d
    /\ Db.developer_by_login (JS.toLowerCase rl) d = Some (r, rrow)
    /\ given_on g (today req) d < 20
    /\ POST req d = give req (github_login_of u) g r rrow d.
Proof.
  unfold POST. intros H.
  destruct (user req) as [u|]; [|discriminate].
  destruct (body req) as [[rl|]|]; try discriminate.
  simpl in *. destruct (String.eqb_spec rl "") as [|Hrl]; [discriminate|].
  simpl in *. destruct (rate_ok req); [|discriminate]. simpl in *.
  destruct (Db.developer_by_login (github_login_of u) d) as [[g grow]|] eqn:Eg;
    [|discriminate].
  destruct (Developers.claimed grow) eqn:Ecl; [|discriminate]. simpl in *.
  destruct (Db.developer_by_login (JS.toLowerCase rl) d) as [[r rrow]|] eqn:Er;
    [|discriminate].
  destruct (Z.eqb_spec g r) as [|Hne]; [discriminate|].
  destruct (Z.leb_spec 20 (given_on g (today req) d)) as [|Hlt]; [discriminate|].
  exists u, rl, g, r, rrow. unfold parties. repeat split; eauto.
Qed.

Lemma POST_on_parties req d u rl g r :
  user req = Some u -> body req = Some (Some rl) -> rl <> "" ->
  parties u rl g r d ->
  (g, r, today req) ∈ developer_kudos d ->
  snd (POST req d) = d
  /\ (status (fst (POST req d)) = 200 \/ status (fst (POST req d)) = 429)
  /\ (rate_ok req = true -> given_on g (today req) d < 20 ->
      fst (POST req d) = ok_response).
Proof.
  intros Hu Hb Hrl ((grow & Hg & Hcl) & (rrow & Hr) & Hne) Hin.
  unfold POST. rewrite Hu, Hb. simpl.
  apply String.eqb_neq in Hrl. rewrite Hrl. simpl.
  destruct (rate_ok req); simpl; [|repeat split; auto; discriminate].
  rewrite Hg, Hcl. simpl. rewrite Hr.
  apply Z.eqb_neq in Hne. rewrite Hne.
  destruct (Z.leb_spec 20 (given_on g (today req) d)) as [Hfull|Hfree]; simpl.
  - repeat split; auto. intros _ Hlt. lia.
  - unfold give, insert_kudos. rewrite bool_decide_eq_true_2 by exact Hin.
    simpl. repeat split; auto.
Qed.

(** What a successful first request leaves behind. *)
Lemma give_leaves req login u rl g r rrow d :
  parties u rl g r d ->
  let d1 := snd (give req login g r rrow d) in
  parties u rl g r d1
  /\ (g, r, today req) ∈ developer_kudos d1
  /\ (exists evs, activity_feed d1 = (activity_feed d ++ evs)%list
                  /\ (length evs <= 1)%nat)
  /\ (forall k x, developers d !! k = Some x ->
        exists x', developers d1 !! k = Some x'
          /\ (Developers.kudos_count x' = Developers.kudos_count x
              \/ k = r /\ Developers.kudos_count x'
                          = Z.succ <$> Developers.kudos_count x)).
Proof.
  intros Hp. unfold give, insert_kudos.
  destruct (bool_decide ((g, r, today req) ∈ developer_kudos d)) eqn:E; simpl.
  - apply bool_decide_eq_true in E.
    split; [exact Hp|]. split; [exact E|]. split.
    + exists []. rewrite app_nil_r. split; [reflexivity | simpl; lia].
    + intros k x Hk. eauto.
  - destruct Hp as ((grow & Hg & Hcl) & (rrow' & Hr) & Hne).
    set (f := fun x => Developers.with_kudos_count
                         (Z.succ <$> Developers.kudos_count x) x).
    split; [|split; [|split]].
    + split; [|split].
      * exists (if decide (r = g) then f grow else grow). split.
        -- erewrite developer_by_login_ext
             with (d := Db.with_developers (alter f r (developers d)) d)
             by reflexivity.
           apply developer_by_login_alter; [reflexivity | exact Hg].
        -- destruct (decide (r = g)); exact Hcl.
      * exists (if decide (r = r) then f rrow' else rrow').
        erewrite developer_by_login_ext
          with (d := Db.with_developers (alter f r (developers d)) d)
          by reflexivity.
        apply developer_by_login_alter; [reflexivity | exact Hr].
      * exact Hne.
    + apply elem_of_union_l, elem_of_singleton. reflexivity.
    + eexists. split; [reflexivity | simpl; lia].
    + intros k x Hk. rewrite lookup_alter.
      destruct (decide (r = k)) as [->|Hnk].
      * rewrite Hk. simpl. eexists. split; [reflexivity|]. right. auto.
      * rewrite Hk. eauto.
Qed.

(** C9, as amended: when a request to give kudos has succeeded, a second
    request of the same user for the same receiver on the same day changes
    nothing in the database, so over the two requests the receiver's
    [kudos_count] goes up by at most one and at most one feed event is
    written; the second request also returns [ok: true], unless it is
    rate-limited or the giver has by then given 20 kudos that day, in which
    case it is answered 429. *)
Theorem kudos_twice_same_day (req1 req2 : request) (d : db) :
  user req2 = user req1 ->
  body req2 = body req1 ->
  today req2 = today req1 ->
  status (fst (POST req1 d)) = 200 ->
  let d1 := snd (POST req1 d) in
  let d2 := snd (POST req2 d1) in
  d2 = d1
  /\ (exists evs, activity_feed d2 = (activity_feed d ++ evs)%list
                  /\ (length evs <= 1)%nat)
  /\ (forall k x, developers d !! k = Some x ->
        exists x', developers d2 !! k = Some x'
          /\ (Developers.kudos_count x' = Developers.kudos_count x
              \/ Developers.kudos_count x' = Z.succ <$> Developers.kudos_count x))
  /\ (status (fst (POST req2 d1)) = 200 \/ status (fst (POST req2 d1)) = 429)
  /\ (forall u g grow,
        user req1 = Some u ->
        Db.developer_by_login (github_login_of u) d1 = Some (g, grow) ->
        rate_ok req2 = true ->
        given_on g (today req2) d1 < 20 ->
        fst (POST req2 d1) = ok_response).
Proof.
  intros Hu Hb Ht Hok.
  destruct (POST_ok_inv _ _ Hok)
    as (u & rl & g & r & rrow & Hu1 & Hb1 & Hrl & _ & Hp & _ & _ & Hgive).
  cbv zeta. rewrite Hgive.
  destruct (give_leaves req1 (github_login_of u) u rl g r rrow d Hp)
    as (Hp1 & Hin & Hfeed & Hdevs).
  set (d1 := snd (give req1 (github_login_of u) g r rrow d)) in *.
  rewrite Hu1 in Hu. rewrite Hb1 in Hb. rewrite <- Ht in Hin.
  destruct (POST_on_parties req2 d1 u rl g r Hu Hb Hrl Hp1 Hin)
    as (Hsame & Hst & Hokay).
  rewrite Hsame. split; [reflexivity|]. split; [exact Hfeed|]. split.
  - intros k x Hk. destruct (Hdevs k x Hk) as (x' & Hx' & [H|[_ H]]); eauto.
  - split; [exact Hst|].
    intros u' g' grow' Hu' Hg' Hrate Hlt.
    assert (u' = u) by congruence. subst u'.
    destruct Hp1 as ((grow1 & Hg1 & _) & _).
    assert (g' = g) by congruence. subst g'. auto.
Qed.

Definition dev (login : string) (claimed_by : option string) : Developers.row :=
  {| Developers.github_login := login;
     Developers.claimed := bool_decide (is_Some claimed_by);
     Developers.claimed_by := claimed_by; Developers.contributions := Some 10;
     Developers.public_repos := Some 3; Developers.total_stars := Some 0;
     Developers.kudos_count := Some 0; Developers.referral_count := Some 0;
     Developers.rank := None; Developers.avatar_url := None |}.

Definition octo_user : User :=
  {| user_id := "u1"; email := None; user_name := Some "Octo";
     preferred_username := None |}.

(** Octo has claimed a building, Mona has not; Octo has already given
    [given] kudos today, to other developers. *)
Definition town (given : nat) : db :=
  Db.with_developer_kudos
    (list_to_set (map (fun k => (1, 100 + Z.of_nat k, "2026-01-01")) (seq 0 given)))
    (Db.with_developers {[ 1 := dev "octo" (Some "u1"); 2 := dev "mona" None ]}
       Db.empty).

Definition kudos_to_mona (t : Z) : request :=
  {| user := Some octo_user; body := Some (Some "Mona"); rate_ok := true;
     today := "2026-01-01"; now := t |}.

Example kudos_counted_once :
  let d1 := snd (POST (kudos_to_mona 10) (town 0)) in
  let d2 := snd (POST (kudos_to_mona 20) d1) in
  (Developers.kudos_count <$> developers d1 !! 2) = Some (Some 1)
  /\ (Developers.kudos_count <$> developers d2 !! 2) = Some (Some 1)
  /\ length (activity_feed d2) = 1%nat
  /\ fst (POST (kudos_to_mona 20) d1) = ok_response.
Proof. vm_compute. repeat split; reflexivity. Qed.

Lemma kudos_twice_same_day_witness :
  let d1 := snd (POST (kudos_to_mona 10) (town 0)) in
  snd (POST (kudos_to_mona 20) d1) = d1
  /\ fst (POST (kudos_to_mona 20) d1) = ok_response.
Proof.
  destruct (kudos_twice_same_day (kudos_to_mona 10) (kudos_to_mona 20) (town 0)
              eq_refl eq_refl eq_refl eq_refl)
    as (Hsame & _ & _ & _ & Hok).
  split; [exact Hsame|].
  apply (Hok octo_user 1
           (dev "octo" (Some "u1")) eq_refl); [| reflexivity |].
  - vm_compute. reflexivity.
  - vm_compute. reflexivity.
Defined.

(** C9 as stated: the second request, when it is not rate-limited, also
    returns success. *)
Definition second_kudos_always_ok : Prop :=
  forall req1 req2 d,
    user req2 = user req1 ->
    body req2 = body req1 ->
    today req2 = today req1 ->
    rate_ok req2 = true ->
    status (fst (POST req1 d)) = 200 ->
    status (fst (POST req2 (snd (POST req1 d)))) = 200.

Example twentieth_kudos_then_limit :
  status (fst (POST (kudos_to_mona 10) (town 19))) = 200
  /\ fst (POST (kudos_to_mona 20) (snd (POST (kudos_to_mona 10) (town 19))))
     = error_response 429 "Daily kudos limit reached (20/day)".
Proof. vm_compute. split; reflexivity. Qed.

(** C9 as stated fails: Octo has given 19 kudos today; the kudos to Mona is
    the twentieth and succeeds; the same request again is answered 429,
    the daily limit being checked before the insert. *)
Lemma second_kudos_always_ok_fails : ~ second_kudos_always_ok.
Proof.
  intros H.
  specialize (H (kudos_to_mona 10) (kudos_to_mona 20) (town 19)
                eq_refl eq_refl eq_refl eq_refl (proj1 twentieth_kudos_then_limit)).
  rewrite (proj2 twentieth_kudos_then_limit) in H. discriminate H.
Qed.

End KudosFacts.

(** ** Achievement back-fill *)

Lemma foldl_invariant {A B} (P : A -> Prop) (f : A -> B -> A) (l : list B) (a : A) :
  P a -> (forall acc x, In x l -> P acc -> P (f acc x)) -> P (foldl f a l).
Proof.
  revert a. induction l as [|x l IH]; intros a Ha Hstep; simpl; [exact Ha|].
  apply IH.
  - apply Hstep; [now left | exact Ha].
  - intros acc y Hy. apply Hstep. now right.
Qed.

Lemma filter_bool_nil {A} (f : A -> bool) (l : list A) :
  List.filter f l = [] <-> (forall x, In x l -> f x = false).
Proof.
  induction l as [|x l IH]; simpl.
  - split; [intros _ y [] | reflexivity].
  - destruct (f x) eqn:E.
    + split; [discriminate|]. intros H. specialize (H x (or_introl eq_refl)).
      congruence.
    + rewrite IH. split.
      * intros H y [<-|Hy]; auto.
      * intros H y Hy. apply H. now right.
Qed.

Lemma sort_In {A} (cmp : A -> A -> Z) (l : list A) x :
  In x (JS.sort cmp l) -> In x l.
Proof.
  intros H.
  assert (HF : Forall (fun y => In y l) (JS.sort cmp l)).
  { apply sort_Forall. apply List.Forall_forall. auto. }
  rewrite List.Forall_forall in HF. now apply HF.
Qed.

Module BackfillFacts.
Import Backfill.

(** *** Reading *)

Lemma load_existing_spec d key :
  key ∈ load_existing d
  <-> exists k a, (k, a) ∈ developer_achievements d /\ key = unlock_key k a.
Proof.
  unfold load_existing. rewrite elem_of_list_to_set, list_elem_of_fmap.
  split.
  - intros ([k a] & -> & Hin). apply elem_of_elements in Hin. eauto.
  - intros (k & a & Hin & ->). exists (k, a). split; [reflexivity|].
    now apply elem_of_elements.
Qed.

Lemma load_developers_lookup d k x :
  In (k, x) (load_developers d) -> developers d !! k = Some x.
Proof.
  intros H. apply sort_In in H. apply list_elem_of_In in H.
  now apply elem_of_map_to_list in H.
Qed.

(** The developer has nothing new to unlock. *)
Definition quiet (d : db) (k : Z) (x : Developers.row) : Prop :=
  newUnlocks (load_existing d) (load_achievements d) k (stats_of k x d) = [].

(** Every achievement the developer qualifies for is already among the
    developer's unlocks. *)
Definition all_unlocked (d : db) (k : Z) (x : Developers.row) : Prop :=
  forall a, In a (achievements d) ->
    qualifies (stats_of k x d) a = true ->
    (k, Achievements.id a) ∈ developer_achievements d.

Lemma all_unlocked_quiet d k x : all_unlocked d k x -> quiet d k x.
Proof.
  intros H. unfold quiet, newUnlocks. apply filter_bool_nil. intros a Ha.
  apply sort_In in Ha.
  destruct (qualifies (stats_of k x d) a) eqn:Eq; [|now rewrite andb_false_r].
  rewrite bool_decide_eq_true_2; [reflexivity|].
  apply load_existing_spec. eauto.
Qed.

Lemma process_quiet d acc k x :
  quiet d k x -> process (load_existing d) (load_achievements d) d acc (k, x) = acc.
Proof. unfold quiet, process. now intros ->. Qed.

(** *** Collecting *)

(** No row of the batches belongs to developer [k]. *)
Definition nothing_for (k : Z) (b : batches) : Prop :=
  Forall (fun r => fst r <> k) (unlockRows b)
  /\ Forall (fun p => developer_id p <> k) (purchaseRows b)
  /\ Forall (fun e => actor_id e <> k) (feedEvents b).

Lemma process_nothing_for d k k' x' acc :
  k' <> k ->
  nothing_for k acc ->
  nothing_for k (process (load_existing d) (load_achievements d) d acc (k', x')).
Proof.
  intros Hne (Hu & Hp & Hf). unfold process.
  destruct (newUnlocks _ _ _ _) as [|a l] eqn:E; [repeat split; assumption|].
  repeat split; cbn [unlockRows purchaseRows feedEvents].
  - apply Forall_app. split; [exact Hu|].
    apply List.Forall_forall. intros r Hr. apply in_map_iff in Hr as (b & <- & _).
    exact Hne.
  - apply Forall_app. split; [exact Hp|].
    apply List.Forall_forall. intros p Hin. apply list_elem_of_In in Hin.
    apply list_elem_of_omap in Hin as (b & _ & Hb). unfold reward_of in Hb.
    destruct (_ && _); [|discriminate]. injection Hb as <-. exact Hne.
  - apply Forall_app. split; [exact Hf|]. repeat constructor. exact Hne.
Qed.

Lemma collect_nothing_for d k x :
  developers d !! k = Some x -> quiet d k x -> nothing_for k (collect d).
Proof.
  intros Hk Hq. unfold collect. apply foldl_invariant.
  - repeat split; constructor.
  - intros acc [k' x'] Hin Hacc. destruct (decide (k' = k)) as [->|Hne].
    + apply load_developers_lookup in Hin. rewrite Hk in Hin.
      injection Hin as <-. now rewrite process_quiet.
    + now apply process_nothing_for.
Qed.

Lemma collect_all_quiet d :
  (forall k x, In (k, x) (load_developers d) -> quiet d k x) ->
  collect d = no_batches.
Proof.
  intros H. unfold collect. apply foldl_invariant; [reflexivity|].
  intros acc [k x] Hin ->. apply process_quiet. now apply H.
Qed.

(** *** Writing *)

(** What a run may add to the database [d] to give [d']: unlock rows,
    reward purchases and feed events taken from the batches, and nothing
    else. *)
Definition extends_by (b : batches) (d d' : db) : Prop :=
  developers d' = developers d
  /\ achievements d' = achievements d
  /\ (forall r, r ∈ developer_achievements d' <->
                r ∈ developer_achievements d
                \/ (totalUnlocks b <> 0 /\ In r (unlockRows b)))
  /\ (exists extra,
        purchases d' = (purchases d ++ extra)%list
        /\ Forall (fun r => exists p id, In p (purchaseRows b) /\ r = reward_row p id)
             extra)
  /\ (exists extra,
        activity_feed d' = (activity_feed d ++ extra)%list
        /\ Forall (fun e => exists ev, In ev (feedEvents b)
                              /\ ActivityFeed.actor_id e = Some (actor_id ev))
             extra).

Lemma insert_purchase_same mk d :
  let d' := snd (Db.insert_purchase mk d) in
  developers d' = developers d /\ achievements d' = achievements d
  /\ developer_achievements d' = developer_achievements d
  /\ activity_feed d' = activity_feed d
  /\ (purchases d' = purchases d
      \/ purchases d' = (purchases d ++ [mk (uuid_seq d)])%list).
Proof.
  unfold Db.insert_purchase. destruct (_ && _); [|simpl; auto 6].
  unfold exec. destruct (Purchases.admissible _); simpl; auto 6.
Qed.

Lemma grant_rewards_same rows d :
  let d' := grant_rewards rows d in
  developers d' = developers d /\ achievements d' = achievements d
  /\ developer_achievements d' = developer_achievements d
  /\ activity_feed d' = activity_feed d
  /\ exists extra,
       purchases d' = (purchases d ++ extra)%list
       /\ Forall (fun r => exists p id, In p rows /\ r = reward_row p id) extra.
Proof.
  revert d. induction rows as [|p rows IH]; intros d; simpl.
  - repeat split. exists []. now rewrite app_nil_r.
  - destruct (insert_purchase_same (reward_row p) d) as (H1 & H2 & H3 & H4 & H5).
    destruct (IH (snd (Db.insert_purchase (reward_row p) d)))
      as (I1 & I2 & I3 & I4 & extra & I5 & I6).
    unfold grant_rewards in *. simpl.
    rewrite I1, I2, I3, I4, H1, H2, H3, H4. repeat split.
    assert (Hext : Forall (fun r => exists q id, In q (p :: rows) /\ r = reward_row q id)
                     extra).
    { eapply Forall_impl; [exact I6|]. intros r (q & id & Hq & ->).
      exists q, id. split; [now right | reflexivity]. }
    destruct H5 as [H5|H5]; rewrite I5, H5.
    + now exists extra.
    + exists (reward_row p (uuid_seq d) :: extra). rewrite <- app_assoc. simpl.
      split; [reflexivity|]. constructor; [|exact Hext].
      exists p, (uuid_seq d). split; [now left | reflexivity].
Qed.

Lemma insert_feed_same now events d :
  let d' := insert_feed now events d in
  developers d' = developers d /\ achievements d' = achievements d
  /\ developer_achievements d' = developer_achievements d
  /\ purchases d' = purchases d
  /\ exists extra,
       activity_feed d' = (activity_feed d ++ extra)%list
       /\ Forall (fun e => exists ev, In ev events
                             /\ ActivityFeed.actor_id e = Some (actor_id ev))
            extra.
Proof.
  revert d. induction events as [|ev events IH]; intros d; simpl.
  - repeat split. exists []. now rewrite app_nil_r.
  - match goal with
    | |- context [insert_feed now events ?d0] =>
        destruct (IH d0) as (I1 & I2 & I3 & I4 & extra & I5 & I6)
    end.
    unfold insert_feed in *. simpl. rewrite I1, I2, I3, I4. repeat split.
    rewrite I5. simpl. rewrite <- app_assoc. simpl. eexists. split; [reflexivity|].
    constructor.
    + exists ev. split; [now left | reflexivity].
    + eapply Forall_impl; [exact I6|]. intros e (ev' & Hin & He).
      exists ev'. split; [now right | exact He].
Qed.

Lemma write_extends now b d : extends_by b d (write now b d).
Proof.
  unfold write, extends_by. destruct (Z.eqb_spec (totalUnlocks b) 0) as [E|E].
  - split; [reflexivity|]. split; [reflexivity|]. split; [|split].
    + intros r. split; [auto | intros [H|[H _]]; [exact H | contradiction]].
    + exists []. rewrite app_nil_r. split; [reflexivity | constructor].
    + exists []. rewrite app_nil_r. split; [reflexivity | constructor].
  - set (d1 := upsert_unlocks (unlockRows b) d).
    destruct (grant_rewards_same (purchaseRows b) d1)
      as (G1 & G2 & G3 & G4 & extraP & G5 & G6).
    destruct (insert_feed_same now (feedEvents b) (grant_rewards (purchaseRows b) d1))
      as (F1 & F2 & F3 & F4 & extraF & F5 & F6).
    rewrite F1, F2, F3, F4, G1, G2, G3, F5, G4, G5.
    split; [reflexivity|]. split; [reflexivity|]. split; [|split].
    + intros r. unfold d1, upsert_unlocks. simpl.
      rewrite elem_of_union, elem_of_list_to_set, list_elem_of_In. tauto.
    + now exists extraP.
    + now exists extraF.
Qed.

(** *** What a run leaves for the next one *)

Lemma foldl_reaches {A B} (Q : A -> Prop) (f : A -> B -> A) (l : list B) (x0 : B) :
  In x0 l ->
  (forall acc, Q (f acc x0)) ->
  (forall acc y, Q acc -> Q (f acc y)) ->
  forall acc, Q (foldl f acc l).
Proof.
  intros Hin Hx Hstable. induction l as [|y l IH]; [destruct Hin|].
  intros acc. simpl. destruct Hin as [->|Hin].
  - apply foldl_invariant; [apply Hx | intros; now apply Hstable].
  - now apply IH.
Qed.

Lemma collect_counts d :
  totalUnlocks (collect d) = Z.of_nat (length (unlockRows (collect d))).
Proof.
  unfold collect. apply foldl_invariant; [reflexivity|].
  intros acc [k x] _ Hacc. unfold process.
  destruct (newUnlocks _ _ _ _) as [|a l]; [exact Hacc|].
  cbn [totalUnlocks unlockRows]. rewrite length_app, length_map, Hacc. lia.
Qed.

Lemma collect_contains d k x a :
  In (k, x) (load_developers d) ->
  In a (newUnlocks (load_existing d) (load_achievements d) k (stats_of k x d)) ->
  In (k, Achievements.id a) (unlockRows (collect d))
  /\ totalUnlocks (collect d) <> 0.
Proof.
  intros Hdev Ha.
  assert (Hin : In (k, Achievements.id a) (unlockRows (collect d))).
  { unfold collect.
    apply (foldl_reaches (fun acc => In (k, Achievements.id a) (unlockRows acc))
             _ _ (k, x) Hdev).
    - intros acc. unfold process.
      destruct (newUnlocks _ _ _ _) as [|a0 l] eqn:E; [destruct Ha|].
      cbn [unlockRows]. apply in_or_app. right.
      apply in_map_iff. exists a. split; [reflexivity | exact Ha].
    - intros acc [k' x'] Hacc. unfold process.
      destruct (newUnlocks _ _ k' _) as [|a0 l]; [exact Hacc|].
      cbn [unlockRows]. apply in_or_app. now left. }
  split; [exact Hin|]. rewrite collect_counts.
  destruct (unlockRows (collect d)); [destruct Hin | simpl; lia].
Qed.

Lemma gifts_extended d d' extra :
  purchases d' = (purchases d ++ extra)%list ->
  Forall (fun r => Purchases.gifted_to r = None) extra ->
  gifts d' = gifts d.
Proof.
  intros Hp Hex. unfold gifts. rewrite Hp, List.filter_app.
  rewrite (proj2 (filter_bool_nil _ extra)); [now rewrite app_nil_r|].
  intros r Hr. rewrite List.Forall_forall in Hex. rewrite (Hex r Hr).
  now rewrite andb_false_r.
Qed.

Lemma extends_by_reads b d d' k x :
  extends_by b d d' ->
  load_developers d' = load_developers d
  /\ load_achievements d' = load_achievements d
  /\ stats_of k x d' = stats_of k x d.
Proof.
  intros (Hd & Ha & _ & (extra & Hp & Hex) & _).
  unfold load_developers, load_achievements, stats_of, giftsSentMap, giftsReceivedMap.
  rewrite Hd, Ha, (gifts_extended d d' extra Hp); [auto|].
  eapply Forall_impl; [exact Hex|]. intros r (p & id & _ & ->). reflexivity.
Qed.

(** After a run, no developer has anything new to unlock. *)
Lemma main_quiet now d k x :
  In (k, x) (load_developers (main now d)) -> quiet (main now d) k x.
Proof.
  unfold main. pose proof (write_extends now (collect d) d) as Hext.
  set (d' := write now (collect d) d) in *.
  destruct (extends_by_reads _ _ _ k x Hext) as (Hdevs & Hachs & Hstats).
  rewrite Hdevs. intros Hdev. unfold quiet.
  rewrite Hachs, Hstats. unfold newUnlocks. apply filter_bool_nil. intros a Ha.
  destruct (qualifies (stats_of k x d) a) eqn:Eq; [|now rewrite andb_false_r].
  rewrite bool_decide_eq_true_2; [reflexivity|].
  destruct Hext as (_ & _ & Hda & _).
  destruct (decide (unlock_key k (Achievements.id a) ∈ load_existing d)) as [Hold|Hnew].
  - apply load_existing_spec in Hold as (k0 & a0 & Hin0 & Hkey).
    apply load_existing_spec. exists k0, a0. split; [|exact Hkey].
    apply Hda. now left.
  - assert (Hnu : In a (newUnlocks (load_existing d) (load_achievements d) k
                          (stats_of k x d))).
    { unfold newUnlocks. apply filter_In. split; [exact Ha|].
      rewrite bool_decide_eq_false_2 by exact Hnew. now rewrite Eq. }
    destruct (collect_contains d k x a Hdev Hnu) as [Hrow Htot].
    apply load_existing_spec. exists k, (Achievements.id a). split; [|reflexivity].
    apply Hda. right. auto.
Qed.

(** The script is idempotent: a second run writes nothing. *)
Lemma main_idempotent now now' d : main now' (main now d) = main now d.
Proof.
  unfold main at 1. rewrite collect_all_quiet; [reflexivity|].
  intros k x. apply main_quiet.
Qed.

(** With every developer fully unlocked, a run writes nothing. *)
Lemma main_nothing_to_do now d :
  (forall k x, developers d !! k = Some x -> all_unlocked d k x) ->
  main now d = d.
Proof.
  intros H. unfold main. rewrite collect_all_quiet; [reflexivity|].
  intros k x Hin. apply all_unlocked_quiet, H.
  now apply load_developers_lookup.
Qed.

(** *** Re-running *)

Definition of_developer (k : Z) (r : Purchases.row) : bool :=
  Purchases.developer_id r =? k.

Definition by_actor (k : Z) (e : ActivityFeed.row) : bool :=
  bool_decide (ActivityFeed.actor_id e = Some k).

(** C4: the unlock check is idempotent. For every developer whose
    qualifying achievements are all already unlocked, a run adds no
    [developer_achievements] row, grants no reward purchase and emits no
    feed event for that developer; and whatever a run has written, a run
    that follows it writes nothing at all. *)
Theorem rerun_writes_nothing_for_unlocked
    (now now' : Z) (d : db) (k : Z) (x : Developers.row) :
  developers d !! k = Some x ->
  all_unlocked d k x ->
  let d' := main now d in
  (forall a, (k, a) ∈ developer_achievements d' <-> (k, a) ∈ developer_achievements d)
  /\ List.filter (of_developer k) (purchases d')
     = List.filter (of_developer k) (purchases d)
  /\ List.filter (by_actor k) (activity_feed d')
     = List.filter (by_actor k) (activity_feed d)
  /\ main now' d' = d'.
Proof.
  intros Hk Hall. cbv zeta.
  destruct (collect_nothing_for d k x Hk (all_unlocked_quiet _ _ _ Hall))
    as (Hu & Hp & Hf).
  destruct (write_extends now (collect d) d)
    as (_ & _ & Hda & (extraP & HP & HextraP) & (extraF & HF & HextraF)).
  fold (main now d) in *. split; [|split; [|split]].
  - intros a. rewrite Hda. split; [|auto].
    intros [H|[_ H]]; [exact H|]. exfalso.
    rewrite List.Forall_forall in Hu. now apply (Hu _ H).
  - rewrite HP, List.filter_app.
    rewrite (proj2 (filter_bool_nil _ extraP)); [now rewrite app_nil_r|].
    intros r Hr. rewrite List.Forall_forall in HextraP, Hp.
    destruct (HextraP r Hr) as (p & id & Hin & ->).
    unfold of_developer. simpl. apply Z.eqb_neq. now apply Hp.
  - rewrite HF, List.filter_app.
    rewrite (proj2 (filter_bool_nil _ extraF)); [now rewrite app_nil_r|].
    intros e He. rewrite List.Forall_forall in HextraF, Hf.
    destruct (HextraF e He) as (ev & Hin & Hact).
    unfold by_actor. apply bool_decide_eq_false_2. rewrite Hact.
    intros [= Heq]. now apply (Hf ev Hin).
  - apply main_idempotent.
Qed.

Definition award (i cat : string) (t so : Z) (reward : option string) : Achievements.row :=
  {| Achievements.id := i; Achievements.category := cat; Achievements.name := i;
     Achievements.threshold := t; Achievements.tier := "bronze";
     Achievements.reward_type :=
       match reward with Some _ => "unlock_item" | None => "exclusive_badge" end;
     Achievements.reward_item_id := reward; Achievements.sort_order := so |}.

Definition coder (login : string) (commits : Z) (rank : option Z) : Developers.row :=
  {| Developers.github_login := login; Developers.claimed := true;
     Developers.claimed_by := None; Developers.contributions := Some commits;
     Developers.public_repos := Some 3; Developers.total_stars := Some 0;
     Developers.kudos_count := Some 0; Developers.referral_count := Some 0;
     Developers.rank := rank; Developers.avatar_url := None |}.

Definition free_item : Items.row :=
  {| Items.category := "identity"; Items.name := "Item";
     Items.price_usd_cents := 75; Items.price_brl_cents := 390;
     Items.is_active := true |}.

(** Developer 1 has both achievements; developer 2 is due the first. *)
Definition league : db :=
  {| developers := {[ 1 := coder "ada" 150 (Some 2); 2 := coder "bob" 1 (Some 1);
                      3 := coder "cy" 0 None ]};
     items := {[ "flag" := free_item; "custom_color" := free_item ]};
     purchases := [];
     developer_customizations := ∅;
     achievements := [award "committed" "commits" 100 2 (Some "custom_color");
                      award "first_push" "commits" 1 1 (Some "flag")];
     developer_achievements := {[ (1, "first_push"); (1, "committed") ]};
     developer_kudos := ∅; activity_feed := []; raids := [];
     uuid_seq := 1%positive |}.

Example league_run :
  let d := main 5 league in
  elements (developer_achievements d)
  = [(1, "committed"); (1, "first_push"); (2, "first_push")]
  /\ map (fun r => (Purchases.developer_id r, Purchases.item_id r)) (purchases d)
     = [(2, "flag")]
  /\ map ActivityFeed.actor_id (activity_feed d) = [Some 2]
  /\ main 6 d = d.
Proof. vm_compute. repeat split; reflexivity. Qed.

Lemma rerun_writes_nothing_for_unlocked_witness :
  (forall a, (1, a) ∈ developer_achievements (main 5 league)
             <-> (1, a) ∈ developer_achievements league)
  /\ List.filter (of_developer 1) (purchases (main 5 league)) = []
  /\ List.filter (by_actor 1) (activity_feed (main 5 league)) = []
  /\ main 6 (main 5 league) = main 5 league.
Proof.
  apply (rerun_writes_nothing_for_unlocked 5 6 league 1 (coder "ada" 150 (Some 2))).
  - reflexivity.
  - intros a [<-|[<-|[]]] _; simpl; set_solver.
Defined.

End BackfillFacts.

(** * Further properties *)

(** ** Sorting, once more *)

Section SortMore.
Context {A : Type}.

Lemma sort_insert_perm (cmp : A -> A -> Z) x l :
  JS.sort_insert cmp x l ≡ₚ x :: l.
Proof.
  induction l as [|y r IH]; simpl; [reflexivity|].
  destruct (cmp y x <? 0); [|reflexivity].
  rewrite IH. apply Permutation_swap.
Qed.

Lemma sort_perm (cmp : A -> A -> Z) l : JS.sort cmp l ≡ₚ l.
Proof.
  induction l as [|x l IH]; simpl; [reflexivity|].
  rewrite sort_insert_perm. now rewrite IH.
Qed.

Lemma sort_In_iff (cmp : A -> A -> Z) l x : In x (JS.sort cmp l) <-> In x l.
Proof.
  rewrite <- !list_elem_of_In. now rewrite sort_perm.
Qed.

Lemma filter_bool_all (f : A -> bool) l :
  Forall (fun x => f x = true) l -> List.filter f l = l.
Proof.
  induction 1 as [|x l Hx _ IH]; simpl; [reflexivity|].
  now rewrite Hx, IH.
Qed.

Variable key : A -> Z.

(** A list that is already in order is left as it is. *)
Lemma sort_sorted_id l :
  JS.sorted_desc key l -> JS.sort (JS.by_desc key) l = l.
Proof.
  unfold JS.sorted_desc. induction 1 as [|x l Hl IH Hx]; simpl; [reflexivity|].
  rewrite IH. destruct l as [|y r]; simpl; [reflexivity|].
  apply Forall_inv in Hx. unfold JS.by_desc.
  destruct (Z.ltb_spec (key x - key y) 0); [lia | reflexivity].
Qed.

(** What comes first in an ordered list is at least as large as what
    comes after the cut. *)
Lemma sorted_desc_cut n l b c :
  JS.sorted_desc key l -> In b (firstn n l) -> In c (skipn n l) -> key c <= key b.
Proof.
  unfold JS.sorted_desc. intros H. revert n.
  induction H as [|x l Hl IH Hx]; intros [|n] Hb Hc; simpl in *; try contradiction.
  destruct Hb as [<-|Hb].
  - rewrite List.Forall_forall in Hx. apply Hx.
    rewrite <- (firstn_skipn n l). apply in_or_app. now right.
  - now apply (IH n).
Qed.

(** The sort is stable: the elements of one key keep their order. *)
Lemma sort_insert_stable (p : Z) x l :
  List.filter (fun a => key a =? p) (JS.sort_insert (JS.by_desc key) x l)
  = List.filter (fun a => key a =? p) (x :: l).
Proof.
  induction l as [|y r IH]; simpl; [reflexivity|].
  unfold JS.by_desc at 1.
  destruct (Z.ltb_spec (key x - key y) 0) as [Hlt|Hge]; [|reflexivity].
  simpl. rewrite IH. simpl.
  destruct (Z.eqb_spec (key x) p), (Z.eqb_spec (key y) p); try reflexivity.
  lia.
Qed.

Lemma sort_stable (p : Z) l :
  List.filter (fun a => key a =? p) (JS.sort (JS.by_desc key) l)
  = List.filter (fun a => key a =? p) l.
Proof.
  induction l as [|x l IH]; simpl; [reflexivity|].
  rewrite sort_insert_stable. simpl. now rewrite IH.
Qed.

End SortMore.

(** ** Sky ads: what is selected *)

Module SkyAdsMore.
Import SkyAds.

Lemma validateAds_passes ads : Forall (fun a => ad_passes a = true) (validateAds ads).
Proof. unfold validateAds. apply sort_Forall, Forall_filter_holds. Qed.

Lemma validateAds_In ads a :
  In a (validateAds ads) <-> In a ads /\ ad_passes a = true.
Proof. unfold validateAds. now rewrite sort_In_iff, filter_In. Qed.

(** X1: validating twice is validating once, and the selection made from a
    validated list is the selection made from the list itself. *)
Theorem validateAds_idempotent (ads : list SkyAd) :
  validateAds (validateAds ads) = validateAds ads
  /\ getActiveAds (validateAds ads) = getActiveAds ads.
Proof.
  assert (H : validateAds (validateAds ads) = validateAds ads).
  { unfold validateAds at 1. rewrite filter_bool_all by apply validateAds_passes.
    apply sort_sorted_id. unfold validateAds. apply sort_sorted. }
  split; [exact H|]. unfold getActiveAds. now rewrite H.
Qed.

(** The ads of vehicle [v] that [getActiveAds] keeps, at most [n]. *)
Definition shown (v : vehicle_t) (n : nat) (ads : list SkyAd) : list SkyAd :=
  JS.slice0 n (List.filter (fun a => vehicle_eqb (vehicle a) v) (validateAds ads)).

Lemma shown_In v n ads a :
  In a (shown v n ads) -> In a ads /\ ad_passes a = true /\ vehicle a = v.
Proof.
  unfold shown, JS.slice0. intros H.
  assert (H' : In a (List.filter (fun a => vehicle_eqb (vehicle a) v) (validateAds ads))).
  { rewrite <- (firstn_skipn n (List.filter _ _)). apply in_or_app. now left. }
  apply filter_In in H' as [Hin Hv]. apply validateAds_In in Hin as [Hin Hok].
  repeat split; try assumption.
  destruct (vehicle a), v; simpl in Hv; congruence.
Qed.

(** X2: every ad [getActiveAds] returns is one of the ads it was given, has
    passed the validation, and flies the vehicle of its list. *)
Theorem getActiveAds_from_input (ads : list SkyAd) :
  Forall (fun a => In a ads /\ ad_passes a = true /\ vehicle a = plane)
    (planeAds (getActiveAds ads))
  /\ Forall (fun a => In a ads /\ ad_passes a = true /\ vehicle a = blimp)
       (blimpAds (getActiveAds ads)).
Proof.
  split; apply List.Forall_forall; intros a Ha.
  - now apply (shown_In plane MAX_PLANES).
  - now apply (shown_In blimp MAX_BLIMPS).
Qed.

Lemma shown_best v n ads a :
  In a ads -> ad_passes a = true -> vehicle a = v ->
  ~ In a (shown v n ads) ->
  length (shown v n ads) = n
  /\ Forall (fun b => priority a <= priority b) (shown v n ads).
Proof.
  intros Hin Hok Hv Hnot. unfold shown, JS.slice0 in *.
  set (L := List.filter (fun a => vehicle_eqb (vehicle a) v) (validateAds ads)) in *.
  assert (HL : In a L).
  { apply filter_In. split; [now apply validateAds_In|].
    rewrite Hv. now destruct v. }
  assert (Hs : JS.sorted_desc priority L)
    by (apply filter_sorted; unfold validateAds; apply sort_sorted).
  assert (Hrest : In a (skipn n L)).
  { rewrite <- (firstn_skipn n L) in HL. apply in_app_or in HL as [H|H];
      [contradiction | exact H]. }
  split.
  - apply firstn_length_le.
    destruct (Nat.le_gt_cases n (length L)) as [Hle|Hgt]; [exact Hle|].
    rewrite skipn_all2 in Hrest by lia. destruct Hrest.
  - apply List.Forall_forall. intros b Hb.
    now apply (sorted_desc_cut priority n L b a).
Qed.

(** X3: the selection goes by priority. A valid plane ad that is left out
    is left out because three plane ads are shown, each of a priority at
    least as high; the same holds for blimp ads and two. *)
Theorem getActiveAds_keeps_the_best (ads : list SkyAd) (a : SkyAd) :
  In a ads ->
  ad_passes a = true ->
  ~ In a (planeAds (getActiveAds ads)) ->
  ~ In a (blimpAds (getActiveAds ads)) ->
  match vehicle a with
  | plane =>
      length (planeAds (getActiveAds ads)) = 3%nat
      /\ Forall (fun b => priority a <= priority b) (planeAds (getActiveAds ads))
  | blimp =>
      length (blimpAds (getActiveAds ads)) = 2%nat
      /\ Forall (fun b => priority a <= priority b) (blimpAds (getActiveAds ads))
  end.
Proof.
  intros Hin Hok Hp Hb. destruct (vehicle a) eqn:Ev.
  - now apply (shown_best plane MAX_PLANES).
  - now apply (shown_best blimp MAX_BLIMPS).
Qed.

Definition late_plane : SkyAd :=
  {| id := "late"; text := "LATE"; brand := None; description := None;
     color := "#ffffff"; bgColor := "#000000"; link := None;
     vehicle := plane; priority := 5 |}.

Lemma getActiveAds_keeps_the_best_witness :
  length (planeAds (getActiveAds (DEFAULT_SKY_ADS ++ [late_plane]))) = 3%nat
  /\ Forall (fun b => 5 <= priority b)
       (planeAds (getActiveAds (DEFAULT_SKY_ADS ++ [late_plane]))).
Proof.
  apply (getActiveAds_keeps_the_best (DEFAULT_SKY_ADS ++ [late_plane]) late_plane).
  - simpl. tauto.
  - reflexivity.
  - simpl. intros [H|[H|[H|[]]]]; discriminate H.
  - simpl. intros [H|[]]; discriminate H.
Defined.

(** X4: among the ads of one priority, [validateAds] keeps the order in
    which they were given. *)
Theorem validateAds_stable (ads : list SkyAd) (p : Z) :
  List.filter (fun a => priority a =? p) (validateAds ads)
  = List.filter (fun a => priority a =? p) (List.filter ad_passes ads).
Proof. unfold validateAds. apply sort_stable. Qed.

End SkyAdsMore.

(** ** Activity feed: pages, cursors and enrichment *)

Module FeedMore.
Import Feed.

(** The rows a numeric limit lets through. *)
Lemma query_numeric on_nan_limit req d n :
  Num.parseInt (JS.nullish (limit req) "20") = Some n ->
  query on_nan_limit req d
  = Some (firstn (Z.to_nat (Z.min 50 (Z.max 1 n))) (selected req d)).
Proof.
  intros Hn. unfold query. now rewrite (FeedFacts.limit_of_numeric req n Hn).
Qed.

Lemma GET_events on_nan_limit req d :
  map event (events (GET on_nan_limit req d))
  = match query on_nan_limit req d with Some evs => evs | None => [] end.
Proof.
  unfold GET. destruct (query on_nan_limit req d) as [[|e evs]|]; try reflexivity.
  cbn [events]. rewrite map_map. simpl. now rewrite map_id.
Qed.

Lemma selected_In req d r :
  In r (selected req d)
  <-> In r (activity_feed d)
      /\ (forall t, cursor_of req d = Some t -> ActivityFeed.created_at r < t).
Proof.
  unfold selected. rewrite sort_In_iff.
  destruct (cursor_of req d) as [c|].
  - rewrite filter_In, Z.ltb_lt. split.
    + intros [H1 H2]. split; [exact H1|]. now intros t [= <-].
    + intros [H1 H2]. auto.
  - split; [intros H; split; [exact H | discriminate] | tauto].
Qed.

(** X5: a page is cut from the feed by the cursor. Every event returned is
    a row of the feed, and with a cursor that finds its event every event
    returned is strictly older than that event; a cursor that finds none
    gives the page that no cursor gives. *)
Theorem feed_page_respects_cursor on_nan_limit (req : request) (d : db) (n : Z) :
  Num.parseInt (JS.nullish (limit req) "20") = Some n ->
  Forall (fun e => In (event e) (activity_feed d)) (events (GET on_nan_limit req d))
  /\ match cursor_of req d with
     | Some t =>
         Forall (fun e => ActivityFeed.created_at (event e) < t)
           (events (GET on_nan_limit req d))
     | None =>
         GET on_nan_limit req d
         = GET on_nan_limit {| limit := limit req; before := None |} d
     end.
Proof.
  intros Hn.
  assert (Hall : Forall (fun r => In r (selected req d))
                   (map event (events (GET on_nan_limit req d)))).
  { rewrite GET_events, (query_numeric _ _ _ _ Hn).
    apply Forall_firstn_keep, List.Forall_forall. auto. }
  rewrite Forall_map in Hall. split.
  - eapply Forall_impl; [exact Hall|]. intros e He. now apply selected_In in He.
  - destruct (cursor_of req d) as [t|] eqn:Ec.
    + eapply Forall_impl; [exact Hall|]. intros e He.
      apply selected_In in He as [_ He]. now apply He.
    + unfold GET, query, selected, limit_of. simpl. now rewrite Ec.
Qed.

Lemma feed_page_respects_cursor_witness :
  Forall (fun e => ActivityFeed.created_at (event e) < 200)
    (events (GET (fun _ => None) {| limit := Some "5"; before := Some 3%positive |}
               FeedFacts.three_events)).
Proof.
  exact (proj2 (feed_page_respects_cursor (fun _ => None)
                  {| limit := Some "5"; before := Some 3%positive |}
                  FeedFacts.three_events 5 eq_refl)).
Defined.

(** X6: a page holds the newest events. An event of the feed that the
    cursor lets through and the page leaves out is left out because the
    page is full, and it is not newer than any event of the page. *)
Theorem feed_page_is_newest on_nan_limit (req : request) (d : db) (n : Z)
    (r : ActivityFeed.row) :
  Num.parseInt (JS.nullish (limit req) "20") = Some n ->
  In r (activity_feed d) ->
  (forall t, cursor_of req d = Some t -> ActivityFeed.created_at r < t) ->
  ~ In r (map event (events (GET on_nan_limit req d))) ->
  Z.of_nat (length (events (GET on_nan_limit req d))) = Z.min 50 (Z.max 1 n)
  /\ Forall (fun e => ActivityFeed.created_at r <= ActivityFeed.created_at (event e))
       (events (GET on_nan_limit req d)).
Proof.
  intros Hn Hin Hcur Hnot.
  rewrite <- (length_map event).
  assert (Hgoal : Z.of_nat (length (map event (events (GET on_nan_limit req d))))
                  = Z.min 50 (Z.max 1 n)
                  /\ Forall (fun x => ActivityFeed.created_at r <= ActivityFeed.created_at x)
                       (map event (events (GET on_nan_limit req d)))).
  { rewrite GET_events, (query_numeric _ _ _ _ Hn) in *.
    set (L := Z.to_nat (Z.min 50 (Z.max 1 n))) in *.
    assert (Hsel : In r (selected req d)) by (apply selected_In; auto).
    assert (Hrest : In r (skipn L (selected req d))).
    { rewrite <- (firstn_skipn L (selected req d)) in Hsel.
      apply in_app_or in Hsel as [H|H]; [contradiction | exact H]. }
    split.
    - rewrite firstn_length_le; [unfold L; lia|].
      destruct (Nat.le_gt_cases L (length (selected req d))) as [Hle|Hgt]; [exact Hle|].
      rewrite skipn_all2 in Hrest by lia. destruct Hrest.
    - apply List.Forall_forall. intros e He.
      apply (sorted_desc_cut ActivityFeed.created_at L (selected req d) e r);
        auto using FeedFacts.selected_sorted. }
  destruct Hgoal as [Hlen Hall]. split; [exact Hlen|].
  now rewrite Forall_map in Hall.
Qed.

Lemma feed_page_is_newest_witness :
  Z.of_nat (length (events (GET (fun _ => None) {| limit := Some "2"; before := None |}
                              FeedFacts.three_events))) = 2
  /\ Forall (fun e => 100 <= ActivityFeed.created_at (event e))
       (events (GET (fun _ => None) {| limit := Some "2"; before := None |}
                  FeedFacts.three_events)).
Proof.
  apply (feed_page_is_newest (fun _ => None) {| limit := Some "2"; before := None |}
           FeedFacts.three_events 2 (FeedFacts.ev 1 100) eq_refl).
  - simpl. tauto.
  - discriminate.
  - simpl. intros [H|[H|[]]]; discriminate H.
Defined.

(** *** Enrichment *)

Definition info_of (r : Developers.row) : dev_info :=
  {| login := Developers.github_login r; avatar := Developers.avatar_url r |}.

Lemma dev_map_lookup ids d k :
  k ∈ ids -> dev_map ids d !! k = info_of <$> developers d !! k.
Proof.
  intros Hk. unfold dev_map.
  rewrite bool_decide_eq_false_2 by set_solver.
  rewrite lookup_fmap, map_lookup_filter.
  destruct (developers d !! k) as [x|]; simpl; [|reflexivity].
  now rewrite option_guard_True.
Qed.

Lemma dev_ids_actor evs e :
  In e evs -> truthy_id (ActivityFeed.actor_id e) = true ->
  JS.nullish (ActivityFeed.actor_id e) 0 ∈ dev_ids evs.
Proof.
  intros He Ht. unfold dev_ids.
  apply (BackfillFacts.foldl_reaches
           (fun s => JS.nullish (ActivityFeed.actor_id e) 0 ∈ s) _ evs e He).
  - intros acc. rewrite Ht.
    destruct (truthy_id (ActivityFeed.target_id e)); set_solver.
  - intros acc y Hacc.
    destruct (truthy_id (ActivityFeed.actor_id y)),
      (truthy_id (ActivityFeed.target_id y)); set_solver.
Qed.

Lemma dev_ids_target evs e :
  In e evs -> truthy_id (ActivityFeed.target_id e) = true ->
  JS.nullish (ActivityFeed.target_id e) 0 ∈ dev_ids evs.
Proof.
  intros He Ht. unfold dev_ids.
  apply (BackfillFacts.foldl_reaches
           (fun s => JS.nullish (ActivityFeed.target_id e) 0 ∈ s) _ evs e He).
  - intros acc. rewrite Ht.
    destruct (truthy_id (ActivityFeed.actor_id e)); set_solver.
  - intros acc y Hacc.
    destruct (truthy_id (ActivityFeed.actor_id y)),
      (truthy_id (ActivityFeed.target_id y)); set_solver.
Qed.

(** The developer an id column points at, as the response shows it. *)
Definition shown_developer (x : option Z) (d : db) : option dev_info :=
  match x with
  | Some k => if k =? 0 then None else info_of <$> developers d !! k
  | None => None
  end.

(** X7: every event of the response carries, as actor and as target, the
    login and the avatar of the developer its id column names, and null
    when the column is null or 0 or names no developer. *)
Theorem feed_events_enriched on_nan_limit (req : request) (d : db) :
  Forall (fun e =>
            actor e = shown_developer (ActivityFeed.actor_id (event e)) d
            /\ target e = shown_developer (ActivityFeed.target_id (event e)) d)
    (events (GET on_nan_limit req d)).
Proof.
  unfold GET. destruct (query on_nan_limit req d) as [[|e0 evs]|];
    [constructor | | constructor].
  cbn [events]. set (all := e0 :: evs).
  apply List.Forall_forall. intros x Hx. apply in_map_iff in Hx as (e & <- & He).
  unfold enrich, shown_developer. cbn [event actor target]. split.
  - destruct (ActivityFeed.actor_id e) as [k|] eqn:Ea; [|reflexivity].
    simpl. destruct (k =? 0) eqn:Ek; [reflexivity|]. simpl.
    apply dev_map_lookup.
    pose proof (dev_ids_actor all e He) as H. rewrite Ea in H. simpl in H.
    apply H. now rewrite Ek.
  - destruct (ActivityFeed.target_id e) as [k|] eqn:Ea; [|reflexivity].
    simpl. destruct (k =? 0) eqn:Ek; [reflexivity|]. simpl.
    apply dev_map_lookup.
    pose proof (dev_ids_target all e He) as H. rewrite Ea in H. simpl in H.
    apply H. now rewrite Ek.
Qed.

End FeedMore.

(** ** Checkout: what a request can and cannot do *)

Module CheckoutMore.
Import Checkout.

(** The amount and the currency a purchase is charged in: the price of the
    catalogue, in reais for AbacatePay and for a Stripe order in "brl", in
    dollars otherwise. *)
Definition charged_currency (provider : string) (cur : option string) : string :=
  if String.eqb provider "stripe"
  then (if bool_decide (cur = Some "brl") then "brl" else "usd")
  else "brl".

Definition charged (it : Items.row) (provider : string) (cur : option string) : Z :=
  if String.eqb (charged_currency provider cur) "brl"
  then Items.price_brl_cents it else Items.price_usd_cents it.

Definition written_provider (provider : string) : string :=
  if String.eqb provider "stripe" then "stripe" else "abacatepay".

(** The row [pay] asks the table to store. *)
Definition asked (dev_id : Z) (item : string) (it : Items.row) (provider : string)
    (cur : option string) (d : db) : Purchases.row :=
  pending_row dev_id item (written_provider provider) (charged it provider cur)
    (charged_currency provider cur) (uuid_seq d).

(** The two ways [pay] can end: the insert was refused and nothing is
    written, or the row asked for is the new last row of the table, with
    the provider id filled in or not. *)
Definition pay_refused (r : response) (d d' : db) : Prop :=
  d' = d /\ status r = 500.

Definition pay_written (r : response) (row : Purchases.row) (d d' : db) : Prop :=
  exists stored,
    purchases d' = (purchases d ++ [stored])%list
    /\ uuid_seq d' = Pos.succ (uuid_seq d)
    /\ Purchases.admissible (purchases d') = true
    /\ (stored = row
        \/ exists tx, stored = Purchases.with_provider_tx_id (Some tx) row)
    /\ (status r = 200 \/ status r = 500).

Lemma update_last_nodup (t : list Purchases.row) r f :
  NoDup (map Purchases.id (t ++ [r])) ->
  map (fun q => if Pos.eqb (Purchases.id q) (Purchases.id r) then f q else q)
      (t ++ [r])
  = (t ++ [f r])%list.
Proof.
  intros Hnd. rewrite map_app in Hnd. apply NoDup_app in Hnd as (_ & Hsep & _).
  rewrite map_app. simpl. rewrite Pos.eqb_refl. f_equal.
  assert (Hall : Forall (fun q => Purchases.id q <> Purchases.id r) t).
  { apply List.Forall_forall. intros q Hq Heq. apply (Hsep (Purchases.id q)).
    - apply list_elem_of_In, in_map. exact Hq.
    - rewrite Heq. left. }
  induction Hall as [|q t Hq _ IH]; simpl; [reflexivity|].
  - rewrite IH.
    + destruct (Pos.eqb_spec (Purchases.id q) (Purchases.id r)); [contradiction|reflexivity].
    + intros x Hx. apply Hsep. now right.
Qed.

Lemma admissible_pkey t :
  Purchases.admissible t = true -> NoDup (map Purchases.id t).
Proof.
  unfold Purchases.admissible. intros H.
  apply andb_prop in H as [H _]. apply andb_prop in H as [H _].
  now apply bool_decide_eq_true in H.
Qed.

Lemma insert_purchase_cases mk d :
  Db.insert_purchase mk d = (None, d)
  \/ (Db.insert_purchase mk d
      = (Some (mk (uuid_seq d)),
         Db.with_uuid_seq (Pos.succ (uuid_seq d))
           (Db.with_purchases (purchases d ++ [mk (uuid_seq d)]) d))
      /\ Purchases.admissible (purchases d ++ [mk (uuid_seq d)]) = true).
Proof.
  unfold Db.insert_purchase. destruct (_ && _); [|now left].
  unfold exec. simpl.
  destruct (Purchases.admissible (purchases d ++ [mk (uuid_seq d)])) eqn:E;
    [right | left]; auto.
Qed.

Lemma set_purchase_tx_cases t r tx d :
  purchases d = (t ++ [r])%list ->
  Purchases.admissible (purchases d) = true ->
  uuid_seq (Db.set_purchase_tx (Purchases.id r) tx d) = uuid_seq d
  /\ Purchases.admissible (purchases (Db.set_purchase_tx (Purchases.id r) tx d)) = true
  /\ (purchases (Db.set_purchase_tx (Purchases.id r) tx d) = (t ++ [r])%list
      \/ purchases (Db.set_purchase_tx (Purchases.id r) tx d)
         = (t ++ [Purchases.with_provider_tx_id (Some tx) r])%list).
Proof.
  intros Hd Hadm. unfold Db.set_purchase_tx, exec_or_keep, exec.
  cbn [purchases Db.with_purchases uuid_seq stmt_result]. rewrite Hd in *.
  rewrite update_last_nodup by (apply admissible_pkey; exact Hadm).
  destruct (Purchases.admissible (t ++ [Purchases.with_provider_tx_id (Some tx) r]))
    eqn:E2; auto.
Qed.

Lemma pay_cases req dev_id item it provider cur d :
  let r := fst (pay req dev_id item it provider cur d) in
  let d' := snd (pay req dev_id item it provider cur d) in
  pay_refused r d d' \/ pay_written r (asked dev_id item it provider cur d) d d'.
Proof.
  cbv zeta. unfold pay, asked, written_provider, charged, charged_currency.
  destruct (String.eqb provider "stripe").
  - destruct (bool_decide (cur = Some "brl")); simpl;
      match goal with
      | |- context [Db.insert_purchase ?mk d] =>
          destruct (insert_purchase_cases mk d) as [E|[E Hadm]]; rewrite E
      end;
      try (left; split; reflexivity);
      right; eexists; destruct (stripe_session req); simpl;
        (split; [reflexivity|]); (split; [reflexivity|]);
        (split; [exact Hadm|]); split; auto.
  - simpl.
    match goal with
    | |- context [Db.insert_purchase ?mk d] =>
        destruct (insert_purchase_cases mk d) as [E|[E Hadm]]; rewrite E
    end; [left; split; reflexivity|].
    right. destruct (pix req) as [code|]; cbn [fst snd].
    + match goal with
      | |- pay_written _ ?row d (Db.set_purchase_tx _ ?tx ?d0) =>
          destruct (set_purchase_tx_cases (purchases d) row tx d0 eq_refl Hadm)
            as (Hseq & Hadm' & Hrows)
      end.
      unfold pay_written. destruct Hrows as [Hrows|Hrows]; eexists;
        (split; [exact Hrows|]); (split; [exact Hseq|]);
        (split; [exact Hadm'|]); split; simpl; eauto.
    + eexists. simpl. (split; [reflexivity|]); (split; [reflexivity|]).
      split; [exact Hadm|]. split; auto.
Qed.

(** Where a request that gets past the ownership checks stands: the
    session user, the building, the body and the item it names. *)
Record passage := {
  p_user : User;
  p_dev_id : Z;
  p_dev : Developers.row;
  p_body : checkout_body;
  p_item : Items.row
}.

Definition item_of (p : passage) : string := JS.nullish (item_id (p_body p)) "".
Definition provider_of (p : passage) : string := JS.nullish (provider (p_body p)) "".

Definition passes (req : request) (s : server) (p : passage) : Prop :=
  user req = Some (p_user p)
  /\ body req = Some (p_body p)
  /\ too_fast (lastCheckout s !! user_id (p_user p)) (now req) = false
  /\ Db.developer_by_login (github_login_of (p_user p)) (database s)
     = Some (p_dev_id p, p_dev p)
  /\ Developers.claimed (p_dev p) = true
  /\ Developers.claimed_by (p_dev p) = Some (user_id (p_user p))
  /\ JS.truthy_str (item_id (p_body p)) = true
  /\ valid_provider (provider (p_body p)) = true
  /\ active_item (item_of p) (database s) = Some (p_item p)
  /\ ownership_guard (p_dev_id p) (item_of p) (database s) = None.

(** The database before [pay]: the stale pending purchase is gone. *)
Definition cleared (p : passage) (s : server) : db :=
  clear_pending (p_dev_id p) (item_of p) (database s).

Definition paid (req : request) (p : passage) (s : server) : response * db :=
  pay req (p_dev_id p) (item_of p) (p_item p) (provider_of p)
      (currency (p_body p)) (cleared p s).

(** Either the request is turned away by one of the checks, with one of
    six statuses and an untouched database, or it goes through to [pay]. *)
Lemma POST_cases req s :
  (database (snd (POST req s)) = database s
   /\ In (status (fst (POST req s))) [401; 429; 400; 403; 404; 409])
  \/ exists p, passes req s p
       /\ fst (POST req s) = fst (paid req p s)
       /\ database (snd (POST req s)) = snd (paid req p s).
Proof.
  unfold POST.
  destruct (user req) as [u|] eqn:Eu; [|left; simpl; auto].
  destruct (too_fast _ _) eqn:Ef; [left; simpl; auto|].
  destruct (String.eqb _ _) eqn:El; [left; simpl; auto|].
  cbn [database with_lastCheckout].
  destruct (Db.developer_by_login _ _) as [[dev_id dev]|] eqn:Ed;
    [|left; simpl; auto 7].
  destruct (Developers.claimed dev) eqn:Ec; [|left; simpl; auto 7].
  destruct (bool_decide (Developers.claimed_by dev = Some (user_id u))) eqn:Eb;
    [|left; simpl; auto 7].
  apply bool_decide_eq_true in Eb. cbn [negb].
  destruct (body req) as [b|] eqn:Ebody; [|left; simpl; auto].
  destruct (JS.truthy_str (item_id b)) eqn:Ei; [|left; simpl; auto].
  destruct (valid_provider (provider b)) eqn:Ep; [|left; simpl; auto].
  cbn [negb orb].
  destruct (active_item _ _) as [it|] eqn:Ea; [|left; simpl; auto 8].
  destruct (ownership_guard _ _ _) as [rej|] eqn:Eg.
  - left. cbn [fst snd database]. split; [reflexivity|].
    unfold ownership_guard in Eg.
    destruct (String.eqb _ "billboard").
    + destruct (developers _ !! dev_id); [|discriminate].
      destruct (Number.geb _ _); [|discriminate]. injection Eg as <-. simpl. auto 8.
    + destruct (single _); [|discriminate]. injection Eg as <-. simpl. auto 8.
  - right.
    exists {| p_user := u; p_dev_id := dev_id; p_dev := dev; p_body := b; p_item := it |}.
    unfold passes, paid, cleared, item_of, provider_of. cbn [p_user p_dev_id p_dev p_body p_item].
    split; [repeat split; assumption|].
    destruct (pay _ _ _ _ _ _ _) as [r d']. split; reflexivity.
Qed.

Lemma paid_status req p s :
  status (fst (paid req p s)) = 200 \/ status (fst (paid req p s)) = 500.
Proof.
  unfold paid.
  destruct (pay_cases req (p_dev_id p) (item_of p) (p_item p) (provider_of p)
              (currency (p_body p)) (cleared p s)) as [[_ H]|(st & _ & _ & _ & _ & H)];
    auto.
Qed.

(** What the rate limiter remembers after a request. *)
Lemma POST_limiter req s :
  (snd (POST req s) = s
   /\ (user req = None /\ status (fst (POST req s)) = 401
       \/ status (fst (POST req s)) = 429))
  \/ exists u, user req = Some u
       /\ lastCheckout (snd (POST req s)) = <[user_id u := now req]> (lastCheckout s)
       /\ status (fst (POST req s)) <> 429
       /\ status (fst (POST req s)) <> 401.
Proof.
  unfold POST.
  destruct (user req) as [u|] eqn:Eu; [|left; simpl; auto].
  destruct (too_fast _ _) eqn:Ef; [left; simpl; auto|].
  right. exists u. split; [reflexivity|].
  destruct (String.eqb _ _); [simpl; split; [reflexivity | split; discriminate]|].
  cbn [database with_lastCheckout].
  destruct (Db.developer_by_login _ _) as [[dev_id dev]|];
    [|simpl; split; [reflexivity | split; discriminate]].
  destruct (negb (Developers.claimed dev)); [simpl; split; [reflexivity | split; discriminate]|].
  destruct (negb (bool_decide _)); [simpl; split; [reflexivity | split; discriminate]|].
  destruct (body req) as [b|]; [|simpl; split; [reflexivity | split; discriminate]].
  destruct (negb (JS.truthy_str (item_id b)) || negb (valid_provider (provider b)));
    [simpl; split; [reflexivity | split; discriminate]|].
  destruct (active_item _ _) as [it|]; [|simpl; split; [reflexivity | split; discriminate]].
  destruct (ownership_guard _ _ _) as [rej|] eqn:Eg.
  - cbn [fst snd lastCheckout]. split; [reflexivity|].
    unfold ownership_guard in Eg.
    destruct (String.eqb _ "billboard").
    + destruct (developers _ !! dev_id); [|discriminate].
      destruct (Number.geb _ _); [|discriminate]. injection Eg as <-. split; discriminate.
    + destruct (single _); [|discriminate]. injection Eg as <-. split; discriminate.
  - match goal with
    | |- context [pay ?a ?b ?c ?d0 ?e ?f ?g] =>
        pose proof (pay_cases a b c d0 e f g) as Hpay;
        destruct (pay a b c d0 e f g) as [r d']
    end.
    cbn [fst snd lastCheckout with_database with_lastCheckout] in *.
    split; [reflexivity|].
    destruct Hpay as [[_ H]|(st & _ & _ & _ & _ & [H|H])]; rewrite H; split; discriminate.
Qed.

(** X8: a request the handler turns away writes nothing. With any of the
    statuses 401, 429, 400, 403, 404 and 409 the database is as it was, and
    with 401 or 429 so is the rate limiter: a request that comes too soon
    does not push the next allowed time back. *)
Theorem checkout_rejection_writes_nothing (req : request) (s : server) :
  In (status (fst (POST req s))) [401; 429; 400; 403; 404; 409] ->
  database (snd (POST req s)) = database s
  /\ (In (status (fst (POST req s))) [401; 429] -> snd (POST req s) = s).
Proof.
  intros Hst. split.
  - destruct (POST_cases req s) as [[H _]|(p & _ & Hr & _)]; [exact H|].
    rewrite Hr in Hst. destruct (paid_status req p s) as [H|H]; rewrite H in Hst;
      simpl in Hst; repeat (destruct Hst as [Hst|Hst]; [discriminate|]); destruct Hst.
  - intros H4. destruct (POST_limiter req s) as [[H _]|(u & _ & _ & Hne & Hne')];
      [exact H|].
    destruct H4 as [H4|[H4|[]]]; congruence.
Qed.

Lemma checkout_rejection_writes_nothing_witness :
  database (snd (POST (CheckoutFacts.order "billboard" (Some "stripe"))
                      (CheckoutFacts.shop CheckoutFacts.five_billboards 6)))
  = database (CheckoutFacts.shop CheckoutFacts.five_billboards 6).
Proof.
  apply (checkout_rejection_writes_nothing
           (CheckoutFacts.order "billboard" (Some "stripe"))
           (CheckoutFacts.shop CheckoutFacts.five_billboards 6)).
  rewrite CheckoutFacts.sixth_billboard_rejected. simpl. auto 8.
Defined.

(** X9: one checkout per ten seconds and user. After a request of a user
    that the limiter has let through (whatever became of it afterwards), a
    request of the same user less than 10000 ms later is answered 429 and
    changes nothing. *)
Theorem checkout_window (req1 req2 : request) (s : server) (u : User) :
  user req1 = Some u ->
  user req2 = Some u ->
  status (fst (POST req1 s)) <> 429 ->
  now req1 <> 0 ->
  now req2 - now req1 < 10000 ->
  POST req2 (snd (POST req1 s))
  = (error_response 429 "Too fast. Wait a few seconds.", snd (POST req1 s)).
Proof.
  intros Hu1 Hu2 Hne Hnow Hlt.
  destruct (POST_limiter req1 s) as [[_ [[Hn _]|H9]]|(u' & Hu' & Hlast & _)];
    try congruence.
  assert (u' = u) by congruence. subst u'.
  unfold POST at 1. rewrite Hu2, Hlast, lookup_insert_eq. unfold too_fast.
  apply Z.eqb_neq in Hnow. rewrite Hnow. simpl.
  destruct (Z.ltb_spec (now req2 - now req1) 10000); [reflexivity | lia].
Qed.

Lemma checkout_window_witness :
  POST (CheckoutFacts.second_click "flag")
       (snd (POST (CheckoutFacts.order "flag" (Some "stripe")) (CheckoutFacts.shop [] 1)))
  = (error_response 429 "Too fast. Wait a few seconds.",
     snd (POST (CheckoutFacts.order "flag" (Some "stripe")) (CheckoutFacts.shop [] 1))).
Proof.
  apply (checkout_window (CheckoutFacts.order "flag" (Some "stripe"))
           (CheckoutFacts.second_click "flag") (CheckoutFacts.shop [] 1)
           CheckoutFacts.octo_user eq_refl eq_refl).
  - vm_compute. discriminate.
  - discriminate.
  - reflexivity.
Defined.

Lemma valid_provider_written p :
  valid_provider p = true -> written_provider (JS.nullish p "") = JS.nullish p "".
Proof.
  unfold valid_provider, written_provider, JS.includes. intros H.
  apply andb_prop in H as [_ H]. simpl in H.
  destruct (String.eqb_spec (JS.nullish p "") "stripe") as [E|_]; [now rewrite E|].
  simpl in H. rewrite orb_false_r in H. now apply String.eqb_eq in H.
Qed.

(** X10: what a successful checkout has written. When the answer is 200
    the request has passed every check, and the table of purchases is the
    table without the stale pending purchase followed by one new row: a
    pending purchase of the requested item for the building of the session
    user, by the requested provider, charged the price of the catalogue in
    the currency of the order. *)
Theorem checkout_success_row (req : request) (s : server) :
  status (fst (POST req s)) = 200 ->
  exists p stored,
    passes req s p
    /\ purchases (database (snd (POST req s)))
       = (purchases (cleared p s) ++ [stored])%list
    /\ Purchases.developer_id stored = p_dev_id p
    /\ Purchases.item_id stored = item_of p
    /\ Purchases.status stored = "pending"
    /\ Purchases.provider stored = provider_of p
    /\ Purchases.amount_cents stored
       = charged (p_item p) (provider_of p) (currency (p_body p))
    /\ Purchases.currency stored
       = charged_currency (provider_of p) (currency (p_body p))
    /\ Purchases.gifted_to stored = None.
Proof.
  intros Hok.
  destruct (POST_cases req s) as [[_ Hin]|(p & Hp & Hr & Hd)].
  { rewrite Hok in Hin. simpl in Hin.
    repeat (destruct Hin as [Hin|Hin]; [discriminate|]). destruct Hin. }
  rewrite Hr in Hok. rewrite Hd. unfold paid in *.
  destruct (pay_cases req (p_dev_id p) (item_of p) (p_item p) (provider_of p)
              (currency (p_body p)) (cleared p s))
    as [[_ H]|(stored & Hrows & _ & _ & Hstored & _)]; [congruence|].
  exists p, stored. split; [exact Hp|]. split; [exact Hrows|].
  assert (Hprov : written_provider (provider_of p) = provider_of p).
  { apply valid_provider_written. apply Hp. }
  destruct Hstored as [->|(tx & ->)]; unfold asked; simpl; rewrite Hprov;
    repeat split; reflexivity.
Qed.

Lemma checkout_success_row_witness :
  exists p stored,
    passes (CheckoutFacts.order "flag" (Some "stripe")) (CheckoutFacts.shop [] 1) p
    /\ purchases (database (snd (POST (CheckoutFacts.order "flag" (Some "stripe"))
                                      (CheckoutFacts.shop [] 1))))
       = (purchases (cleared p (CheckoutFacts.shop [] 1)) ++ [stored])%list
    /\ Purchases.developer_id stored = p_dev_id p
    /\ Purchases.item_id stored = item_of p
    /\ Purchases.status stored = "pending"
    /\ Purchases.provider stored = provider_of p
    /\ Purchases.amount_cents stored
       = charged (p_item p) (provider_of p) (currency (p_body p))
    /\ Purchases.currency stored
       = charged_currency (provider_of p) (currency (p_body p))
    /\ Purchases.gifted_to stored = None.
Proof.
  apply (checkout_success_row (CheckoutFacts.order "flag" (Some "stripe"))
           (CheckoutFacts.shop [] 1)).
  vm_compute. reflexivity.
Defined.

(** *** Invariants of the table of purchases *)

(** The table satisfies its constraints and every id in it has been handed
    out by the uuid source. *)
Definition table_ok (d : db) : Prop :=
  Purchases.admissible (purchases d) = true
  /\ Purchases.ids_below (uuid_seq d) (purchases d).

(** No (developer, item) pair has two pending purchases. *)
Definition pending_unique (t : list Purchases.row) : Prop :=
  forall k i, (length (Purchases.held k i "pending" t) <= 1)%nat.

(** The two ways [clear_pending] ends on a table that meets its
    constraints. *)
Lemma cleared_cases p s :
  Purchases.admissible (purchases (database s)) = true ->
  (single (Purchases.held (p_dev_id p) (item_of p) "pending" (purchases (database s)))
   = None /\ cleared p s = database s)
  \/ exists stale,
       Purchases.held (p_dev_id p) (item_of p) "pending" (purchases (database s))
       = [stale]
       /\ cleared p s
          = Db.with_purchases
              (CheckoutFacts.without (Purchases.id stale) (purchases (database s)))
              (database s).
Proof.
  intros Hadm. unfold cleared.
  destruct (single (Purchases.held (p_dev_id p) (item_of p) "pending"
                      (purchases (database s)))) as [stale|] eqn:E.
  - right. exists stale. apply single_Some in E. split; [exact E|].
    now apply CheckoutFacts.clear_pending_one.
  - left. split; [reflexivity|]. unfold clear_pending. now rewrite E.
Qed.

Lemma cleared_table_ok p s : table_ok (database s) -> table_ok (cleared p s).
Proof.
  intros [Hadm Hids].
  destruct (cleared_cases p s Hadm) as [[_ ->]|(stale & _ & ->)]; [now split|].
  split; simpl.
  - now apply PurchasesFacts.admissible_filter.
  - now apply Forall_filter_bool.
Qed.

Lemma same_id_same_row (t : list Purchases.row) a b :
  NoDup (map Purchases.id t) -> In a t -> In b t ->
  Purchases.id a = Purchases.id b -> a = b.
Proof.
  induction t as [|x t IH]; simpl; [contradiction|].
  intros Hnd Ha Hb Heq. apply NoDup_cons in Hnd as [Hx Hnd].
  destruct Ha as [->|Ha], Hb as [->|Hb]; auto.
  - exfalso. apply Hx. rewrite Heq. apply list_elem_of_In, in_map. exact Hb.
  - exfalso. apply Hx. rewrite <- Heq. apply list_elem_of_In, in_map. exact Ha.
Qed.

Lemma filter_bool_absorb {A} (f g : A -> bool) (l : list A) :
  (forall x, In x l -> f x = false -> g x = false) ->
  List.filter g (List.filter f l) = List.filter g l.
Proof.
  induction l as [|x l IH]; simpl; intros H; [reflexivity|].
  destruct (f x) eqn:Ef; simpl.
  - rewrite IH by auto. reflexivity.
  - rewrite (H x (or_introl eq_refl) Ef). auto.
Qed.

Lemma held_In k i st t r :
  In r (Purchases.held k i st t)
  <-> In r t /\ Purchases.developer_id r = k /\ Purchases.item_id r = i
      /\ Purchases.status r = st.
Proof.
  unfold Purchases.held, Purchases.matches, Purchases.has_status.
  rewrite filter_In, !andb_true_iff, Z.eqb_eq, !String.eqb_eq. tauto.
Qed.

(** X12: the checkout never completes a purchase. On a table that is in
    order, the completed purchases after a request are the completed
    purchases before it: a request neither grants an item nor takes one
    away. *)
Theorem checkout_leaves_completed (req : request) (s : server) :
  table_ok (database s) ->
  List.filter (Purchases.has_status "completed") (purchases (database (snd (POST req s))))
  = List.filter (Purchases.has_status "completed") (purchases (database s)).
Proof.
  intros Hok.
  destruct (POST_cases req s) as [[-> _]|(p & _ & _ & ->)]; [reflexivity|].
  assert (Hclear : List.filter (Purchases.has_status "completed")
                     (purchases (cleared p s))
                   = List.filter (Purchases.has_status "completed")
                       (purchases (database s))).
  { destruct Hok as [Hadm _].
    destruct (cleared_cases p s Hadm) as [[_ ->]|(stale & Hheld & ->)]; [reflexivity|].
    simpl. unfold CheckoutFacts.without. apply filter_bool_absorb.
    intros x Hx Hid. apply negb_false_iff, Pos.eqb_eq in Hid.
    assert (Hst : In stale (Purchases.held (p_dev_id p) (item_of p) "pending"
                              (purchases (database s)))) by (rewrite Hheld; now left).
    apply held_In in Hst as (Hin & _ & _ & Hpending).
    rewrite (same_id_same_row _ x stale (admissible_pkey _ Hadm) Hx Hin Hid).
    unfold Purchases.has_status. now rewrite Hpending. }
  unfold paid.
  destruct (pay_cases req (p_dev_id p) (item_of p) (p_item p) (provider_of p)
              (currency (p_body p)) (cleared p s))
    as [[-> _]|(stored & Hrows & _ & _ & Hstored & _)]; [exact Hclear|].
  rewrite Hrows, List.filter_app, Hclear.
  destruct Hstored as [->|(tx & ->)]; simpl; now rewrite app_nil_r.
Qed.

Lemma checkout_leaves_completed_witness :
  List.filter (Purchases.has_status "completed")
    (purchases (database (snd (POST (CheckoutFacts.order "billboard" (Some "stripe"))
                                    (CheckoutFacts.shop CheckoutFacts.flag_owned 3)))))
  = CheckoutFacts.flag_owned.
Proof.
  apply (checkout_leaves_completed (CheckoutFacts.order "billboard" (Some "stripe"))
           (CheckoutFacts.shop CheckoutFacts.flag_owned 3)).
  split; [reflexivity | repeat constructor].
Defined.

Lemma held_sublist_length k i st f t :
  (length (Purchases.held k i st (List.filter f t))
   <= length (Purchases.held k i st t))%nat.
Proof.
  unfold Purchases.held. rewrite PurchasesFacts.filter_bool_comm.
  apply sublist_length, PurchasesFacts.filter_bool_sublist.
Qed.

(** X13: double-click protection. On a table that is in order and in which
    no (developer, item) pair has two pending purchases, no pair has two
    pending purchases after a request either: the pending purchase of the
    pair is replaced, not added to. *)
Theorem checkout_keeps_pending_unique (req : request) (s : server) :
  table_ok (database s) ->
  pending_unique (purchases (database s)) ->
  pending_unique (purchases (database (snd (POST req s)))).
Proof.
  intros Hok Huniq.
  destruct (POST_cases req s) as [[-> _]|(p & _ & _ & ->)]; [exact Huniq|].
  assert (Hclear : pending_unique (purchases (cleared p s))
                   /\ Purchases.held (p_dev_id p) (item_of p) "pending"
                        (purchases (cleared p s)) = []).
  { destruct Hok as [Hadm _].
    destruct (cleared_cases p s Hadm) as [[Hnone ->]|(stale & Hheld & ->)].
    - split; [exact Huniq|]. specialize (Huniq (p_dev_id p) (item_of p)).
      destruct (Purchases.held _ _ _ _) as [|a [|b l]]; simpl in *;
        [reflexivity | discriminate | lia].
    - simpl. split.
      + intros k i. etransitivity; [apply held_sublist_length | apply Huniq].
      + unfold Purchases.held, CheckoutFacts.without.
        rewrite PurchasesFacts.filter_bool_comm.
        fold (Purchases.held (p_dev_id p) (item_of p) "pending" (purchases (database s))).
        rewrite Hheld. simpl. now rewrite Pos.eqb_refl. }
  destruct Hclear as [Huniq1 Hnone]. unfold paid.
  destruct (pay_cases req (p_dev_id p) (item_of p) (p_item p) (provider_of p)
              (currency (p_body p)) (cleared p s))
    as [[-> _]|(stored & Hrows & _ & _ & Hstored & _)]; [exact Huniq1|].
  intros k i. rewrite Hrows. unfold Purchases.held. rewrite List.filter_app, length_app.
  fold (Purchases.held k i "pending" (purchases (cleared p s))).
  destruct (Purchases.matches k i "pending" stored) eqn:Em.
  - assert (Hpair : k = p_dev_id p /\ i = item_of p).
    { unfold Purchases.matches in Em. apply andb_prop in Em as [Em _].
      apply andb_prop in Em as [Hk Hi]. apply Z.eqb_eq in Hk. apply String.eqb_eq in Hi.
      destruct Hstored as [->|(tx & ->)]; simpl in *; auto. }
    destruct Hpair as [-> ->]. rewrite Hnone. simpl. rewrite Em. simpl. lia.
  - simpl. rewrite Em. simpl. specialize (Huniq1 k i). lia.
Qed.

Lemma checkout_keeps_pending_unique_witness :
  pending_unique
    (purchases (database (snd (POST (CheckoutFacts.order "flag" (Some "stripe"))
                                    (CheckoutFacts.shop [CheckoutFacts.bought 1 "flag" "pending"] 2))))).
Proof.
  apply checkout_keeps_pending_unique.
  - split; [reflexivity | repeat constructor].
  - intros k i. unfold Purchases.held. simpl.
    destruct (Purchases.matches k i "pending" _); simpl; lia.
Defined.

End CheckoutMore.

(** ** Loadouts: what is stored, for whom *)

Lemma includes_In l x : JS.includes l x = true <-> In x l.
Proof.
  unfold JS.includes. rewrite existsb_exists. split.
  - intros (y & Hy & E). apply String.eqb_eq in E. now subst.
  - intros H. exists x. split; [exact H | apply String.eqb_refl].
Qed.

Lemma owned_building_developer u d k :
  DbCustom.owned_building u d = Some k ->
  exists row, developers d !! k = Some row
              /\ Developers.claimed row = true
              /\ Developers.claimed_by row = Some (user_id u).
Proof.
  unfold DbCustom.owned_building.
  destruct (Db.developer_by_login _ _) as [[k' row]|] eqn:E; [|discriminate].
  destruct (Developers.claimed row) eqn:Ec; [|discriminate]. simpl.
  destruct (bool_decide _) eqn:Eb; [|discriminate]. intros [= <-].
  apply bool_decide_eq_true in Eb. apply developer_by_login_lookup in E. eauto.
Qed.

Lemma upsert_customization_lookup k item row d key :
  developer_customizations (DbCustom.upsert_customization k item row d) !! key
  = if bool_decide (is_Some (developers d !! k))
       && bool_decide (is_Some (items d !! item))
       && bool_decide (key = (k, item))
    then Some row else developer_customizations d !! key.
Proof.
  unfold DbCustom.upsert_customization.
  destruct (_ && bool_decide (is_Some (items d !! item))); simpl; [|reflexivity].
  destruct (bool_decide_reflect (key = (k, item))) as [->|Hne].
  - apply lookup_insert_eq.
  - now apply lookup_insert_ne.
Qed.

Lemma upsert_customization_others k item row d :
  developers (DbCustom.upsert_customization k item row d) = developers d
  /\ items (DbCustom.upsert_customization k item row d) = items d
  /\ purchases (DbCustom.upsert_customization k item row d) = purchases d
  /\ activity_feed (DbCustom.upsert_customization k item row d) = activity_feed d.
Proof.
  unfold DbCustom.upsert_customization. destruct (_ && _); repeat split.
Qed.

Module LoadoutMore.
Import Loadout.

(** The item may go into the zone: it is on the list of the zone and the
    developer holds a completed purchase of it. *)
Definition fits (zone : string) (k : Z) (d : db) (itemId : option string) : Prop :=
  forall i, itemId = Some i ->
    (exists allowed, Zones.ZONE_ITEMS zone = Some allowed /\ In i allowed)
    /\ Purchases.held k i "completed" (purchases d) <> [].

Lemma owned_held k d i :
  In i (DbCustom.owned k d) -> Purchases.held k i "completed" (purchases d) <> [].
Proof.
  unfold DbCustom.owned. intros H. apply in_map_iff in H as (r & <- & Hr).
  apply filter_In in Hr as [Hin Hm]. apply andb_prop in Hm as [Hk Hs].
  intros Hnil.
  assert (Hr : In r (Purchases.held k (Purchases.item_id r) "completed" (purchases d))).
  { apply filter_In. split; [exact Hin|]. unfold Purchases.matches.
    now rewrite Hk, String.eqb_refl, Hs. }
  rewrite Hnil in Hr. destruct Hr.
Qed.

Lemma check_zone_inr zone x k d v :
  check_zone zone x (DbCustom.owned k d) = inr v -> v = x /\ fits zone k d x.
Proof.
  unfold check_zone, fits. destruct x as [i|]; [|intros [= <-]; split; [auto | discriminate]].
  destruct (Zones.ZONE_ITEMS zone) as [allowed|] eqn:Ez; simpl; [|discriminate].
  destruct (JS.includes allowed i) eqn:Ea; simpl; [|discriminate].
  destruct (JS.includes (DbCustom.owned k d) i) eqn:Eo; simpl; [|discriminate].
  intros [= <-]. split; [reflexivity|]. intros j [= <-].
  apply includes_In in Ea, Eo. split; [eauto | now apply owned_held].
Qed.

Lemma check_zone_inl zone x ownedSet r :
  check_zone zone x ownedSet = inl r -> status r = 400 \/ status r = 403.
Proof.
  unfold check_zone. destruct x as [i|]; [|discriminate].
  destruct (negb _); [intros [= <-]; now left|].
  destruct (negb _); [intros [= <-]; now right | discriminate].
Qed.

Definition saved (b : loadout_body) : json := config_json (crown b) (roof b) (aura b).

Definition ok_body (b : loadout_body) : json :=
  JObj [("ok", JBool true); ("loadout", saved b)].

(** The requests that are answered 200, and what they do. *)
Lemma POST_success req d :
  status (fst (POST req d)) = 200 ->
  exists u k b,
    user req = Some u /\ DbCustom.owned_building u d = Some k /\ body req = Some b
    /\ fits "crown" k d (crown b) /\ fits "roof" k d (roof b) /\ fits "aura" k d (aura b)
    /\ POST req d
       = (respond 200 (ok_body b),
          DbCustom.upsert_customization k "loadout"
            {| Customizations.config := saved b;
               Customizations.updated_at := now req |} d).
Proof.
  unfold POST. intros H.
  destruct (user req) as [u|] eqn:Eu; [|discriminate].
  destruct (DbCustom.owned_building u d) as [k|] eqn:Ek; [|discriminate].
  destruct (body req) as [b|] eqn:Eb; [|discriminate].
  destruct (check_zone "crown" _ _) as [r|c] eqn:Ec;
    [apply check_zone_inl in Ec as [E|E]; simpl in H; congruence|].
  destruct (check_zone "roof" _ _) as [r|ro] eqn:Er;
    [apply check_zone_inl in Er as [E|E]; simpl in H; congruence|].
  destruct (check_zone "aura" _ _) as [r|a] eqn:Ea;
    [apply check_zone_inl in Ea as [E|E]; simpl in H; congruence|].
  apply check_zone_inr in Ec as [-> Hc], Er as [-> Hr], Ea as [-> Ha].
  exists u, k, b.
  repeat (split; [first [reflexivity | assumption]|]). reflexivity.
Qed.

(** X14: what a building can wear. When the loadout POST answers 200, the
    request comes from the owner of a claimed building, each item it
    equips is on the list of its zone and is held by that building as a
    completed purchase, and the response carries the three choices as they
    were sent. *)
Theorem loadout_POST_validates (req : request) (d : db) :
  status (fst (POST req d)) = 200 ->
  exists u k b,
    user req = Some u /\ DbCustom.owned_building u d = Some k /\ body req = Some b
    /\ fits "crown" k d (crown b) /\ fits "roof" k d (roof b) /\ fits "aura" k d (aura b)
    /\ fst (POST req d) = respond 200 (ok_body b).
Proof.
  intros H. destruct (POST_success req d H) as (u & k & b & Hu & Hk & Hb & Hc & Hr & Ha & E).
  exists u, k, b. rewrite E. repeat (split; [assumption|]). reflexivity.
Qed.

Lemma loadout_POST_failure req d :
  status (fst (POST req d)) <> 200 -> snd (POST req d) = d.
Proof.
  unfold POST.
  destruct (user req) as [u|]; [|reflexivity].
  destruct (DbCustom.owned_building u d) as [k|]; [|reflexivity].
  destruct (body req) as [b|]; [|reflexivity].
  destruct (check_zone "crown" _ _); [reflexivity|].
  destruct (check_zone "roof" _ _); [reflexivity|].
  destruct (check_zone "aura" _ _); [reflexivity|].
  intros H. now contradiction H.
Qed.

Definition equip_flag : request :=
  {| user := Some LoadoutFacts.octo_user;
     body := Some {| crown := Some "flag"; roof := None; aura := None |};
     now := 5 |}.

Lemma loadout_POST_validates_witness :
  exists u k b,
    user equip_flag = Some u
    /\ DbCustom.owned_building u LoadoutFacts.city = Some k
    /\ body equip_flag = Some b
    /\ fits "crown" k LoadoutFacts.city (crown b)
    /\ fits "roof" k LoadoutFacts.city (roof b)
    /\ fits "aura" k LoadoutFacts.city (aura b)
    /\ fst (POST equip_flag LoadoutFacts.city) = respond 200 (ok_body b).
Proof.
  apply (loadout_POST_validates equip_flag LoadoutFacts.city). reflexivity.
Defined.

(** X15: the loadout round trip. After a POST of the owner of building
    [k] that is answered 200, and provided the catalogue has the row
    "loadout" that the foreign key of the customization needs, a GET whose
    [developer_id] parameter reads as [k] answers the loadout of the POST
    response. *)
Theorem loadout_roundtrip (req : request) (d : db) (u : User) (k : Z) (param : string) :
  status (fst (POST req d)) = 200 ->
  is_Some (items d !! "loadout") ->
  user req = Some u ->
  DbCustom.owned_building u d = Some k ->
  Num.parseInt param = Some k ->
  exists config,
    fst (POST req d) = respond 200 (JObj [("ok", JBool true); ("loadout", config)])
    /\ LoadoutGet.GET (Some param) (snd (POST req d))
       = respond 200 (JObj [("loadout", config)]).
Proof.
  intros H Hfk Hu' Hk' Hparam.
  destruct (POST_success req d H) as (u0 & k0 & b & Hu & Hk & Hb & _ & _ & _ & E).
  assert (u0 = u) by congruence. subst u0.
  assert (k0 = k) by congruence. subst k0.
  exists (saved b). rewrite E. split; [reflexivity|]. cbn [snd].
  unfold LoadoutGet.GET. simpl.
  destruct (String.eqb_spec param "") as [->|_]; [discriminate Hparam|]. simpl.
  rewrite Hparam. unfold stored_loadout. rewrite upsert_customization_lookup.
  destruct (owned_building_developer u d k Hk) as (row & Hrow & _).
  rewrite Hrow. rewrite !bool_decide_eq_true_2 by eauto. reflexivity.
Qed.

Lemma loadout_roundtrip_witness :
  exists config,
    fst (POST equip_flag LoadoutFacts.city)
    = respond 200 (JObj [("ok", JBool true); ("loadout", config)])
    /\ LoadoutGet.GET (Some "1") (snd (POST equip_flag LoadoutFacts.city))
       = respond 200 (JObj [("loadout", config)]).
Proof.
  apply (loadout_roundtrip equip_flag LoadoutFacts.city LoadoutFacts.octo_user 1 "1").
  - reflexivity.
  - vm_compute. eauto.
  - reflexivity.
  - reflexivity.
  - reflexivity.
Defined.

End LoadoutMore.

(** ** Raid loadout *)

Module RaidLoadoutMore.
Import RaidLoadout.

Section Lists.
Variables RAID_VEHICLE_ITEMS RAID_TAG_ITEMS : list string.

Let POST := RaidLoadout.POST RAID_VEHICLE_ITEMS RAID_TAG_ITEMS.

(** How a field of the configuration comes about: kept when the request
    does not name it; otherwise the value named, which is the free one or
    an item of the catalogue that the building holds. *)
Definition chosen (given : option string) (free : string) (catalogue : list string)
    (k : Z) (d : db) (stored v : string) : Prop :=
  match given with
  | None => v = stored
  | Some x =>
      v = x
      /\ (x = free
          \/ (In x catalogue /\ Purchases.held k x "completed" (purchases d) <> []))
  end.

Lemma choose_chosen given free catalogue k d stored v :
  choose given free catalogue (DbCustom.owned k d) stored = Some v ->
  chosen given free catalogue k d stored v.
Proof.
  unfold choose, chosen. destruct given as [x|]; [|now intros [= <-]].
  destruct (String.eqb_spec x free) as [->|_]; [intros [= <-]; auto|].
  destruct (JS.includes catalogue x) eqn:Ec; simpl; [|discriminate].
  destruct (JS.includes (DbCustom.owned k d) x) eqn:Eo; [|discriminate].
  intros [= <-]. apply includes_In in Ec, Eo. split; [reflexivity|]. right.
  split; [exact Ec | now apply LoadoutMore.owned_held].
Qed.

Definition ok_answer (v t : string) : response :=
  respond 200 (JObj [("ok", JBool true); ("vehicle", JStr v); ("tag", JStr t)]).

Lemma raid_POST_success req d :
  status (fst (POST req d)) = 200 ->
  exists u k b v t,
    user req = Some u /\ DbCustom.owned_building u d = Some k /\ body req = Some b
    /\ chosen (vehicle b) "airplane" RAID_VEHICLE_ITEMS k d (fst (current k d)) v
    /\ chosen (tag b) "default" RAID_TAG_ITEMS k d (snd (current k d)) t
    /\ POST req d
       = (ok_answer v t,
          DbCustom.upsert_customization k "raid_loadout"
            {| Customizations.config := JObj [("vehicle", JStr v); ("tag", JStr t)];
               Customizations.updated_at := now req |} d).
Proof.
  unfold POST, RaidLoadout.POST. intros H.
  destruct (user req) as [u|] eqn:Eu; [|discriminate].
  destruct (DbCustom.owned_building u d) as [k|] eqn:Ek; [|discriminate].
  destruct (body req) as [b|] eqn:Eb; [|discriminate].
  destruct (current k d) as [cv ct] eqn:Ecur.
  destruct (choose (vehicle b) _ _ _ _) as [v|] eqn:Hv; [|discriminate].
  destruct (choose (tag b) _ _ _ _) as [t|] eqn:Ht; [|discriminate].
  pose proof (choose_chosen _ _ _ _ _ _ _ Hv) as Ev.
  pose proof (choose_chosen _ _ _ _ _ _ _ Ht) as Et.
  exists u, k, b, v, t. rewrite Ecur. cbn [fst snd].
  split; [first [reflexivity | exact Eu]|].
  split; [first [reflexivity | exact Ek]|].
  split; [first [reflexivity | exact Eb]|].
  split; [exact Ev|]. split; [exact Et|].
  first [reflexivity | rewrite ?Hv, ?Ht; reflexivity].
Qed.

Lemma raid_POST_failure req d :
  status (fst (POST req d)) <> 200 -> snd (POST req d) = d.
Proof.
  unfold POST, RaidLoadout.POST.
  destruct (user req) as [u|]; [|reflexivity].
  destruct (DbCustom.owned_building u d) as [k|]; [|reflexivity].
  destruct (body req) as [b|]; [|reflexivity].
  destruct (current k d) as [cv ct].
  destruct (choose (vehicle b) _ _ _ _); [|reflexivity].
  destruct (choose (tag b) _ _ _ _); [|reflexivity].
  intros H. now contradiction H.
Qed.

(** X16: what a raid loadout can hold. When the raid-loadout POST answers
    200 the request comes from the owner of a claimed building; the vehicle
    and the tag of the answer are the stored ones where the request names
    none, and otherwise the ones it names, each of which is the free one
    ("airplane", "default") or an item of its catalogue that the building
    holds as a completed purchase. *)
Theorem raid_loadout_POST_validates (req : request) (d : db) :
  status (fst (POST req d)) = 200 ->
  exists u k b v t,
    user req = Some u /\ DbCustom.owned_building u d = Some k /\ body req = Some b
    /\ chosen (vehicle b) "airplane" RAID_VEHICLE_ITEMS k d (fst (current k d)) v
    /\ chosen (tag b) "default" RAID_TAG_ITEMS k d (snd (current k d)) t
    /\ fst (POST req d) = ok_answer v t.
Proof.
  intros H.
  destruct (raid_POST_success req d H) as (u & k & b & v & t & Hu & Hk & Hb & Hv & Ht & E).
  exists u, k, b, v, t. rewrite E. repeat (split; [assumption|]). reflexivity.
Qed.

Lemma current_after_upsert k v t now d :
  is_Some (developers d !! k) -> is_Some (items d !! "raid_loadout") ->
  current k (DbCustom.upsert_customization k "raid_loadout"
               {| Customizations.config := JObj [("vehicle", JStr v); ("tag", JStr t)];
                  Customizations.updated_at := now |} d)
  = (v, t).
Proof.
  intros Hd Hi. unfold current. rewrite upsert_customization_lookup.
  rewrite !bool_decide_eq_true_2 by auto. reflexivity.
Qed.

(** X17: the raid-loadout round trip. After a POST of the owner of
    building [k] that is answered 200, and provided the catalogue has the
    row "raid_loadout" that the foreign key needs and [k] is not 0, a GET
    answers the vehicle and the tag of the POST response, be it asked with a
    [developer_id] parameter that reads as [k] or with the session of the
    owner. *)
Theorem raid_loadout_roundtrip (req : request) (d : db) (u : User) (k : Z)
    (param : string) (anyone : option User) :
  status (fst (POST req d)) = 200 ->
  is_Some (items d !! "raid_loadout") ->
  user req = Some u ->
  DbCustom.owned_building u d = Some k ->
  Num.parseInt param = Some k ->
  k <> 0 ->
  exists v t,
    fst (POST req d) = ok_answer v t
    /\ RaidLoadoutGet.GET (Some param) anyone (snd (POST req d))
       = RaidLoadoutGet.answer v t
    /\ RaidLoadoutGet.GET None (Some u) (snd (POST req d))
       = RaidLoadoutGet.answer v t.
Proof.
  intros H Hfk Hu' Hk' Hparam Hk0.
  destruct (raid_POST_success req d H) as (u0 & k0 & b & v & t & Hu & Hk & Hb & _ & _ & E).
  assert (u0 = u) by congruence. subst u0.
  assert (k0 = k) by congruence. subst k0.
  exists v, t. rewrite E. split; [reflexivity|]. cbn [snd].
  destruct (owned_building_developer u d k Hk) as (row & Hrow & _).
  assert (Hcur : current k (DbCustom.upsert_customization k "raid_loadout"
                    {| Customizations.config := JObj [("vehicle", JStr v); ("tag", JStr t)];
                       Customizations.updated_at := now req |} d) = (v, t))
    by (apply current_after_upsert; eauto).
  assert (Hget : forall p w, RaidLoadoutGet.resolve p w
                    (DbCustom.upsert_customization k "raid_loadout"
                       {| Customizations.config :=
                            JObj [("vehicle", JStr v); ("tag", JStr t)];
                          Customizations.updated_at := now req |} d)
                  = inr (Some k) ->
                RaidLoadoutGet.GET p w
                    (DbCustom.upsert_customization k "raid_loadout"
                       {| Customizations.config :=
                            JObj [("vehicle", JStr v); ("tag", JStr t)];
                          Customizations.updated_at := now req |} d)
                = RaidLoadoutGet.answer v t).
  { intros p w Hres. unfold RaidLoadoutGet.GET. rewrite Hres.
    unfold RaidLoadoutGet.falsy_id. apply Z.eqb_neq in Hk0. rewrite Hk0.
    cbn [JS.nullish]. now rewrite Hcur. }
  split; apply Hget; unfold RaidLoadoutGet.resolve.
  - destruct param as [|c param]; [discriminate Hparam|]. cbn [JS.truthy_str JS.nullish].
    simpl. now rewrite Hparam.
  - cbn [JS.truthy_str].
    rewrite (developer_by_login_ext (github_login_of u) d)
      by apply upsert_customization_others.
    unfold DbCustom.owned_building in Hk.
    destruct (Db.developer_by_login (github_login_of u) d) as [[k1 row1]|]; [|discriminate].
    destruct (_ && _); [|discriminate]. now injection Hk as ->.
Qed.

End Lists.

Definition pick_drone : request :=
  {| user := Some LoadoutFacts.octo_user;
     body := Some {| vehicle := Some "raid_drone"; tag := None |};
     now := 5 |}.

Definition garage : list string := ["raid_helicopter"; "raid_drone"].
Definition paints : list string := ["tag_neon"].

Lemma raid_loadout_POST_validates_witness :
  exists u k b v t,
    user pick_drone = Some u
    /\ DbCustom.owned_building u LoadoutFacts.city = Some k
    /\ body pick_drone = Some b
    /\ chosen (vehicle b) "airplane" garage k LoadoutFacts.city
         (fst (current k LoadoutFacts.city)) v
    /\ chosen (tag b) "default" paints k LoadoutFacts.city
         (snd (current k LoadoutFacts.city)) t
    /\ fst (RaidLoadout.POST garage paints pick_drone LoadoutFacts.city) = ok_answer v t.
Proof.
  apply (raid_loadout_POST_validates garage paints pick_drone LoadoutFacts.city).
  reflexivity.
Defined.

Lemma raid_loadout_roundtrip_witness :
  exists v t,
    fst (RaidLoadout.POST garage paints pick_drone LoadoutFacts.city) = ok_answer v t
    /\ RaidLoadoutGet.GET (Some "1") None
         (snd (RaidLoadout.POST garage paints pick_drone LoadoutFacts.city))
       = RaidLoadoutGet.answer v t
    /\ RaidLoadoutGet.GET None (Some LoadoutFacts.octo_user)
         (snd (RaidLoadout.POST garage paints pick_drone LoadoutFacts.city))
       = RaidLoadoutGet.answer v t.
Proof.
  apply (raid_loadout_roundtrip garage paints pick_drone LoadoutFacts.city
           LoadoutFacts.octo_user 1 "1" None).
  - reflexivity.
  - vm_compute. eexists. reflexivity.
  - reflexivity.
  - reflexivity.
  - reflexivity.
  - lia.
Defined.

End RaidLoadoutMore.

(** ** Isolation of the two loadout endpoints *)

Module LoadoutIsolation.

(** [d'] is [d] but for rows of [developer_customizations] with item [item]
    that belong to a building the user [who] owns in [d]. *)
Definition own_row_only (item : string) (who : option User) (d d' : db) : Prop :=
  d' = Db.with_developer_customizations (developer_customizations d') d
  /\ forall k i,
       developer_customizations d' !! (k, i) = developer_customizations d !! (k, i)
       \/ (i = item
           /\ exists u, who = Some u /\ DbCustom.owned_building u d = Some k).

Lemma own_row_only_refl item who d : own_row_only item who d d.
Proof. split; [now destruct d | now left]. Qed.

Lemma own_row_only_upsert item u k row d :
  DbCustom.owned_building u d = Some k ->
  own_row_only item (Some u) d (DbCustom.upsert_customization k item row d).
Proof.
  intros Hk. split.
  - unfold DbCustom.upsert_customization. destruct (_ && _); now destruct d.
  - intros k' i. rewrite upsert_customization_lookup.
    destruct (_ && bool_decide (is_Some _)); simpl; [|now left].
    destruct (bool_decide_reflect ((k', i) = (k, item))) as [E|_]; [|now left].
    injection E as -> ->. right. eauto.
Qed.

(** X18: the loadout endpoints write one row. Whatever the request, a POST
    to the building-loadout endpoint leaves the database as it was except,
    at most, for the row of [developer_customizations] with item "loadout"
    of the building that the session user owns; the raid-loadout endpoint
    does the same with item "raid_loadout". The loadout of another building
    is never written. *)
Theorem loadout_POST_writes_own_row_only
    (vehicles tags : list string)
    (req : Loadout.request) (rreq : RaidLoadout.request) (d : db) :
  own_row_only "loadout" (Loadout.user req) d (snd (Loadout.POST req d))
  /\ own_row_only "raid_loadout" (RaidLoadout.user rreq) d
       (snd (RaidLoadout.POST vehicles tags rreq d)).
Proof.
  split.
  - destruct (Z.eq_dec (status (fst (Loadout.POST req d))) 200) as [H|H].
    + destruct (LoadoutMore.POST_success req d H)
        as (u & k & b & Hu & Hk & _ & _ & _ & _ & E).
      rewrite E, Hu. now apply own_row_only_upsert.
    + rewrite (LoadoutMore.loadout_POST_failure req d H). apply own_row_only_refl.
  - destruct (Z.eq_dec (status (fst (RaidLoadout.POST vehicles tags rreq d))) 200)
      as [H|H].
    + destruct (RaidLoadoutMore.raid_POST_success vehicles tags rreq d H)
        as (u & k & b & v & t & Hu & Hk & _ & _ & _ & E).
      rewrite E, Hu. now apply own_row_only_upsert.
    + rewrite (RaidLoadoutMore.raid_POST_failure vehicles tags rreq d H).
      apply own_row_only_refl.
Qed.

End LoadoutIsolation.

(** ** Kudos: what a request can change *)

Module KudosMore.
Import Kudos.

(** The database after a kudos that was not there before. *)
Definition recorded (req : request) (login : string) (g r : Z)
    (rrow : Developers.row) (d : db) : db :=
  Db.insert_feed_event (now req) "kudos_given" (Some g) (Some r)
    (JObj [("giver_login", JStr login);
           ("receiver_login", JStr (Developers.github_login rrow))])
    (increment_kudos_count r
       (Db.with_developer_kudos ({[ (g, r, today req) ]} ∪ developer_kudos d) d)).

(** The ways a request ends. *)
Lemma kudos_POST_cases req d :
  (status (fst (POST req d)) <> 200 /\ snd (POST req d) = d)
  \/ exists u rl g r rrow,
       user req = Some u /\ body req = Some (Some rl)
       /\ KudosFacts.parties u rl g r d
       /\ Db.developer_by_login (JS.toLowerCase rl) d = Some (r, rrow)
       /\ given_on g (today req) d < 20
       /\ fst (POST req d) = ok_response
       /\ snd (POST req d)
          = if bool_decide ((g, r, today req) ∈ developer_kudos d) then d
            else recorded req (github_login_of u) g r rrow d.
Proof.
  unfold POST.
  destruct (user req) as [u|]; [|left; split; [discriminate | reflexivity]].
  destruct (body req) as [[rl|]|];
    try (left; split; [discriminate | reflexivity]).
  simpl. destruct (String.eqb_spec rl "") as [|Hrl];
    [left; split; [discriminate | reflexivity]|].
  simpl. destruct (rate_ok req); [|left; split; [discriminate | reflexivity]].
  simpl.
  destruct (Db.developer_by_login (github_login_of u) d) as [[g grow]|] eqn:Eg;
    [|left; split; [discriminate | reflexivity]].
  destruct (Developers.claimed grow) eqn:Ecl;
    [|left; split; [discriminate | reflexivity]].
  simpl.
  destruct (Db.developer_by_login (JS.toLowerCase rl) d) as [[r rrow]|] eqn:Er;
    [|left; split; [discriminate | reflexivity]].
  destruct (Z.eqb_spec g r) as [|Hne]; [left; split; [discriminate | reflexivity]|].
  destruct (Z.leb_spec 20 (given_on g (today req) d)) as [|Hlt];
    [left; split; [discriminate | reflexivity]|].
  right. exists u, rl, g, r, rrow.
  split; [reflexivity|]. split; [reflexivity|].
  split; [split; [exists grow; split; [exact Eg | exact Ecl]
                 |split; [exists rrow; exact Er | exact Hne]]|].
  split; [exact Er|]. split; [exact Hlt|].
  unfold give, insert_kudos.
  destruct (bool_decide ((g, r, today req) ∈ developer_kudos d)); simpl;
    split; reflexivity.
Qed.

(** Counting after one more triple. *)
Lemma given_on_recorded req login g r rrow d g' day :
  (g, r, today req) ∉ developer_kudos d ->
  given_on g' day (recorded req login g r rrow d)
  = given_on g' day d + (if bool_decide (g' = g /\ day = today req) then 1 else 0).
Proof.
  intros Hnew. unfold given_on.
  change (developer_kudos (recorded req login g r rrow d))
    with ({[ (g, r, today req) ]} ∪ developer_kudos d).
  assert (Hone : Z.of_nat (size (filter (fun k : Z * Z * string =>
                                          k.1.1 = g' /\ k.2 = day)
                                  ({[ (g, r, today req) ]} : gset (Z * Z * string))))
                 = if bool_decide (g' = g /\ day = today req) then 1 else 0).
  { rewrite filter_singleton_L by apply _. simpl.
    destruct (decide (g = g' /\ today req = day)) as [[-> ->]|Hno].
    - rewrite bool_decide_eq_true_2 by auto. now rewrite size_singleton.
    - rewrite bool_decide_eq_false_2 by (intros [-> ->]; now apply Hno).
      now rewrite size_empty. }
  rewrite filter_union_L by apply _. rewrite size_union.
  - rewrite Nat2Z.inj_add, Hone. lia.
  - apply elem_of_disjoint. intros x Hx Hx'.
    apply elem_of_filter in Hx as [_ Hx], Hx' as [_ Hx'].
    apply elem_of_singleton in Hx. subst x. now apply Hnew.
Qed.

(** X19: the daily limit holds. If a developer has given at most 20 kudos
    on a day, then after any POST to the kudos endpoint, answered in
    whatever way, that developer has still given at most 20 on that day:
    the handler never records a twenty-first. *)
Theorem kudos_daily_limit_kept (req : request) (d : db) (g : Z) (day : string) :
  given_on g day d <= 20 ->
  given_on g day (snd (POST req d)) <= 20.
Proof.
  intros H.
  destruct (kudos_POST_cases req d)
    as [[_ ->]|(u & rl & g0 & r & rrow & _ & _ & _ & _ & Hlt & _ & ->)];
    [exact H|].
  destruct (bool_decide_reflect ((g0, r, today req) ∈ developer_kudos d)) as [|Hnew];
    [exact H|].
  rewrite given_on_recorded by exact Hnew.
  destruct (bool_decide_reflect (g = g0 /\ day = today req)) as [[-> ->]|_]; lia.
Qed.

Lemma kudos_daily_limit_kept_witness :
  given_on 1 "2026-01-01" (KudosFacts.town 20) <= 20
  /\ given_on 1 "2026-01-01"
       (snd (POST (KudosFacts.kudos_to_mona 10) (KudosFacts.town 20))) <= 20.
Proof.
  assert (H : given_on 1 "2026-01-01" (KudosFacts.town 20) <= 20)
    by (vm_compute; discriminate).
  split; [exact H|].
  exact (kudos_daily_limit_kept (KudosFacts.kudos_to_mona 10) (KudosFacts.town 20)
           1 "2026-01-01" H).
Defined.

(** X20: what a successful kudos does. When the POST answers 200, the
    session user's login is that of a developer [g] with a claimed building
    and the receiver login, lower-cased, is that of another developer [r].
    If [g] has already given [r] kudos that day nothing is written.
    Otherwise the triple is recorded, which makes one more kudos given by
    [g] that day; the [kudos_count] of [r], and of no other developer, is
    incremented; and exactly one event, of type "kudos_given" from [g] to
    [r], is appended to the activity feed. *)
Theorem kudos_POST_effect (req : request) (d : db) :
  status (fst (POST req d)) = 200 ->
  exists u rl g grow r rrow,
    user req = Some u /\ body req = Some (Some rl)
    /\ Db.developer_by_login (github_login_of u) d = Some (g, grow)
    /\ Developers.claimed grow = true
    /\ Db.developer_by_login (JS.toLowerCase rl) d = Some (r, rrow)
    /\ g <> r
    /\ let d' := snd (POST req d) in
       if bool_decide ((g, r, today req) ∈ developer_kudos d) then d' = d
       else
         developer_kudos d' = {[ (g, r, today req) ]} ∪ developer_kudos d
         /\ given_on g (today req) d' = given_on g (today req) d + 1
         /\ developers d' !! r
            = Some (Developers.with_kudos_count
                      (Z.succ <$> Developers.kudos_count rrow) rrow)
         /\ (forall k, k <> r -> developers d' !! k = developers d !! k)
         /\ activity_feed d'
            = (activity_feed d
               ++ [{| ActivityFeed.id := uuid_seq d;
                      ActivityFeed.event_type := "kudos_given";
                      ActivityFeed.actor_id := Some g;
                      ActivityFeed.target_id := Some r;
                      ActivityFeed.metadata :=
                        JObj [("giver_login", JStr (github_login_of u));
                              ("receiver_login",
                               JStr (Developers.github_login rrow))];
                      ActivityFeed.created_at := now req |}])%list.
Proof.
  intros Hok.
  destruct (kudos_POST_cases req d)
    as [[Hno _]|(u & rl & g & r & rrow & Hu & Hb & Hp & Hr & _ & _ & E)];
    [now contradiction Hno|].
  destruct Hp as ((grow & Hg & Hcl) & _ & Hne).
  exists u, rl, g, grow, r, rrow.
  repeat (split; [assumption|]). cbv zeta. rewrite E.
  destruct (bool_decide_reflect ((g, r, today req) ∈ developer_kudos d)) as [|Hnew];
    [reflexivity|].
  split; [reflexivity|]. split.
  { rewrite given_on_recorded by exact Hnew.
    now rewrite bool_decide_eq_true_2 by auto. }
  apply developer_by_login_lookup in Hr.
  split; [|split].
  - unfold recorded. simpl. rewrite lookup_alter, decide_True by reflexivity.
    now rewrite Hr.
  - intros k Hk. unfold recorded. simpl.
    rewrite lookup_alter, decide_False by congruence. reflexivity.
  - reflexivity.
Qed.

Lemma kudos_POST_effect_witness :
  exists u rl g grow r rrow,
    user (KudosFacts.kudos_to_mona 10) = Some u
    /\ body (KudosFacts.kudos_to_mona 10) = Some (Some rl)
    /\ Db.developer_by_login (github_login_of u) (KudosFacts.town 0) = Some (g, grow)
    /\ Developers.claimed grow = true
    /\ Db.developer_by_login (JS.toLowerCase rl) (KudosFacts.town 0) = Some (r, rrow)
    /\ g <> r
    /\ let d' := snd (POST (KudosFacts.kudos_to_mona 10) (KudosFacts.town 0)) in
       if bool_decide ((g, r, today (KudosFacts.kudos_to_mona 10))
                       ∈ developer_kudos (KudosFacts.town 0))
       then d' = KudosFacts.town 0
       else
         developer_kudos d'
         = {[ (g, r, today (KudosFacts.kudos_to_mona 10)) ]}
           ∪ developer_kudos (KudosFacts.town 0)
         /\ given_on g (today (KudosFacts.kudos_to_mona 10)) d'
            = given_on g (today (KudosFacts.kudos_to_mona 10)) (KudosFacts.town 0) + 1
         /\ developers d' !! r
            = Some (Developers.with_kudos_count
                      (Z.succ <$> Developers.kudos_count rrow) rrow)
         /\ (forall k, k <> r -> developers d' !! k = developers (KudosFacts.town 0) !! k)
         /\ activity_feed d'
            = (activity_feed (KudosFacts.town 0)
               ++ [{| ActivityFeed.id := uuid_seq (KudosFacts.town 0);
                      ActivityFeed.event_type := "kudos_given";
                      ActivityFeed.actor_id := Some g;
                      ActivityFeed.target_id := Some r;
                      ActivityFeed.metadata :=
                        JObj [("giver_login", JStr (github_login_of u));
                              ("receiver_login",
                               JStr (Developers.github_login rrow))];
                      ActivityFeed.created_at := now (KudosFacts.kudos_to_mona 10) |}])%list.
Proof.
  apply (kudos_POST_effect (KudosFacts.kudos_to_mona 10) (KudosFacts.town 0)).
  vm_compute. reflexivity.
Defined.

(** X21: a kudos request that is not answered 200 (no session, no
    receiver, too fast, no claimed building, unknown receiver, kudos to
    oneself, daily limit reached) leaves the database as it was. *)
Theorem kudos_rejected_writes_nothing (req : request) (d : db) :
  status (fst (POST req d)) <> 200 ->
  snd (POST req d) = d.
Proof.
  intros H.
  destruct (kudos_POST_cases req d) as [[_ E]|(u & rl & g & r & rrow & Hrest)];
    [exact E|].
  destruct Hrest as (_ & _ & _ & _ & _ & E & _). rewrite E in H. now contradiction H.
Qed.

(** Octo gives kudos to Octo. *)
Definition kudos_to_self : request :=
  {| user := Some KudosFacts.octo_user; body := Some (Some "octo"); rate_ok := true;
     today := "2026-01-01"; now := 10 |}.

Lemma kudos_rejected_writes_nothing_witness :
  status (fst (POST kudos_to_self (KudosFacts.town 0))) = 400
  /\ snd (POST kudos_to_self (KudosFacts.town 0)) = KudosFacts.town 0.
Proof.
  split; [vm_compute; reflexivity|].
  apply (kudos_rejected_writes_nothing kudos_to_self (KudosFacts.town 0)).
  vm_compute. discriminate.
Defined.

End KudosMore.

(** ** The achievement back-fill: what it unlocks and grants *)

(** The decimal form of a number is made of digits and a sign, and tells
    the number. *)
Fixpoint no_underscore (s : string) : Prop :=
  match s with
  | EmptyString => True
  | String c r => c <> "_"%char /\ no_underscore r
  end.

Lemma string_of_uint_no_underscore d : no_underscore (NilEmpty.string_of_uint d).
Proof. induction d; simpl; auto; split; auto; discriminate. Qed.

Lemma num_to_string_no_underscore n : no_underscore (JS.num_to_string n).
Proof.
  unfold JS.num_to_string, NilZero.string_of_int, NilZero.string_of_uint.
  destruct (Z.to_int n) as [u|u]; destruct u; simpl;
    repeat split; try discriminate; apply string_of_uint_no_underscore.
Qed.

Lemma num_to_string_inj a b : JS.num_to_string a = JS.num_to_string b -> a = b.
Proof.
  unfold JS.num_to_string. intros H.
  assert (Hn : forall z, Z.to_int z <> Decimal.Pos Decimal.Nil
                         /\ Z.to_int z <> Decimal.Neg Decimal.Nil).
  { intros z.
    assert (En : Z.to_int z = Decimal.norm (Z.to_int z))
      by (rewrite <- DecimalZ.to_of; now rewrite DecimalZ.of_to).
    rewrite En. destruct (Z.to_int z) as [u|u]; simpl; unfold Decimal.unorm;
      destruct (Decimal.nzhead u); split; discriminate. }
  assert (E : Some (Z.to_int a) = Some (Z.to_int b)).
  { rewrite <- (NilZero.isi (Z.to_int a)) by apply Hn.
    rewrite <- (NilZero.isi (Z.to_int b)) by apply Hn. now rewrite H. }
  injection E as E. rewrite <- (DecimalZ.of_to a), <- (DecimalZ.of_to b). now rewrite E.
Qed.

Lemma underscore_split s1 s2 a1 a2 :
  no_underscore s1 -> no_underscore s2 ->
  (s1 ++ "_" ++ a1 = s2 ++ "_" ++ a2)%string -> s1 = s2 /\ a1 = a2.
Proof.
  assert (Hnil : forall a, ("" ++ a)%string = a) by reflexivity.
  assert (Hcons : forall c s a, (String c s ++ a)%string = String c (s ++ a))
    by reflexivity.
  revert s2. induction s1 as [|c s1 IH]; intros [|c2 s2];
    repeat first [rewrite Hnil | rewrite Hcons]; simpl.
  - intros _ _ [= ->]. auto.
  - intros _ [Hc _] [= <- _]. now contradiction Hc.
  - intros [Hc _] _ [= -> _]. now contradiction Hc.
  - intros [_ H1] [_ H2] [= -> E]. destruct (IH s2 H1 H2 E) as [-> ->]. auto.
Qed.

Lemma unlock_key_inj k a k' a' :
  Backfill.unlock_key k a = Backfill.unlock_key k' a' -> k = k' /\ a = a'.
Proof.
  unfold Backfill.unlock_key. intros H.
  apply underscore_split in H as [Hk Ha]; try apply num_to_string_no_underscore.
  split; [now apply num_to_string_inj | exact Ha].
Qed.

Module BackfillMore.
Import Backfill.

(** A developer's turn puts into the batches what its new unlocks give. *)
Definition from_new_unlocks (d : db) (b : batches) : Prop :=
  Forall (fun r => exists x a,
            In (fst r, x) (load_developers d)
            /\ In a (newUnlocks (load_existing d) (load_achievements d) (fst r)
                       (stats_of (fst r) x d))
            /\ snd r = Achievements.id a)
    (unlockRows b)
  /\ Forall (fun p => exists x a,
               In (developer_id p, x) (load_developers d)
               /\ In a (newUnlocks (load_existing d) (load_achievements d)
                          (developer_id p) (stats_of (developer_id p) x d))
               /\ reward_of (developer_id p) a = Some p)
       (purchaseRows b).

Lemma reward_of_developer k a p : reward_of k a = Some p -> developer_id p = k.
Proof.
  unfold reward_of. destruct (_ && _); [|discriminate]. now intros [= <-].
Qed.

Lemma collect_from_new_unlocks d : from_new_unlocks d (collect d).
Proof.
  unfold collect. apply foldl_invariant.
  - split; constructor.
  - intros acc [k x] Hin [Hu Hp]. unfold process.
    destruct (newUnlocks _ _ k _) as [|a0 rest] eqn:E; [split; assumption|].
    rewrite <- E. split.
    + apply Forall_app. split; [exact Hu|].
      apply List.Forall_forall. intros r Hr. apply in_map_iff in Hr as (a & <- & Ha).
      exists x, a. simpl. auto.
    + apply Forall_app. split; [exact Hp|].
      apply List.Forall_forall. intros p Hpin.
      apply list_elem_of_In, list_elem_of_omap in Hpin as (a & Ha & Hr).
      apply list_elem_of_In in Ha.
      pose proof (reward_of_developer _ _ _ Hr) as Hk. rewrite Hk.
      exists x, a. auto.
Qed.

Lemma newUnlocks_In d k x a :
  In a (newUnlocks (load_existing d) (load_achievements d) k (stats_of k x d)) <->
  In a (achievements d)
  /\ ((k, Achievements.id a) ∉ developer_achievements d)
  /\ qualifies (stats_of k x d) a = true.
Proof.
  unfold newUnlocks. rewrite filter_In. unfold load_achievements.
  rewrite sort_In_iff, andb_true_iff, negb_true_iff, bool_decide_eq_false.
  rewrite BackfillFacts.load_existing_spec. split.
  - intros (Ha & Hnot & Hq). repeat split; auto.
    intros Hin. apply Hnot. eauto.
  - intros (Ha & Hnot & Hq). repeat split; auto.
    intros (k' & a' & Hin & E). apply unlock_key_inj in E as [-> <-]. auto.
Qed.

(** X22: the back-fill unlocks what is earned and nothing else. After a run
    a pair (developer, achievement) is in [developer_achievements] exactly
    when it was there before, or the developer and the achievement exist and
    the developer's statistics, as the script computes them from the data
    before the run, reach the threshold of the achievement's category. *)
Theorem backfill_unlocks_exactly_the_earned (now : Z) (d : db) (k : Z) (aid : string) :
  (k, aid) ∈ developer_achievements (main now d)
  <-> (k, aid) ∈ developer_achievements d
      \/ exists x a,
           developers d !! k = Some x /\ In a (achievements d)
           /\ Achievements.id a = aid
           /\ qualifies (stats_of k x d) a = true.
Proof.
  destruct (BackfillFacts.write_extends now (collect d) d) as (_ & _ & Hda & _).
  fold (main now d) in Hda. rewrite Hda. split.
  - intros [Hold|[_ Hin]]; [now left|].
    destruct (collect_from_new_unlocks d) as [Hu _].
    rewrite List.Forall_forall in Hu. destruct (Hu _ Hin) as (x & a & Hdev & Ha & E).
    simpl in *. apply newUnlocks_In in Ha as (Ha & _ & Hq).
    apply BackfillFacts.load_developers_lookup in Hdev. right. exists x, a. auto.
  - intros [Hold|(x & a & Hdev & Ha & <- & Hq)]; [now left|].
    destruct (decide ((k, Achievements.id a) ∈ developer_achievements d)) as [|Hnot];
      [now left|].
    right.
    assert (Hin : In (k, x) (load_developers d)).
    { unfold load_developers. apply sort_In_iff, list_elem_of_In.
      now apply elem_of_map_to_list. }
    assert (Hnew : In a (newUnlocks (load_existing d) (load_achievements d) k
                           (stats_of k x d)))
      by (apply newUnlocks_In; auto).
    destruct (BackfillFacts.collect_contains d k x a Hin Hnew) as [H1 H2]. auto.
Qed.

(** X23: the rewards of a run. The back-fill leaves the purchases that
    were there in place and only appends rows; each row it appends is a
    completed purchase of provider "achievement" at price 0, not a gift,
    for a developer and an achievement that exist, that were not unlocked
    before the run and that the developer qualifies for, and its item is the
    reward item of that achievement, whose reward type is "unlock_item". *)
Theorem backfill_rewards_are_earned (now : Z) (d : db) :
  exists extra,
    purchases (main now d) = (purchases d ++ extra)%list
    /\ Forall (fun r =>
                 Purchases.provider r = "achievement"
                 /\ Purchases.amount_cents r = 0
                 /\ Purchases.status r = "completed"
                 /\ Purchases.gifted_to r = None
                 /\ exists x a,
                      developers d !! Purchases.developer_id r = Some x
                      /\ In a (achievements d)
                      /\ ((Purchases.developer_id r, Achievements.id a)
                          ∉ developer_achievements d)
                      /\ qualifies (stats_of (Purchases.developer_id r) x d) a = true
                      /\ Achievements.reward_type a = "unlock_item"
                      /\ Achievements.reward_item_id a = Some (Purchases.item_id r)
                      /\ Purchases.provider_tx_id r
                         = Some ("achievement_"
                                 ++ unlock_key (Purchases.developer_id r)
                                      (Achievements.id a)))
         extra.
Proof.
  destruct (BackfillFacts.write_extends now (collect d) d)
    as (_ & _ & _ & (extra & Hp & Hrows) & _).
  fold (main now d) in Hp. exists extra. split; [exact Hp|].
  eapply Forall_impl; [exact Hrows|].
  intros r (p & id & Hin & ->). simpl.
  repeat (split; [reflexivity|]).
  destruct (collect_from_new_unlocks d) as [_ Hps].
  rewrite List.Forall_forall in Hps. destruct (Hps _ Hin) as (x & a & Hdev & Ha & Hr).
  apply newUnlocks_In in Ha as (Ha & Hnot & Hq).
  apply BackfillFacts.load_developers_lookup in Hdev.
  exists x, a. repeat (split; [assumption|]).
  unfold reward_of in Hr.
  destruct (String.eqb_spec (Achievements.reward_type a) "unlock_item") as [Ety|];
    [|discriminate].
  destruct (Achievements.reward_item_id a) as [i|]; [|discriminate].
  simpl in Hr. destruct (negb (String.eqb i "")); [|discriminate].
  injection Hr as <-. simpl. auto.
Qed.

(** The feed events of the batches: one for each developer, in the order of
    the load, that has a new unlock. *)
Definition busy (d : db) (dev : Z * Developers.row) : bool :=
  match newUnlocks (load_existing d) (load_achievements d) (fst dev)
          (stats_of (fst dev) (snd dev) d) with
  | [] => false
  | _ => true
  end.

Definition announce (d : db) (dev : Z * Developers.row) : feed_draft :=
  {| event_type := "achievement_unlocked"; actor_id := fst dev;
     metadata := unlock_metadata (Developers.github_login (snd dev))
                   (newUnlocks (load_existing d) (load_achievements d) (fst dev)
                      (stats_of (fst dev) (snd dev) d)) |}.

Lemma process_feedEvents d acc dev :
  feedEvents (process (load_existing d) (load_achievements d) d acc dev)
  = (feedEvents acc ++ (if busy d dev then [announce d dev] else []))%list
  /\ totalUnlocks acc
     <= totalUnlocks (process (load_existing d) (load_achievements d) d acc dev)
  /\ (busy d dev = true ->
      totalUnlocks acc
      < totalUnlocks (process (load_existing d) (load_achievements d) d acc dev)).
Proof.
  destruct dev as [k x]. unfold process, busy, announce. simpl.
  destruct (newUnlocks _ _ k _) as [|a0 rest] eqn:E.
  - rewrite app_nil_r. split; [reflexivity|]. split; [lia | discriminate].
  - simpl. split; [reflexivity|]. split; [lia | intros _; lia].
Qed.

Lemma foldl_process_total d l acc :
  totalUnlocks acc
  <= totalUnlocks (foldl (process (load_existing d) (load_achievements d) d) acc l).
Proof.
  revert acc. induction l as [|dev l IH]; intros acc; simpl; [lia|].
  destruct (process_feedEvents d acc dev) as (_ & Hle & _).
  specialize (IH (process (load_existing d) (load_achievements d) d acc dev)). lia.
Qed.

Lemma foldl_process_feedEvents d l acc :
  feedEvents (foldl (process (load_existing d) (load_achievements d) d) acc l)
  = (feedEvents acc ++ map (announce d) (List.filter (busy d) l))%list.
Proof.
  revert acc. induction l as [|dev l IH]; intros acc; simpl.
  - now rewrite app_nil_r.
  - rewrite IH. destruct (process_feedEvents d acc dev) as (E & _ & _).
    rewrite E, <- app_assoc. f_equal. now destruct (busy d dev).
Qed.

Lemma foldl_process_zero d l acc :
  totalUnlocks (foldl (process (load_existing d) (load_achievements d) d) acc l)
  = totalUnlocks acc ->
  List.filter (busy d) l = [].
Proof.
  revert acc. induction l as [|dev l IH]; intros acc; simpl; [reflexivity|].
  intros H.
  destruct (process_feedEvents d acc dev) as (_ & Hle & Hlt).
  pose proof (foldl_process_total d l
                (process (load_existing d) (load_achievements d) d acc dev)) as Hmono.
  destruct (busy d dev) eqn:Eb.
  - specialize (Hlt eq_refl). lia.
  - apply (IH (process (load_existing d) (load_achievements d) d acc dev)). lia.
Qed.

Lemma insert_feed_rows now events d :
  exists extra,
    activity_feed (insert_feed now events d) = (activity_feed d ++ extra)%list
    /\ Forall2 (fun e ev =>
                  ActivityFeed.event_type e = event_type ev
                  /\ ActivityFeed.actor_id e = Some (actor_id ev)
                  /\ ActivityFeed.target_id e = None
                  /\ ActivityFeed.metadata e = metadata ev
                  /\ ActivityFeed.created_at e = now)
         extra events.
Proof.
  unfold insert_feed. revert d. induction events as [|ev events IH]; intros d; simpl.
  - exists []. rewrite app_nil_r. split; [reflexivity | constructor].
  - destruct (IH (Db.insert_feed_event now (event_type ev) (Some (actor_id ev)) None
                    (metadata ev) d)) as (extra & E & Hrows).
    eexists (_ :: extra). split.
    + rewrite E. simpl. rewrite <- app_assoc. reflexivity.
    + constructor; [|exact Hrows]. simpl. auto.
Qed.

(** The developers of the load are pairwise different. *)
Lemma load_developers_NoDup d : NoDup (map fst (load_developers d)).
Proof.
  unfold load_developers.
  rewrite (sort_perm by_rank (map_to_list (developers d))).
  apply NoDup_fst_map_to_list.
Qed.

Lemma announced_rows d now l extra :
  (forall dev, In dev l ->
     developers d !! fst dev = Some (snd dev) /\ busy d dev = true) ->
  Forall2 (fun e ev =>
             ActivityFeed.event_type e = event_type ev
             /\ ActivityFeed.actor_id e = Some (actor_id ev)
             /\ ActivityFeed.target_id e = None
             /\ ActivityFeed.metadata e = metadata ev
             /\ ActivityFeed.created_at e = now)
    extra (map (announce d) l) ->
  map ActivityFeed.actor_id extra = map (fun dev => Some (fst dev)) l
  /\ Forall (fun e =>
               exists k x,
                 developers d !! k = Some x
                 /\ busy d (k, x) = true
                 /\ ActivityFeed.event_type e = "achievement_unlocked"
                 /\ ActivityFeed.actor_id e = Some k
                 /\ ActivityFeed.target_id e = None
                 /\ ActivityFeed.metadata e = metadata (announce d (k, x))
                 /\ ActivityFeed.created_at e = now)
       extra.
Proof.
  revert extra. induction l as [|[k x] l IH]; intros extra Hsub H; simpl in H.
  - apply Forall2_nil_inv_r in H. subst extra. split; [reflexivity | constructor].
  - apply Forall2_cons_inv_r in H
      as (e & extra' & (Hty & Ha & Htg & Hmd & Hat) & Hrest & ->).
    destruct (IH extra') as [Hm Hf]; [intros dev' Hin; apply Hsub; now right | exact Hrest|].
    destruct (Hsub (k, x) (or_introl eq_refl)) as [Hk Hb]. simpl in *.
    split; [now rewrite Ha, Hm|].
    constructor; [|exact Hf].
    exists k, x. repeat (split; [assumption|]). assumption.
Qed.

(** X24: the feed events of a run. The back-fill keeps the activity feed
    and appends to it exactly one event for each developer that gets at
    least one new unlock, and none for any other: the events appended have
    pairwise different actors; each is of type "achievement_unlocked", has
    no target, carries the time of the run and the metadata built from the
    developer's login and new unlocks; and every developer with a new
    unlock is the actor of one of them. *)
Theorem backfill_one_event_per_developer (now : Z) (d : db) :
  exists extra,
    activity_feed (main now d) = (activity_feed d ++ extra)%list
    /\ NoDup (map ActivityFeed.actor_id extra)
    /\ Forall (fun e =>
                 exists k x,
                   developers d !! k = Some x
                   /\ busy d (k, x) = true
                   /\ ActivityFeed.event_type e = "achievement_unlocked"
                   /\ ActivityFeed.actor_id e = Some k
                   /\ ActivityFeed.target_id e = None
                   /\ ActivityFeed.metadata e = metadata (announce d (k, x))
                   /\ ActivityFeed.created_at e = now)
         extra
    /\ (forall k x, developers d !! k = Some x -> busy d (k, x) = true ->
          In (Some k) (map ActivityFeed.actor_id extra)).
Proof.
  pose proof (foldl_process_feedEvents d (load_developers d) no_batches) as Hev.
  fold (collect d) in Hev. simpl in Hev.
  assert (Hload : forall k x, developers d !! k = Some x -> In (k, x) (load_developers d)).
  { intros k x Hk. unfold load_developers. apply sort_In_iff, list_elem_of_In.
    now apply elem_of_map_to_list. }
  unfold main, write. destruct (Z.eqb_spec (totalUnlocks (collect d)) 0) as [Hz|Hnz].
  - exists []. rewrite app_nil_r. split; [reflexivity|]. split; [constructor|].
    split; [constructor|]. intros k x Hk Hb.
    pose proof (foldl_process_zero d (load_developers d) no_batches Hz) as Hnone.
    assert (Hin : In (k, x) (List.filter (busy d) (load_developers d)))
      by (apply filter_In; auto).
    rewrite Hnone in Hin. destruct Hin.
  - destruct (insert_feed_rows now (feedEvents (collect d))
                (grant_rewards (purchaseRows (collect d))
                   (upsert_unlocks (unlockRows (collect d)) d)))
      as (extra & E & Hrows).
    destruct (BackfillFacts.grant_rewards_same (purchaseRows (collect d))
                (upsert_unlocks (unlockRows (collect d)) d))
      as (_ & _ & _ & Hfeed & _).
    rewrite Hfeed in E. simpl in E.
    exists extra. split; [exact E|].
    rewrite Hev in Hrows.
    destruct (announced_rows d now (List.filter (busy d) (load_developers d)) extra)
      as [Hactors Hshape]; [|exact Hrows|].
    { intros [k x] Hin. apply filter_In in Hin as [Hin Hb]. split; [|exact Hb].
      now apply BackfillFacts.load_developers_lookup. }
    split; [|split; [exact Hshape|]].
    + rewrite Hactors. rewrite <- (map_map fst Some).
      apply (NoDup_fmap_2 Some).
      apply (sublist_NoDup _ (map fst (load_developers d)));
        first [apply load_developers_NoDup
              |apply fmap_sublist, PurchasesFacts.filter_bool_sublist].
    + intros k x Hk Hb. rewrite Hactors.
      apply in_map_iff. exists (k, x). split; [reflexivity|].
      apply filter_In. auto.
Qed.

End BackfillMore.

(** ** Owned items, one developer and many *)

Module ItemsLibMore.
Import ItemsLib.

Lemma push_item_lookup result row k :
  push_item result row !! k
  = if Purchases.developer_id row =? k
    then Some (JS.nullish (result !! k) [] ++ [Purchases.item_id row])%list
    else result !! k.
Proof.
  unfold push_item. rewrite lookup_alter.
  destruct (Z.eqb_spec (Purchases.developer_id row) k) as [->|Hne].
  - rewrite decide_True by reflexivity.
    destruct (result !! k) as [v|] eqn:E; simpl.
    + now rewrite E.
    + now rewrite lookup_insert_eq.
  - rewrite decide_False by exact Hne.
    destruct (result !! Purchases.developer_id row); [reflexivity|].
    now apply lookup_insert_ne.
Qed.

Lemma foldl_push_item_lookup rows result k :
  foldl push_item result rows !! k
  = let mine := map Purchases.item_id
                  (List.filter (fun r => Purchases.developer_id r =? k) rows) in
    match result !! k with
    | Some v => Some (v ++ mine)%list
    | None => match mine with [] => None | _ => Some mine end
    end.
Proof.
  revert result. induction rows as [|r rows IH]; intros result; simpl.
  - destruct (result !! k); [now rewrite app_nil_r | reflexivity].
  - rewrite IH, push_item_lookup.
    destruct (Purchases.developer_id r =? k); simpl.
    + destruct (result !! k); simpl; [now rewrite <- app_assoc | reflexivity].
    + reflexivity.
Qed.

Lemma filter_of_developer ids k (rows : list Purchases.row) :
  List.filter (fun r => Purchases.developer_id r =? k)
    (List.filter
       (fun r => existsb (Z.eqb (Purchases.developer_id r)) ids
                 && Purchases.has_status "completed" r) rows)
  = if existsb (Z.eqb k) ids
    then List.filter
           (fun r => (Purchases.developer_id r =? k)
                     && Purchases.has_status "completed" r) rows
    else [].
Proof.
  induction rows as [|r rows IH]; cbn [List.filter]; [now destruct (existsb _ ids)|].
  destruct (Purchases.has_status "completed" r);
    rewrite ?andb_true_r, ?andb_false_r.
  - destruct (Z.eqb_spec (Purchases.developer_id r) k) as [E|Hne].
    + rewrite E. destruct (existsb (Z.eqb k) ids) eqn:Ein; cbn [List.filter].
      * apply Z.eqb_eq in E. rewrite E. now rewrite IH.
      * exact IH.
    + apply Z.eqb_neq in Hne.
      destruct (existsb (Z.eqb (Purchases.developer_id r)) ids); cbn [List.filter];
        rewrite ?Hne; exact IH.
  - exact IH.
Qed.

Lemma filter_bool_Permutation {A} (f : A -> bool) (l l' : list A) :
  l ≡ₚ l' -> List.filter f l ≡ₚ List.filter f l'.
Proof.
  induction 1 as [|x l l' _ IH|x y l|l l' l'' _ IH1 _ IH2]; simpl.
  - reflexivity.
  - destruct (f x); [now constructor | exact IH].
  - destruct (f x), (f y); try reflexivity. apply perm_swap.
  - now transitivity (List.filter f l').
Qed.

(** X25: the batch lookup agrees with the single one, up to the order of
    the rows. Let each select be answered with the matching rows in some
    order. For every developer [k], the result of
    [getOwnedItemsForDevelopers ids] has an entry for [k] exactly when [k]
    is among [ids] and [getOwnedItems k] is not empty (a developer with no
    item has no entry, not an empty list), and that entry holds the items
    [getOwnedItems k] gives, each as often, possibly in another order. *)
Theorem getOwnedItemsForDevelopers_lookup
    (single_order batch_order : list Purchases.row -> list Purchases.row)
    (ids : list Z) (d : db) (k : Z) :
  (forall rows, single_order rows ≡ₚ rows) ->
  (forall rows, batch_order rows ≡ₚ rows) ->
  match getOwnedItemsForDevelopers batch_order ids d !! k with
  | Some owned =>
      existsb (Z.eqb k) ids = true
      /\ owned <> []
      /\ owned ≡ₚ getOwnedItems single_order k d
  | None =>
      existsb (Z.eqb k) ids = false \/ getOwnedItems single_order k d = []
  end.
Proof.
  intros Hsingle Hbatch.
  unfold getOwnedItemsForDevelopers, getOwnedItems.
  destruct ids as [|i ids]; [rewrite lookup_empty; now left|].
  rewrite foldl_push_item_lookup, lookup_empty. cbv zeta.
  set (F := List.filter
              (fun r => existsb (Z.eqb (Purchases.developer_id r)) (i :: ids)
                        && Purchases.has_status "completed" r) (purchases d)).
  set (G := List.filter
              (fun r => (Purchases.developer_id r =? k)
                        && Purchases.has_status "completed" r) (purchases d)).
  assert (Hmine : List.filter (fun r => Purchases.developer_id r =? k) (batch_order F)
                  ≡ₚ if existsb (Z.eqb k) (i :: ids) then single_order G else []).
  { rewrite (filter_bool_Permutation _ _ _ (Hbatch F)).
    unfold F. rewrite filter_of_developer. fold G.
    destruct (existsb (Z.eqb k) (i :: ids)); [now rewrite Hsingle | reflexivity]. }
  apply (Permutation_map Purchases.item_id) in Hmine.
  destruct (map Purchases.item_id
              (List.filter (fun r => Purchases.developer_id r =? k) (batch_order F)))
    as [|x mine].
  - destruct (existsb (Z.eqb k) (i :: ids)); [right | now left].
    now apply Permutation_nil in Hmine.
  - destruct (existsb (Z.eqb k) (i :: ids)).
    + split; [reflexivity|]. split; [discriminate | exact Hmine].
    + simpl in Hmine. symmetry in Hmine. apply Permutation_nil in Hmine.
      discriminate Hmine.
Qed.

(** Octo's two items, the single select answered in the order of the
    table and the batch select in the reverse order. *)
Lemma getOwnedItemsForDevelopers_lookup_witness :
  getOwnedItems (fun rows => rows) 1 LoadoutFacts.city = ["flag"; "raid_drone"]
  /\ getOwnedItemsForDevelopers (@rev Purchases.row) [1; 2] LoadoutFacts.city !! 1
     = Some ["raid_drone"; "flag"]
  /\ match getOwnedItemsForDevelopers (@rev Purchases.row) [1; 2] LoadoutFacts.city !! 1 with
     | Some owned =>
         existsb (Z.eqb 1) [1; 2] = true
         /\ owned <> []
         /\ owned ≡ₚ getOwnedItems (fun rows => rows) 1 LoadoutFacts.city
     | None =>
         existsb (Z.eqb 1) [1; 2] = false
         \/ getOwnedItems (fun rows => rows) 1 LoadoutFacts.city = []
     end.
Proof.
  split; [reflexivity|]. split; [vm_compute; reflexivity|].
  apply (getOwnedItemsForDevelopers_lookup (fun rows => rows) (@rev Purchases.row)
           [1; 2] LoadoutFacts.city 1).
  - reflexivity.
  - intros rows. symmetry. apply Permutation_rev.
Defined.

End ItemsLibMore.

(** ** Purchase status *)

Module PurchaseStatusMore.
Import PurchaseStatus.

Section Texts.
Variable uuid_of_text : string -> option positive.

(** X26: the status endpoint tells a developer only about their own
    purchases. When the GET answers 200, there is a session user whose
    login is that of a developer [k], the [purchase_id] parameter denotes
    the id of a purchase of [k], and the response carries the status of
    that purchase. *)
Theorem purchase_status_own_only (purchase_id : option string) (user : option User)
    (d : db) :
  status (GET uuid_of_text purchase_id user d) = 200 ->
  exists text u k row r,
    purchase_id = Some text /\ user = Some u
    /\ Db.developer_by_login (github_login_of u) d = Some (k, row)
    /\ In r (purchases d)
    /\ uuid_of_text text = Some (Purchases.id r)
    /\ Purchases.developer_id r = k
    /\ GET uuid_of_text purchase_id user d
       = respond 200 (JObj [("status", JStr (Purchases.status r))]).
Proof.
  unfold GET. destruct purchase_id as [text|]; [|discriminate]. simpl.
  destruct (String.eqb text ""); [discriminate|]. simpl.
  destruct user as [u|]; [|discriminate].
  destruct (Db.developer_by_login (github_login_of u) d) as [[k row]|] eqn:Ek;
    [|discriminate].
  unfold purchase_of.
  destruct (uuid_of_text text) as [id|] eqn:Eid; [|discriminate].
  destruct (single _) as [r|] eqn:Er; [|discriminate].
  intros _. apply single_Some in Er.
  assert (Hin : In r (List.filter
                        (fun r => Pos.eqb (Purchases.id r) id
                                  && (Purchases.developer_id r =? k)) (purchases d)))
    by (rewrite Er; now left).
  apply filter_In in Hin as [Hin Hm]. apply andb_true_iff in Hm as [Hi Hk].
  apply Pos.eqb_eq in Hi. apply Z.eqb_eq in Hk. subst id.
  exists text, u, k, row, r. repeat (split; [first [reflexivity | assumption]|]).
  reflexivity.
Qed.

Lemma filter_by_key (t : list Purchases.row) r k :
  NoDup (map Purchases.id t) -> In r t ->
  List.filter (fun x => Pos.eqb (Purchases.id x) (Purchases.id r)
                        && (Purchases.developer_id x =? k)) t
  = if Purchases.developer_id r =? k then [r] else [].
Proof.
  induction t as [|y t IH]; simpl; [intros _ []|].
  intros Hnd Hin. apply NoDup_cons in Hnd as [Hy Hnd].
  destruct Hin as [->|Hin].
  - rewrite Pos.eqb_refl. simpl.
    assert (Hrest : List.filter
                      (fun x => Pos.eqb (Purchases.id x) (Purchases.id r)
                                && (Purchases.developer_id x =? k)) t = []).
    { apply filter_bool_nil. intros x Hx.
      destruct (Pos.eqb_spec (Purchases.id x) (Purchases.id r)) as [E|]; [|reflexivity].
      exfalso. apply Hy. rewrite <- E. apply list_elem_of_In, in_map, Hx. }
    rewrite Hrest. now destruct (Purchases.developer_id r =? k).
  - destruct (Pos.eqb_spec (Purchases.id y) (Purchases.id r)) as [E|]; simpl.
    + exfalso. apply Hy. rewrite E. apply list_elem_of_In, in_map, Hin.
    + now apply IH.
Qed.

(** X27: one's own purchase is found, another's is not. Let the primary
    key of [purchases] hold, let the session user's login be that of
    developer [k], and let the [purchase_id] parameter denote the id of a
    purchase [r]. Then the GET answers the status of [r] if [r] belongs to
    [k], and otherwise 404 "Purchase not found", the answer for a purchase
    that does not exist. *)
Theorem purchase_status_GET_found (text : string) (u : User) (k : Z)
    (row : Developers.row) (r : Purchases.row) (d : db) :
  text <> "" ->
  Purchases.purchases_pkey (purchases d) = true ->
  Db.developer_by_login (github_login_of u) d = Some (k, row) ->
  In r (purchases d) ->
  uuid_of_text text = Some (Purchases.id r) ->
  GET uuid_of_text (Some text) (Some u) d
  = if Purchases.developer_id r =? k
    then respond 200 (JObj [("status", JStr (Purchases.status r))])
    else error_response 404 "Purchase not found".
Proof.
  intros Htext Hpk Hk Hin Hid. unfold GET. simpl.
  apply String.eqb_neq in Htext. rewrite Htext. simpl. rewrite Hk.
  unfold purchase_of. rewrite Hid.
  apply bool_decide_eq_true in Hpk.
  rewrite (filter_by_key _ r k Hpk Hin).
  now destruct (Purchases.developer_id r =? k).
Qed.

End Texts.

(** A reading of the texts "p1", "p2", ... *)
Definition numbered (text : string) : option positive :=
  match text with
  | String "p" rest =>
      match Num.parseInt rest with
      | Some (Z.pos p) => Some p
      | _ => None
      end
  | _ => None
  end.

Lemma purchase_status_own_only_witness :
  exists text u k row r,
    Some "p2" = Some text /\ Some LoadoutFacts.octo_user = Some u
    /\ Db.developer_by_login (github_login_of u) LoadoutFacts.city = Some (k, row)
    /\ In r (purchases LoadoutFacts.city)
    /\ numbered text = Some (Purchases.id r)
    /\ Purchases.developer_id r = k
    /\ GET numbered (Some "p2") (Some LoadoutFacts.octo_user) LoadoutFacts.city
       = respond 200 (JObj [("status", JStr (Purchases.status r))]).
Proof.
  apply (purchase_status_own_only numbered (Some "p2") (Some LoadoutFacts.octo_user)
           LoadoutFacts.city).
  vm_compute. reflexivity.
Defined.

(** Mona, who has no purchase, asks about a purchase of Octo. *)
Definition mona_user : User :=
  {| user_id := "u2"; email := None; user_name := Some "mona";
     preferred_username := None |}.

Definition two_owners : db :=
  Db.with_developers
    (<[2 := KudosFacts.dev "mona" (Some "u2")]> (developers LoadoutFacts.city))
    LoadoutFacts.city.

Lemma purchase_status_GET_found_witness :
  GET numbered (Some "p2") (Some mona_user) two_owners
  = error_response 404 "Purchase not found".
Proof.
  apply (purchase_status_GET_found numbered "p2" mona_user 2
           (KudosFacts.dev "mona" (Some "u2")) (LoadoutFacts.owns 2 "raid_drone")
           two_owners).
  - discriminate.
  - vm_compute. reflexivity.
  - vm_compute. reflexivity.
  - right. left. reflexivity.
  - vm_compute. reflexivity.
Defined.

End PurchaseStatusMore.

(** ** Sky-ad events *)

Module SkyAdTrackMore.
Import SkyAdTrack.

(** The types are valid ones and pairwise different. *)
Definition clean (types : list string) : Prop :=
  NoDup types /\ Forall (fun t => In t VALID_EVENTS) types.

Lemma single_type_clean b : clean (single_type b).
Proof.
  unfold single_type, clean.
  destruct (Json.field "event_type" b) as [[| | |t| |]|];
    try (split; constructor).
  destruct (JS.includes VALID_EVENTS t) eqn:E; [|split; constructor].
  apply includes_In in E. split.
  - apply NoDup_singleton.
  - constructor; [exact E | constructor].
Qed.

Lemma add_type_clean types t : clean types -> clean (add_type types t).
Proof.
  intros [Hnd Hv]. unfold add_type. destruct t as [| | |s| |]; try (split; assumption).
  destruct (JS.includes VALID_EVENTS s) eqn:E; simpl; [|split; assumption].
  destruct (JS.includes types s) eqn:E'; simpl; [split; assumption|].
  apply includes_In in E.
  assert (Hnot : ~ In s types).
  { intros Hin. apply includes_In in Hin. congruence. }
  split.
  - apply NoDup_app. split; [exact Hnd|]. split.
    + intros x Hx Hs. apply list_elem_of_In in Hx, Hs. destruct Hs as [<-|[]]. auto.
    + apply NoDup_singleton.
  - apply Forall_app. split; [exact Hv|]. constructor; [exact E | constructor].
Qed.

Lemma types_of_clean b : clean (types_of b).
Proof.
  unfold types_of.
  destruct (Json.field "event_types" b) as [[| | | |ts|]|];
    try apply single_type_clean.
  apply foldl_invariant; [apply single_type_clean|].
  intros acc t _. apply add_type_clean.
Qed.

Ltac no_rows :=
  split; [constructor|]; split; [constructor|]; split; [simpl; lia|];
  split; [intros E; vm_compute in E; discriminate E | intros E; now contradiction E].

Section Hash.
Variable hashIP : string -> string.

(** X28: the rows of a tracking request. Whatever the request, the rows
    the handler inserts have pairwise different event types, all among
    "impression", "click" and "cta_click", so there are at most three; they
    all carry the hash of the caller's address and the non-empty [ad_id] of
    the body; and there is at least one row exactly when the answer is
    201. *)
Theorem track_POST_rows (req : request) :
  let rows := snd (POST hashIP req) in
  NoDup (map event_type rows)
  /\ Forall (fun r =>
               In (event_type r) VALID_EVENTS
               /\ ip_hash r = hashIP (ip req)
               /\ ad_id r <> ""
               /\ (Json.field "ad_id" <$> body req) = Some (Some (JStr (ad_id r))))
       rows
  /\ (length rows <= 3)%nat
  /\ (status (fst (POST hashIP req)) = 201 <-> rows <> []).
Proof.
  unfold POST. cbv zeta.
  destruct (rate_ok req); cbn [negb]; [|no_rows].
  destruct (body req) as [b|] eqn:Eb; [|no_rows].
  assert (Hfield : forall b', b' = b ->
            (Json.field "ad_id" <$> Some b) = Some (Json.field "ad_id" b'))
    by (now intros b' ->).
  destruct (Json.field "ad_id" b) as [[| | |ad| |]|] eqn:Ead;
    try (destruct b; no_rows).
  destruct (String.eqb_spec ad "") as [|Had]; [destruct b; no_rows|].
  destruct (types_of_clean b) as [Hnd Hv].
  destruct (types_of b) as [|t0 ts] eqn:Et; [destruct b; no_rows|].
  assert (Hgoal :
    let rows :=
      map (fun t => {| ad_id := ad; event_type := t; ip_hash := hashIP (ip req);
                       user_agent := String.substring 0 256 <$> user_agent_header req;
                       github_login :=
                         match Json.field "github_login" b with
                         | Some (JStr l) =>
                             Some (JS.toLowerCase (String.substring 0 39 l))
                         | _ => None
                         end |})
          (t0 :: ts) in
    NoDup (map event_type rows)
    /\ Forall (fun r =>
                 In (event_type r) VALID_EVENTS
                 /\ ip_hash r = hashIP (ip req)
                 /\ ad_id r <> ""
                 /\ (Json.field "ad_id" <$> Some b) = Some (Some (JStr (ad_id r))))
         rows
    /\ (length rows <= 3)%nat
    /\ (status (fst (respond 201 (JObj [("ok", JBool true)]), rows)) = 201
        <-> rows <> [])).
  { cbv zeta. rewrite map_map. cbn [event_type]. rewrite map_id.
    split; [exact Hnd|]. split; [|split].
    - apply List.Forall_forall. intros r Hr. apply in_map_iff in Hr as (t & <- & Ht).
      rewrite List.Forall_forall in Hv. cbn [event_type ip_hash ad_id].
      split; [now apply Hv|]. split; [reflexivity|]. split; [exact Had|].
      rewrite (Hfield b eq_refl), Ead. reflexivity.
    - rewrite length_map.
      apply (NoDup_incl_length (l' := VALID_EVENTS)).
      + now apply NoDup_ListNoDup.
      + intros t Ht. rewrite List.Forall_forall in Hv. auto.
    - split; [discriminate | reflexivity]. }
  destruct b; first [exact Hgoal | discriminate Ead].
Qed.

End Hash.

End SkyAdTrackMore.

(** ** Raid history: the total and the active tag *)

Module RaidHistoryMore.
Import RaidHistory.

Lemma count_either (k : Z) (t : list Raids.row) :
  Forall (fun r => Raids.attacker_id r <> Raids.defender_id r) t ->
  total k t
  = Z.of_nat (length (List.filter
                        (fun r => (Raids.attacker_id r =? k)
                                  || (Raids.defender_id r =? k)) t)).
Proof.
  unfold total. induction 1 as [|r t Hr _ IH]; simpl; [reflexivity|].
  destruct (Z.eqb_spec (Raids.attacker_id r) k) as [Ea|Ea];
    destruct (Z.eqb_spec (Raids.defender_id r) k) as [Ed|Ed]; simpl;
    lia.
Qed.

(** X29: the total of the raid history counts every raid once. Whatever
    statements have run against the [raids] table, the [total] the history
    endpoint reports for a developer, which adds the number of raids the
    developer made to the number of raids made against it, is the number of
    raids the developer is part of: no raid is counted twice, for the table
    holds no raid of a developer against itself. *)
Theorem raid_history_total_counts_once (ss : list (stmt Raids.row)) (k : Z) :
  let t := run Raids.admissible ss [] in
  total k t
  = Z.of_nat (length (List.filter
                        (fun r => (Raids.attacker_id r =? k)
                                  || (Raids.defender_id r =? k)) t)).
Proof.
  cbv zeta. apply count_either, RaidsFacts.admissible_no_self.
  apply run_admissible. reflexivity.
Qed.

Lemma one_active_per_building (b : Z) (t : list RaidTags.row) :
  RaidTags.admissible t = true ->
  (length (List.filter
             (fun r => (RaidTags.building_id r =? b)%Z && RaidTags.active r) t)
   <= 1)%nat.
Proof.
  unfold RaidTags.admissible. intros H. apply andb_prop in H as [_ H].
  unfold RaidTags.idx_raid_tags_building_active in H.
  apply bool_decide_eq_true in H. apply NoDup_ListNoDup in H.
  induction t as [|r t IH]; simpl; [lia|]. simpl in H.
  destruct (RaidTags.active r) eqn:Ea; rewrite ?andb_true_r, ?andb_false_r.
  - simpl in H. apply List.NoDup_cons_iff in H as [Hn H].
    destruct (Z.eqb_spec (RaidTags.building_id r) b) as [E|_]; [|now apply IH].
    assert (Hnil : List.filter
                     (fun x => (RaidTags.building_id x =? b) && RaidTags.active x) t
                   = []).
    { apply filter_bool_nil. intros x Hx.
      destruct (Z.eqb_spec (RaidTags.building_id x) b) as [Ex|]; [|reflexivity].
      destruct (RaidTags.active x) eqn:Eax; [|reflexivity].
      exfalso. apply Hn. rewrite E, <- Ex. apply in_map, filter_In. auto. }
    rewrite Hnil. simpl. lia.
  - now apply IH.
Qed.

(** X30: the active tag of the history is the active tag of the building.
    Whatever statements have run against the [raid_tags] table, the query
    of the history endpoint for the active tag of a building yields a row
    exactly when that row is in the table, is of the building and is
    active; so an active tag is never hidden by another one. *)
Theorem raid_history_active_tag (ss : list (stmt RaidTags.row)) (b : Z)
    (r : RaidTags.row) :
  let t := run RaidTags.admissible ss [] in
  active_tag b t = Some r
  <-> In r t /\ RaidTags.building_id r = b /\ RaidTags.active r = true.
Proof.
  cbv zeta.
  assert (Hadm : RaidTags.admissible (run RaidTags.admissible ss []) = true)
    by (apply run_admissible; reflexivity).
  pose proof (one_active_per_building b _ Hadm) as Hone.
  unfold active_tag.
  assert (Hin : forall x,
            In x (List.filter
                    (fun r => (RaidTags.building_id r =? b) && RaidTags.active r)
                    (run RaidTags.admissible ss []))
            <-> In x (run RaidTags.admissible ss [])
                /\ RaidTags.building_id x = b /\ RaidTags.active x = true).
  { intros x. rewrite filter_In, andb_true_iff, Z.eqb_eq. tauto. }
  rewrite <- Hin.
  destruct (List.filter _ (run RaidTags.admissible ss [])) as [|x [|y rest]];
    simpl in *; [| |lia].
  - split; [discriminate | intros []].
  - split; [intros [= <-]; now left | intros [<-|[]]; reflexivity].
Qed.

End RaidHistoryMore.
